(** * Clotho: configuration resolution and tool execution

    A shallow embedding of the core of the Clotho package
    ([utils.py], [clothodb.py], [sqlitedb.py], [resource.py],
    [resourceshed.py], [toolparam.py], [tool.py]) together with the
    properties its specification states about it.

    Modelling conventions.
    - Python values are the inductive type [value]; [None] is [VNone].
    - Python dictionaries whose iteration order is observable (configs, rows,
      keyword arguments, parameters) are insertion-ordered association lists
      with unique keys ([dict], and [vdict] where the keys are values taken
      from table cells); the table store, which is only read and written by
      table name, is a [gmap].
    - The SQLite file is a finite map from table names to tables.  A table is
      a list of column names and a list of rows.  SQL text is not modelled:
      a query is a structured filter, a write stores the cells it is given
      (the dtype casts of the schema template and SQLite's type affinity are
      outside the model).
    - [str.lower] is ASCII lower-casing.
    - Exceptions are the [Raise] results of an error monad; code that also
      mutates objects, writes to the log or calls the target runs in a state
      and error monad over [state].  Log records below the default [INFO]
      threshold are not modelled. *)

From Stdlib Require Import ZArith List String Ascii Bool Lia.
From stdpp Require Import base option list gmap strings pretty.

Open Scope string_scope.
Open Scope Z_scope.

Set Warnings "-register-all".

(** ** Python values *)

Inductive value : Type :=
| VNone
| VBool (b : bool)
| VInt (z : Z)
| VStr (s : string)
| VPath (p : string)
| VTuple (vs : list value)
| VList (vs : list value).

Definition is_none (v : value) : bool :=
  match v with VNone => true | _ => false end.

Definition is_str (v : value) : bool :=
  match v with VStr _ => true | _ => false end.

(** Python truthiness ([bool(v)]); a [pathlib.Path] defines neither
    [__bool__] nor [__len__] and is always true. *)
Definition py_truthy (v : value) : bool :=
  match v with
  | VNone => false
  | VBool b => b
  | VInt z => negb (z =? 0)
  | VStr s => negb (String.eqb s EmptyString)
  | VPath _ => true
  | VTuple vs | VList vs => match vs with [] => false | _ => true end
  end.

(** [a or b] *)
Definition py_or (a b : value) : value := if py_truthy a then a else b.

Fixpoint join (sep : string) (l : list string) : string :=
  match l with
  | [] => EmptyString
  | [x] => x
  | x :: rest => x +:+ sep +:+ join sep rest
  end.

(** [repr(v)]; string escapes are not modelled. *)
Fixpoint py_repr (v : value) : string :=
  match v with
  | VNone => "None"
  | VBool true => "True"
  | VBool false => "False"
  | VInt z => pretty z
  | VStr s => "'" +:+ s +:+ "'"
  | VPath p => "PosixPath('" +:+ p +:+ "')"
  | VTuple vs =>
      "(" +:+ join ", " (map py_repr vs)
          +:+ (match vs with [_] => "," | _ => EmptyString end) +:+ ")"
  | VList vs => "[" +:+ join ", " (map py_repr vs) +:+ "]"
  end.

(** [str(v)] *)
Definition py_str (v : value) : string :=
  match v with
  | VStr s => s
  | VPath p => p
  | _ => py_repr v
  end.

(** Python [==] on values: [True == 1], and a path never equals a string. *)
Fixpoint py_eqb (a b : value) : bool :=
  let fix all2 (l1 l2 : list value) : bool :=
    match l1, l2 with
    | [], [] => true
    | x :: l1', y :: l2' => py_eqb x y && all2 l1' l2'
    | _, _ => false
    end in
  match a, b with
  | VNone, VNone => true
  | VBool x, VBool y => Bool.eqb x y
  | VBool x, VInt y | VInt y, VBool x => Z.b2z x =? y
  | VInt x, VInt y => x =? y
  | VStr x, VStr y => String.eqb x y
  | VPath x, VPath y => String.eqb x y
  | VTuple x, VTuple y => all2 x y
  | VList x, VList y => all2 x y
  | _, _ => false
  end.

(** ** Strings *)

Definition lower_ascii (c : ascii) : ascii :=
  let n := nat_of_ascii c in
  if ((65 <=? n) && (n <=? 90))%nat then ascii_of_nat (n + 32) else c.

(** [s.lower()] *)
Fixpoint lower (s : string) : string :=
  match s with
  | EmptyString => EmptyString
  | String c rest => String (lower_ascii c) (lower rest)
  end.

Definition double_quote : ascii := ascii_of_nat 34.

(** The one-character string holding a double quote. *)
Definition dq : string := String double_quote EmptyString.

(** [s.replace] of every single quote by a double quote, as in [end_activity] *)
Fixpoint replace_quotes (s : string) : string :=
  match s with
  | EmptyString => EmptyString
  | String c rest =>
      String (if Ascii.eqb c "'"%char then double_quote else c) (replace_quotes rest)
  end.

(** ** Insertion-ordered dictionaries *)

Definition dict (V : Type) : Type := list (string * V).

Section Dict.
Context {V : Type}.

(** [d.get(k)] *)
Fixpoint dict_get (k : string) (d : dict V) : option V :=
  match d with
  | [] => None
  | (k', v) :: rest => if String.eqb k' k then Some v else dict_get k rest
  end.

(** [d[k] = v]: an existing key keeps its position. *)
Fixpoint dict_set (k : string) (v : V) (d : dict V) : dict V :=
  match d with
  | [] => [(k, v)]
  | (k', v') :: rest =>
      if String.eqb k' k then (k', v) :: rest else (k', v') :: dict_set k v rest
  end.

(** [d.pop(k)] (the remaining dictionary) *)
Fixpoint dict_remove (k : string) (d : dict V) : dict V :=
  match d with
  | [] => []
  | (k', v') :: rest =>
      if String.eqb k' k then rest else (k', v') :: dict_remove k rest
  end.

(** [dict(pairs)] *)
Definition dict_of_list (l : list (string * V)) : dict V :=
  fold_left (fun d kv => dict_set (fst kv) (snd kv) d) l [].

Definition dict_keys (d : dict V) : list string := map fst d.

(** [k in d] *)
Definition dict_mem (k : string) (d : dict V) : bool :=
  match dict_get k d with Some _ => true | None => false end.
End Dict.

(** [d.get(k)] on a dictionary of values, with [None] for a missing key. *)
Definition dget (k : string) (d : dict value) : value :=
  match dict_get k d with Some v => v | None => VNone end.

(** ** Exceptions *)

Inductive exn : Type :=
| ClothoError (msg : string)
| ClothoToolError (msg : string)
| KeyError (key : string)
| AttributeError (msg : string)
| TypeError (msg : string)
| OperationalError (msg : string)
| ValueError (msg : string)
| ImportError (msg : string)
| RecursionError
| DanglingReference.

Inductive result (A : Type) : Type :=
| Ok (a : A)
| Raise (e : exn).
Arguments Ok {A} a.
Arguments Raise {A} e.

Definition rbind {A B} (r : result A) (k : A -> result B) : result B :=
  match r with
  | Ok a => k a
  | Raise e => Raise e
  end.

Declare Scope result_scope.
Delimit Scope result_scope with result.
Notation "'let?' x ':=' c 'in' k" := (rbind c (fun x => k))
  (at level 10, x pattern, c at level 100, k at level 200) : result_scope.
Open Scope result_scope.

(** ** The table store *)

Definition row : Type := dict value.

Record table : Type := mkTable {
  t_columns : list string;
  t_rows : list row
}.

Abbreviation DB := (gmap string table).

Fixpoint has_quote (s : string) : bool :=
  match s with
  | EmptyString => false
  | String c rest => Ascii.eqb c "'"%char || has_quote rest
  end.

(** The [WHERE] clauses the package builds.  The value of [QEq] is
    formatted into the text of the statement, a string between single
    quotes and unescaped. *)
Inductive query : Type :=
| QAll
| QNone                                   (* [0 == 1] *)
| QEq (col : string) (v : value).         (* [col == v] *)

(** A string that holds a single quote ends its literal early.  What
    SQLite makes of the text that follows the quote is not modelled:
    the statement is taken to be malformed, as it is when what follows
    is not SQL. *)
Definition breaks_literal (v : value) : bool :=
  match v with
  | VStr s => has_quote s
  | _ => false
  end.

(** SQL equality of a cell with a literal: [NULL] equals nothing. *)
Definition sql_eqb (cell lit : value) : bool :=
  negb (is_none cell) && negb (is_none lit) && py_eqb cell lit.

(** The literal a value turns into when it is formatted into the query
    text: a string is quoted, a number stays a number, and anything
    else does not make a valid statement. *)
Definition sql_literal (v : value) : option value :=
  match v with
  | VStr s => Some (VStr s)
  | VInt z => Some (VInt z)
  | VBool b => Some (VInt (Z.b2z b))
  | _ => None
  end.

Definition mem_string (k : string) (l : list string) : bool :=
  existsb (String.eqb k) l.

(** [SQLiteDB.get] / [ClothoDB.get]: the table, filtered; [None] when the
    read fails (the exception is caught and logged at debug level): for
    a table the store does not have, for a malformed statement, and,
    as the model has it, for a column the table does not have. *)
Definition db_get (db : DB) (table_name : string) (q : query) : option table :=
  match db !! table_name with
  | None => None
  | Some t =>
      match q with
      | QAll => Some t
      | QNone => Some (mkTable (t_columns t) [])
      | QEq col v =>
          if mem_string col (t_columns t) && negb (breaks_literal v)
          then Some (mkTable (t_columns t)
                       (List.filter (fun r => sql_eqb (dget col r) v) (t_rows t)))
          else None
      end
  end.

(** [get_columns]: [df.columns] raises on the [None] of a failed read. *)
Definition get_columns (db : DB) (table_name : string) : result (list string) :=
  match db_get db table_name QNone with
  | None => Raise (AttributeError "'NoneType' object has no attribute 'columns'")
  | Some t => Ok (t_columns t)
  end.

(** The one-row protocol shared by both lookups. *)
Definition one_row (msg : string) (rows : list row) : result (option row) :=
  match rows with
  | [] => Ok None
  | [r] => Ok (Some r)
  | _ :: _ :: _ => Raise (ClothoError msg)
  end.

(** [ClothoDB.get_row] *)
Definition get_row (db : DB) (table_name key : string) (v : value)
  : result (option row) :=
  match sql_literal v with
  | None => Ok None
  | Some lit =>
      match db_get db table_name (QEq key lit) with
      | None => Ok None
      | Some df =>
          one_row ("Multiple rows in " +:+ table_name +:+ " for  "
                     +:+ dq +:+ key +:+ dq +:+ " == " +:+ py_repr v +:+ " .")
                  (t_rows df)
      end
  end.

Definition is_num (v : value) : bool :=
  match v with VInt _ | VBool _ => true | _ => false end.

(** pandas infers a numeric dtype for a column whose cells are all
    numbers or nulls, with at least one number; [.str] refuses it. *)
Definition numeric_dtype (cells : list value) : bool :=
  existsb is_num cells && forallb (fun c => is_num c || is_none c) cells.

(** [df[key].str.lower() == str(value).lower()], cell by cell: a cell
    that is not a string gives a missing value, which equals nothing. *)
Definition matches_insensitive (key : string) (v : value) (r : row) : bool :=
  match dget key r with
  | VStr s => String.eqb (lower s) (lower (py_str v))
  | _ => false
  end.

(** [ClothoDB.get_row_insensitive] *)
Definition get_row_insensitive (db : DB) (table_name key : string) (v : value)
  : result (option row) :=
  match db_get db table_name QAll with
  | None => Ok None
  | Some df =>
      if negb (mem_string key (t_columns df)) then Raise (KeyError key)
      else if numeric_dtype (map (dget key) (t_rows df))
      then Raise (AttributeError "Can only use .str accessor with string values!")
      else
        one_row ("Multiple rows in " +:+ table_name +:+ " for "
                   +:+ key +:+ " == " +:+ py_str v +:+ ".")
                (List.filter (matches_insensitive key v) (t_rows df))
  end.

(** ** The config resolver ([utils.py]) *)

(** [get_case_insensitive]: the first entry, in iteration order, whose
    key equals [key] up to case; [default_value] when there is none. *)
Fixpoint find_insensitive (d : dict value) (key : string) : option value :=
  match d with
  | [] => None
  | (k, v) :: rest =>
      if String.eqb (lower k) (lower key) then Some v else find_insensitive rest key
  end.

Definition get_case_insensitive (d : dict value) (key : string)
    (default_value : value) : value :=
  match find_insensitive d key with
  | Some v => v
  | None => default_value
  end.

(** [if isinstance(val, pathlib.Path): val = str(val)] *)
Definition path_to_str (v : value) : value :=
  match v with
  | VPath p => VStr p
  | _ => v
  end.

(** Truthiness of an optional column name ([if ... and name_column]). *)
Definition name_given (name_column : option string) : option string :=
  match name_column with
  | Some n => if String.eqb n EmptyString then None else Some n
  | None => None
  end.

(** The first half of [fill_config]: the persisted row found by
    identifier, or else by the fallback name column. *)
Definition find_persisted (db : DB) (table_name id_column : string)
    (config : dict value) (id : value) (name_column : option string)
  : result (option row) :=
  let id := get_case_insensitive config id_column id in
  let? row := (if is_none id then Ok None
               else get_row_insensitive db table_name id_column id) in
  match row, name_given name_column with
  | None, Some nc =>
      let name := get_case_insensitive config nc VNone in
      if py_truthy name then get_row_insensitive db table_name nc name
      else Ok None
  | _, _ => Ok row
  end.

(** [dict(zip(columns, [None] * len(columns)))] *)
Definition blank_row (columns : list string) : row :=
  dict_of_list (map (fun c => (c, VNone)) columns).

(** The closing loop of [fill_config]. *)
Definition override (config : dict value) (r : row) : row :=
  map (fun kv => (fst kv, path_to_str (get_case_insensitive config (fst kv) (snd kv)))) r.

(** [fill_config] *)
Definition fill_config (db : DB) (table_name id_column : string)
    (config : option (dict value)) (id : value) (name_column : option string)
  : result row :=
  let config := match config with Some c => c | None => [] end in
  let? found := find_persisted db table_name id_column config id name_column in
  let? r := (match found with
             | Some r => Ok r
             | None =>
                 let? columns := get_columns db table_name in
                 Ok (blank_row columns)
             end) in
  Ok (override config r).

(** ** Dictionaries keyed by arbitrary values

    Parameter names, output names and resource names come out of table
    cells, so the dictionaries keyed by them ([Tool.params], keyword
    arguments, output mappings, [ResourceShed.resources]) are keyed by
    values compared with [==].  Unhashable keys are outside the model. *)

Definition vdict (V : Type) : Type := list (value * V).

Section VDict.
Context {V : Type}.

Fixpoint vdict_get (k : value) (d : vdict V) : option V :=
  match d with
  | [] => None
  | (k', v) :: rest => if py_eqb k' k then Some v else vdict_get k rest
  end.

Fixpoint vdict_set (k : value) (v : V) (d : vdict V) : vdict V :=
  match d with
  | [] => [(k, v)]
  | (k', v') :: rest =>
      if py_eqb k' k then (k', v) :: rest else (k', v') :: vdict_set k v rest
  end.

Definition vdict_of_list (l : list (value * V)) : vdict V :=
  fold_left (fun d kv => vdict_set (fst kv) (snd kv) d) l [].

Definition vdict_mem (k : value) (d : vdict V) : bool :=
  match vdict_get k d with Some _ => true | None => false end.
End VDict.

(** [x in l] for a list *)
Definition py_in (x : value) (l : list value) : bool := existsb (py_eqb x) l.

(** ** Writes to the table store *)

(** A row laid out on a list of columns; a missing cell is null. *)
Definition pad (columns : list string) (r : row) : row :=
  map (fun c => (c, dget c r)) columns.

(** [pd.concat([df, new_row], ignore_index=True)] *)
Definition concat_row (df : table) (new_columns : list string) (r : row) : table :=
  let columns :=
    (t_columns df
       ++ List.filter (fun c => negb (mem_string c (t_columns df))) new_columns)%list in
  mkTable columns (map (pad columns) (t_rows df ++ [r])%list).

(** [df[id_col] != v], cell by cell: a missing value differs from everything. *)
Definition cell_ne (cell v : value) : bool :=
  is_none cell || is_none v || negb (py_eqb cell v).

(** The columns of the one-row frame [set_row] builds: those of the
    template, when the schema has one for the table, and the keys of
    the row. *)
Definition row_columns (template : option (list string)) (r : row) : list string :=
  match template with
  | Some columns =>
      (columns ++ List.filter (fun c => negb (mem_string c columns)) (dict_keys r))%list
  | None => dict_keys r
  end.

(** [df.astype(template.dtypes.to_dict())] on the frame of the rows
    kept: a template column the frame does not have is a [KeyError].
    The frame of a table the store does not have is empty and has no
    column at all. *)
Definition astype_template (template : option (list string)) (df : table)
  : result table :=
  match template with
  | Some columns =>
      match List.filter (fun c => negb (mem_string c (t_columns df))) columns with
      | [] => Ok df
      | missing :: _ => Raise (KeyError missing)
      end
  | None => Ok df
  end.

(** [ClothoDB.set_row].  [template] is the column list of the table in
    [ClothoSchema.yaml], or [None] for a table the schema does not have.
    The write itself ([import_df] with [overwrite]) replaces the table.
    What the casts to the types of the template make of the cells, and
    values SQLite cannot store, are outside the model: the cells are
    stored as they are given. *)
Definition set_row (template : option (list string)) (db : DB)
    (table_name : string) (r : row) (id_col : string) : result DB :=
  let? df :=
    (match db_get db table_name QAll with
     | None => Ok (mkTable [] [])
     | Some df =>
         if negb (mem_string id_col (t_columns df)) then Raise (KeyError id_col)
         else match dict_get id_col r with
              | None => Raise (KeyError id_col)
              | Some idv =>
                  Ok (mkTable (t_columns df)
                        (List.filter (fun old => cell_ne (dget id_col old) idv) (t_rows df)))
              end
     end) in
  let? df := astype_template template df in
  Ok (<[table_name := concat_row df (row_columns template r) r]> db).

(** [quote_val] as it lands in a statement: a string goes between single
    quotes, unescaped, so a string holding a single quote is taken to
    make the statement malformed. *)
Definition quoted_literal (v : value) : option value :=
  match v with
  | VStr s => if has_quote s then None else Some (VStr s)
  | _ => sql_literal v
  end.

(** The assignments of [SQLiteDB.update]: null values are skipped. *)
Fixpoint update_pairs (vals : dict value) : option (dict value) :=
  match vals with
  | [] => Some []
  | (col, v) :: rest =>
      match update_pairs rest with
      | None => None
      | Some ps =>
          if is_none v then Some ps
          else match quoted_literal v with
               | Some lit => Some ((col, lit) :: ps)
               | None => None
               end
      end
  end.

Definition apply_pairs (pairs : dict value) (r : row) : row :=
  fold_left (fun acc kv => dict_set (fst kv) (snd kv) acc) pairs r.

(** [SQLiteDB.update] / [ClothoDB.update] *)
Definition db_update (db : DB) (table_name query_col : string) (query_val : value)
    (vals : dict value) : result DB :=
  match db !! table_name, update_pairs vals, quoted_literal query_val with
  | Some t, Some ((_ :: _) as pairs), Some lit =>
      if mem_string query_col (t_columns t)
         && forallb (fun kv => mem_string (fst kv) (t_columns t)) pairs
      then Ok (<[table_name :=
                   mkTable (t_columns t)
                     (map (fun r => if sql_eqb (dget query_col r) lit
                                    then apply_pairs pairs r else r)
                          (t_rows t))]> db)
      else Raise (OperationalError "no such column")
  | _, _, _ => Raise (OperationalError "malformed statement")
  end.

(** ** Program state and the host environment *)

Inductive level : Type := INFO | WARNING | ERROR.

(** A [Resource] object. *)
Record Resource : Type := mkResource {
  r_config : row;
  r_parent_row : option row;      (* [_parent_row] *)
  r_shed : bool                   (* whether [_resource_shed] is set *)
}.

Record state : Type := mkState {
  st_db : DB;                                (* the SQLite file *)
  st_heap : list Resource;                   (* the cached [Resource] objects, by address *)
  st_shed : vdict nat;                       (* [ResourceShed.resources] *)
  st_log : list (level * string);            (* log records, oldest first *)
  st_calls : list (string * vdict value);    (* target invocations, oldest first *)
  st_uuids : nat;                            (* identifiers issued by [uuid.uuid1] *)
  st_ticks : nat                             (* readings of the clock *)
}.

(** What a target does when it is called. *)
Inductive outcome : Type :=
| Returns (v : value)
| Throws (msg : string).

(** The parts of the host the package reaches into: the schema file
    shipped with it, the module namespace the targets are imported
    from, and the clock. *)
Record host : Type := mkHost {
  schema_template : string -> option (list string);
  import_function : string -> string -> option (vdict value -> outcome);
  clock : nat -> Z;
  strftime : Z -> string;
  timedelta_str : Z -> string
}.

Definition M (A : Type) : Type := state -> result A * state.

Definition ret {A} (a : A) : M A := fun s => (Ok a, s).

Definition raise {A} (e : exn) : M A := fun s => (Raise e, s).

Definition bind {A B} (m : M A) (k : A -> M B) : M B :=
  fun s =>
    match m s with
    | (Ok a, s') => k a s'
    | (Raise e, s') => (Raise e, s')
    end.

Declare Scope m_scope.
Delimit Scope m_scope with M.
Notation "'let*' x ':=' c 'in' k" := (bind c (fun x => k))
  (at level 10, x pattern, c at level 100, k at level 200) : m_scope.
Notation "c ';;' k" := (bind c (fun _ => k))
  (at level 100, k at level 200, right associativity) : m_scope.

Definition set_db (db : DB) (s : state) : state :=
  mkState db (st_heap s) (st_shed s) (st_log s) (st_calls s) (st_uuids s) (st_ticks s).

Definition add_log (lvl : level) (msg : string) (s : state) : state :=
  mkState (st_db s) (st_heap s) (st_shed s) (st_log s ++ [(lvl, msg)])%list
          (st_calls s) (st_uuids s) (st_ticks s).

Definition add_call (path : string) (kwargs : vdict value) (s : state) : state :=
  mkState (st_db s) (st_heap s) (st_shed s) (st_log s)
          (st_calls s ++ [(path, kwargs)])%list (st_uuids s) (st_ticks s).

(** [logging.info], [logging.warning], [logging.error] *)
Definition log (lvl : level) (msg : string) : M unit :=
  fun s => (Ok tt, add_log lvl msg s).

(** The two error classes of the package are only ever raised through
    [raise_error], which writes the message to the log first. *)
Definition logged (e : exn) : option string :=
  match e with
  | ClothoError m | ClothoToolError m => Some m
  | _ => None
  end.

Definition lift_result {A} (r : result A) : M A :=
  fun s =>
    match r with
    | Ok a => (Ok a, s)
    | Raise e =>
        (Raise e, match logged e with Some m => add_log ERROR m s | None => s end)
    end.

(** [logutils.raise_error] *)
Definition raise_error {A} (msg : string) (error_class : string -> exn) : M A :=
  lift_result (Raise (error_class msg)).

Fixpoint pos_digits (p : positive) : string :=
  match p with
  | xH => "1"
  | xO q => String "0"%char (pos_digits q)
  | xI q => String "1"%char (pos_digits q)
  end.

(** [str(uuid.uuid1())]: a fresh identifier at every call, here the
    number of the call spelled in binary digits. *)
Definition uuid_str (n : nat) : string := "uuid-" +:+ pos_digits (Pos.of_succ_nat n).

Definition uuid1 : M value :=
  fun s => (Ok (VStr (uuid_str (st_uuids s))),
            mkState (st_db s) (st_heap s) (st_shed s) (st_log s) (st_calls s)
                    (S (st_uuids s)) (st_ticks s)).

(** [d[k]] *)
Definition getitem (k : string) (d : dict value) : M value :=
  match dict_get k d with
  | Some v => ret v
  | None => raise (KeyError k)
  end.

(** [a or b], where [b] is only evaluated when [a] is false *)
Definition or_else (a : value) (b : M value) : M value :=
  if py_truthy a then ret a else b.

(** [a + b] where the package uses it: string concatenation. *)
Definition py_add (a b : value) : M value :=
  match a, b with
  | VStr x, VStr y => ret (VStr (x +:+ y))
  | _, _ => raise (TypeError "unsupported operand type(s) for +")
  end.

Section Engine.
Variable env : host.

Definition get_now : M Z :=
  fun s => (Ok (clock env (st_ticks s)),
            mkState (st_db s) (st_heap s) (st_shed s) (st_log s) (st_calls s)
                    (st_uuids s) (S (st_ticks s))).

Definition m_get_row (table_name key : string) (v : value) : M (option row) :=
  fun s => lift_result (get_row (st_db s) table_name key v) s.

Definition m_get_row_insensitive (table_name key : string) (v : value)
  : M (option row) :=
  fun s => lift_result (get_row_insensitive (st_db s) table_name key v) s.

Definition m_fill_config (table_name id_column : string)
    (config : option (dict value)) (id : value) (name_column : option string)
  : M row :=
  fun s => lift_result (fill_config (st_db s) table_name id_column config id name_column) s.

Definition m_get (table_name : string) (q : query) : M (option table) :=
  fun s => (Ok (db_get (st_db s) table_name q), s).

Definition m_set_row (table_name : string) (r : row) (id_col : string) : M unit :=
  fun s =>
    match set_row (schema_template env table_name) (st_db s) table_name r id_col with
    | Ok db' => (Ok tt, set_db db' s)
    | Raise e => (Raise e, s)
    end.

Definition m_update (table_name query_col : string) (query_val : value)
    (vals : dict value) : M unit :=
  fun s =>
    match db_update (st_db s) table_name query_col query_val vals with
    | Ok db' => (Ok tt, set_db db' s)
    | Raise e => (Raise e, s)
    end.

(** *** [resource.py] *)

(** Truthiness of a row that may be [None]. *)
Definition row_given (r : option row) : option row :=
  match r with
  | Some [] | None => None
  | Some r' => Some r'
  end.

(** [Resource.init_parent] *)
Definition init_parent (r : Resource) : M Resource :=
  let parent_val := dget "Parent" (r_config r) in
  if negb (py_truthy parent_val) then ret r
  else
    (let* found := m_get_row "Resources" "ResourceID" parent_val in
     let* found := (match row_given found with
                    | Some _ => ret found
                    | None => m_get_row_insensitive "Resources" "Name" parent_val
                    end) in
     match row_given found with
     | None =>
         log WARNING ("Parent resource " +:+ dq +:+ py_str parent_val +:+ dq
                        +:+ " not found.") ;;
         ret (mkResource (r_config r) found (r_shed r))
     | Some pr =>
         let* parent_id := getitem "ResourceID" pr in
         ret (mkResource (dict_set "Parent" parent_id (r_config r)) found (r_shed r))
     end)%M.

(** [Resource.configure] *)
Definition Resource_configure (r : Resource) (config : option (dict value))
    (id : value) : M Resource :=
  (let* filled_config := m_fill_config "Resources" "ResourceID" config id None in
   if py_truthy (dget "ResourceID" filled_config)
   then init_parent (mkResource filled_config (r_parent_row r) (r_shed r))
   else
     let* by_name := m_fill_config "Resources" "Name" config VNone None in
     init_parent (mkResource by_name (r_parent_row r) (r_shed r)))%M.

(** [Resource(db, config, id, resource_shed)] *)
Definition Resource_new (config : option (dict value)) (id : value)
    (shed : bool) : M Resource :=
  Resource_configure (mkResource [] None shed) config id.

Definition deref (l : nat) : M Resource :=
  fun s =>
    match st_heap s !! l with
    | Some r => (Ok r, s)
    | None => (Raise DanglingReference, s)
    end.

Definition cache (name : value) (r : Resource) : M nat :=
  fun s =>
    let l := length (st_heap s) in
    (Ok l, mkState (st_db s) (st_heap s ++ [r])%list (vdict_set name l (st_shed s))
                   (st_log s) (st_calls s) (st_uuids s) (st_ticks s)).

(** [ResourceShed.get]: the address of the cached object. *)
Definition shed_get (name : value) : M nat :=
  fun s =>
    match vdict_get name (st_shed s) with
    | Some l => (Ok l, s)
    | None =>
        (let* resource := Resource_new (Some [("Name", name)]) VNone true in
         cache name resource)%M s
    end.

(** The parent object [path] asks for: the cached one when there is
    a cache, a new one otherwise. *)
Definition get_parent (r : Resource) (parent_row : row) : M Resource :=
  if r_shed r
  then (let* name := getitem "Name" parent_row in
        let* l := shed_get name in
        deref l)%M
  else (let* id := getitem "ResourceID" parent_row in
        Resource_new None id false)%M.

(** The [path] property of [Resource]; the recursion depth is bounded
    by [fuel], as the interpreter bounds it. *)
Fixpoint Resource_path (fuel : nat) (r : Resource) : M value :=
  match fuel with
  | O => raise RecursionError
  | S fuel' =>
      let path := dget "Path" (r_config r) in
      match row_given (r_parent_row r) with
      | None => ret path
      | Some parent_row =>
          (let* parent := get_parent r parent_row in
           let* parent_path := Resource_path fuel' parent in
           if is_none parent_path then ret VNone
           else if is_none path then ret VNone
           else
             let* parent_path := Resource_path fuel' parent in
             let* prefix := py_add parent_path (VStr "/") in
             py_add prefix (VStr (py_str path)))%M
      end
  end.

(** The [path] setter: [self.config['Path'] = new_path] *)
Definition with_path (r : Resource) (new_path : value) : Resource :=
  mkResource (dict_set "Path" new_path (r_config r)) (r_parent_row r) (r_shed r).

(** The [path] setter, on a cached object. *)
Definition set_path (l : nat) (new_path : value) : M unit :=
  fun s =>
    match st_heap s !! l with
    | Some r =>
        (Ok tt, mkState (st_db s) (<[l := with_path r new_path]> (st_heap s))
                  (st_shed s) (st_log s) (st_calls s) (st_uuids s) (st_ticks s))
    | None => (Raise DanglingReference, s)
    end.


(** [Resource.commit], on a cached object: the identifier is set on
    the object itself, before the row is written. *)
Definition commit_at (l : nat) : M unit :=
  (let* r := deref l in
   let* config :=
     (if negb (py_truthy (dget "ResourceID" (r_config r)))
      then (let* id := uuid1 in ret (dict_set "ResourceID" id (r_config r)))
      else ret (r_config r)) in
   (fun s =>
      (Ok tt, mkState (st_db s)
                (<[l := mkResource config (r_parent_row r) (r_shed r)]> (st_heap s))
                (st_shed s) (st_log s) (st_calls s) (st_uuids s) (st_ticks s))) ;;
   m_set_row "Resources" config "ResourceID")%M.

(** *** [toolparam.py] *)

(** [except KeyError: raise_error(msg, error_class)] around [m] *)
Definition except_KeyError {A} (m : M A) (msg : string)
    (error_class : string -> exn) : M A :=
  fun s =>
    match m s with
    | (Raise (KeyError _), s') => raise_error msg error_class s'
    | other => other
    end.

(** A [ToolParam] object. *)
Record ToolParam : Type := mkToolParam {
  p_config : dict value;
  p_name : value;
  p_shed : bool
}.

Definition cell_eq (cell v : value) : bool := negb (cell_ne cell v).

(** The lookup by tool identifier and name in [ToolParam.configure]. *)
Definition configure_by_name (config : option (dict value)) (cfg : dict value)
    (tool_id : value) : M (dict value) :=
  (let* big_df := m_get "ToolParams" QAll in
   match big_df with
   | None => raise (TypeError "'NoneType' object is not subscriptable")
   | Some big_df =>
       if negb (mem_string "Name" (t_columns big_df)) then raise (KeyError "Name")
       else if numeric_dtype (map (dget "Name") (t_rows big_df))
       then raise (AttributeError "Can only use .str accessor with string values!")
       else
         let* name := getitem "Name" cfg in
         match name with
         | VStr _ =>
             let name_df :=
               List.filter (matches_insensitive "Name" name) (t_rows big_df) in
             if negb (mem_string "ToolID" (t_columns big_df))
             then raise (AttributeError "'DataFrame' object has no attribute 'ToolID'")
             else
               match List.filter (fun r => cell_eq (dget "ToolID" r) tool_id) name_df with
               | [] => ret cfg
               | [] :: _ => ret cfg
               | r :: _ =>
                   match config with
                   | None => raise (AttributeError "'NoneType' object has no attribute 'items'")
                   | Some config =>
                       ret (fold_left
                              (fun acc kv =>
                                 dict_set (fst kv)
                                   (get_case_insensitive config (fst kv) (snd kv)) acc)
                              r cfg)
                   end
               end
         | _ => raise (AttributeError "object has no attribute 'lower'")
         end
   end)%M.

(** [ToolParam.configure], on a new object *)
Definition ToolParam_new (config : option (dict value)) (id : value)
    (shed : bool) : M ToolParam :=
  (let* cfg := m_fill_config "ToolParams" "ParamID" config id None in
   let* param_id := getitem "ParamID" cfg in
   let* cfg :=
     (if py_truthy param_id then ret cfg
      else
        let* tool_id := getitem "ToolID" cfg in
        if py_truthy tool_id then configure_by_name config cfg tool_id else ret cfg) in
   let* name := getitem "Name" cfg in
   let cfg := dict_remove "Name" cfg in
   let cfg := if is_none (dget "IsInput" cfg)
              then dict_set "IsInput" (VBool true) cfg else cfg in
   ret (mkToolParam cfg name shed))%M.

Definition feeder_param_name (p : ToolParam) : value := dget "FeederParamName" (p_config p).
Definition feeder_tool_name (p : ToolParam) : value := dget "FeederToolName" (p_config p).
Definition param_id (p : ToolParam) : value := dget "ParamID" (p_config p).
Definition is_input (p : ToolParam) : value := dget "IsInput" (p_config p).
Definition is_read (p : ToolParam) : value := dget "IsRead" (p_config p).
Definition is_write (p : ToolParam) : value := dget "IsWrite" (p_config p).

(** [ToolParam.commit] *)
Definition ToolParam_commit (p : ToolParam) (tool_id : value) : M ToolParam :=
  (let config := dict_set "ToolID" tool_id (p_config p) in
   let* config :=
     (if negb (py_truthy (dget "ParamID" config))
      then (let* id := uuid1 in ret (dict_set "ParamID" id config))
      else ret config) in
   m_set_row "ToolParams" (dict_set "Name" (p_name p) config) "ParamID" ;;
   ret (mkToolParam config (p_name p) (p_shed p)))%M.

(** What [get_resource] hands back: a cached object, by address, or
    an object built for the occasion. *)
Inductive resource_ref : Type :=
| Held (l : nat)
| Fresh (r : Resource).

(** [ToolParam.get_resource] *)
Definition get_resource (p : ToolParam) : M (option resource_ref) :=
  if negb (py_truthy (dget "IsResource" (p_config p))) then ret None
  else if p_shed p
  then (let* l := shed_get (dget "Value" (p_config p)) in ret (Some (Held l)))%M
  else (let* r := Resource_new (Some [("Name", dget "Value" (p_config p))]) VNone false in
        ret (Some (Fresh r)))%M.

(** The [value] property *)
Definition value_get (fuel : nat) (p : ToolParam) : M value :=
  (let* resource := get_resource p in
   match resource with
   | Some (Held l) => let* r := deref l in Resource_path fuel r
   | Some (Fresh r) => Resource_path fuel r
   | None => ret (dget "Value" (p_config p))
   end)%M.

(** The [value] setter: the path of an object built for the occasion
    is set and the object dropped. *)
Definition value_set (p : ToolParam) (val : value) : M ToolParam :=
  (let* resource := get_resource p in
   match resource with
   | Some (Held l) => set_path l val ;; ret p
   | Some (Fresh _) => ret p
   | None => ret (mkToolParam (dict_set "Value" val (p_config p)) (p_name p) (p_shed p))
   end)%M.

(** [ToolParam.record_io] *)
Definition record_io (p : ToolParam) (activity_id val tool_id : value) : M ToolParam :=
  (let tool_id := py_or tool_id (dget "ToolID" (p_config p)) in
   (if is_none tool_id
    then raise_error ("No tool ID set for param " +:+ py_str (p_name p) +:+ ".") ClothoError
    else ret tt) ;;
   let* p := (if negb (py_truthy (param_id p)) then ToolParam_commit p tool_id else ret p) in
   let* ioid := uuid1 in
   m_set_row "ActivityIO"
     [("IOID", ioid);
      ("ActivityID", activity_id);
      ("ParamID", param_id p);
      ("ParamName", p_name p);
      ("Value", val);
      ("IsResource", match dict_get "IsResource" (p_config p) with
                     | Some v => v
                     | None => VBool false
                     end);
      ("IsInput", is_input p);
      ("IsRead", is_read p);
      ("IsWrite", is_write p)]
     "IOID" ;;
   ret p)%M.

(** *** [tool.py] *)

Fixpoint mapM {A B} (f : A -> M B) (l : list A) : M (list B) :=
  match l with
  | [] => ret []
  | x :: rest =>
      (let* y := f x in
       let* ys := mapM f rest in
       ret (y :: ys))%M
  end.

Fixpoint forM {A} (f : A -> M unit) (l : list A) : M unit :=
  match l with
  | [] => ret tt
  | x :: rest => (f x ;; forM f rest)%M
  end.

(** A [Tool] object; [predecessors] holds the rows (Name, ToolID) of
    the data frame of that name. *)
Record Tool : Type := mkTool {
  tool_config : dict value;                 (* [_config] *)
  params : vdict ToolParam;
  predecessors : list (value * value);
  outputs : list value;
  start_time : option Z;
  tool_shed : bool                          (* whether [_resource_shed] is set *)
}.

Definition tool_id (t : Tool) : value := dget "ToolID" (tool_config t).
Definition tool_name (t : Tool) : value := dget "Name" (tool_config t).
Definition tool_path (t : Tool) : value := dget "Path" (tool_config t).

(** The filter every method builds from the tool identifier:
    the identifier is formatted into a quoted literal. *)
Definition by_tool_id (id : value) : query := QEq "ToolID" (VStr (py_str id)).

(** [attr] of a data frame that a failed read may have left [None] *)
Definition column_of (df : option table) (attr : string) : M (list value) :=
  match df with
  | None => raise (AttributeError ("'NoneType' object has no attribute '" +:+ attr +:+ "'"))
  | Some df =>
      if mem_string attr (t_columns df) then ret (map (dget attr) (t_rows df))
      else raise (AttributeError ("'DataFrame' object has no attribute '" +:+ attr +:+ "'"))
  end.

(** [Tool.init_predecessors] with an empty config: the rows the store
    has for this tool. *)
Definition init_predecessors (self_id : value) : M (list (value * value)) :=
  if negb (py_truthy self_id) then ret []
  else
    (let* pred_rows := m_get "ToolPredecessors" (by_tool_id self_id) in
     let* pred_ids := column_of pred_rows "PredecessorID" in
     let* found :=
       mapM (fun pred_id =>
               if negb (py_truthy pred_id) then ret []
               else
                 let* tool_row := m_get_row "Tools" "ToolID" pred_id in
                 match tool_row with
                 | None =>
                     raise_error ("Predecessor tool " +:+ py_str pred_id +:+ " not found.")
                                 ClothoToolError
                 | Some tool_row => ret [(dget "Name" tool_row, pred_id)]
                 end)
            pred_ids in
     ret (concat found))%M.

Definition order_key (r : row) : option Z :=
  match dget "OutputOrder" r with
  | VInt z => Some z
  | VBool b => Some (Z.b2z b)
  | _ => None
  end.

Definition key_lt (a b : option Z) : bool :=
  match a, b with
  | Some x, Some y => x <? y
  | Some _, None => true
  | None, _ => false
  end.

Fixpoint insert_sorted (r : row) (l : list row) : list row :=
  match l with
  | [] => [r]
  | x :: rest =>
      if key_lt (order_key x) (order_key r) then x :: insert_sorted r rest
      else r :: x :: rest
  end.

(** [sort_values('OutputOrder')]: ascending, stable, with the cells
    that are not integers last. *)
Definition sort_values (rows : list row) : list row :=
  fold_right insert_sorted [] rows.

(** The output names of [Tool.configure] with an empty config. *)
Definition init_outputs (self_id : value) : M (list value) :=
  (let* output_rows := m_get "ToolOutputs" (by_tool_id self_id) in
   match output_rows with
   | None => raise (AttributeError "'NoneType' object has no attribute 'sort_values'")
   | Some df =>
       if negb (mem_string "OutputOrder" (t_columns df)) then raise (KeyError "OutputOrder")
       else
         let* names :=
           column_of (Some (mkTable (t_columns df) (sort_values (t_rows df)))) "Name" in
         ret (fold_left (fun acc db_name =>
                           if py_in db_name acc then acc else (acc ++ [db_name])%list)
                        names [])
   end)%M.

(** [Tool.init_params] with an empty config *)
Definition init_params (self_id : value) (shed : bool) : M (vdict ToolParam) :=
  if negb (py_truthy self_id) then ret []
  else
    (let* param_rows := m_get "ToolParams" (by_tool_id self_id) in
     let* param_ids := column_of param_rows "ParamID" in
     let* loaded := mapM (fun param_id => ToolParam_new None param_id shed) param_ids in
     ret (fold_left (fun acc p => vdict_set (p_name p) p acc) loaded []))%M.

(** [Tool(db, id=id, resource_shed=shed)], the way [run_predecessors]
    builds a tool: from its identifier alone. *)
Definition Tool_new (id : value) (shed : bool) : M Tool :=
  (let* cfg := m_fill_config "Tools" "ToolID" None id (Some "Name") in
   let self_id := dget "ToolID" cfg in
   let* preds := init_predecessors self_id in
   let* outs := init_outputs self_id in
   let* ps := init_params self_id shed in
   ret (mkTool cfg ps preds outs None shed))%M.

(** [Tool.commit] *)
Definition Tool_commit (t : Tool) : M Tool :=
  (let* cfg :=
     (if negb (py_truthy (tool_id t))
      then (let* id := uuid1 in ret (dict_set "ToolID" id (tool_config t)))
      else ret (tool_config t)) in
   m_set_row "Tools" cfg "ToolID" ;;
   let self_id := dget "ToolID" cfg in
   let* ps :=
     mapM (fun np => let* p := ToolParam_commit (snd np) self_id in ret (fst np, p))
          (params t) in
   let* pred_rows := m_get "ToolPredecessors" (by_tool_id self_id) in
   let* db_preds := column_of pred_rows "PredecessorID" in
   forM (fun pred =>
           if py_in (snd pred) db_preds then ret tt
           else
             let* rid := uuid1 in
             m_set_row "ToolPredecessors"
               [("RelationshipID", rid); ("ToolID", self_id); ("PredecessorID", snd pred)]
               "RelationshipID")
        (predecessors t) ;;
   let* output_rows := m_get "ToolOutputs" (by_tool_id self_id) in
   forM (fun numbered =>
           let i := fst numbered in
           let name := snd numbered in
           let* id :=
             match output_rows with
             | None => raise (AttributeError "'NoneType' object has no attribute 'loc'")
             | Some df =>
                 if negb (mem_string "Name" (t_columns df))
                 then raise (AttributeError "'DataFrame' object has no attribute 'Name'")
                 else if negb (mem_string "OutputID" (t_columns df))
                 then raise (KeyError "OutputID")
                 else
                   match List.filter (fun r => cell_eq (dget "Name" r) name) (t_rows df) with
                   | r :: _ => ret (dget "OutputID" r)
                   | [] => uuid1
                   end
             end in
           m_set_row "ToolOutputs"
             [("OutputID", id); ("ToolID", self_id);
              ("OutputOrder", VInt (Z.of_nat i)); ("Name", name)]
             "OutputID")
        (imap (fun i name => (i, name)) (outputs t)) ;;
   ret (mkTool cfg ps (predecessors t) (outputs t) (start_time t) (tool_shed t)))%M.

(** [Tool.start_activity] *)
Definition start_activity (t : Tool) (activity_id : value) : M Tool :=
  (let* now := get_now in
   m_set_row "Activity"
     [("ActivityID", activity_id);
      ("ToolID", tool_id t);
      ("ToolName", tool_name t);
      ("ToolPath", tool_path t);
      ("StartTime", VStr (strftime env now))]
     "ActivityID" ;;
   ret (mkTool (tool_config t) (params t) (predecessors t) (outputs t)
               (Some now) (tool_shed t)))%M.

(** The message as [end_activity] stores it. *)
Definition clean_message (message : value) : M value :=
  match message with
  | VNone => ret VNone
  | VStr s => ret (VStr (replace_quotes s))
  | _ => raise (AttributeError "object has no attribute 'replace'")
  end.

(** [Tool.end_activity] *)
Definition end_activity (t : Tool) (activity_id : value) (succeeded : bool)
    (message : value) : M unit :=
  (let* message := clean_message message in
   let* end_time := get_now in
   match start_time t with
   | None => raise (TypeError "unsupported operand type(s) for -")
   | Some started =>
       m_update "Activity" "ActivityID" activity_id
         [("EndTime", VStr (strftime env end_time));
          ("Duration", VStr (timedelta_str env (end_time - started)));
          ("Succeeded", VBool succeeded);
          ("Message", message)]
   end)%M.

(** [Tool.write_batches] *)
Definition write_batches (batch_ids activity_id : value) : M unit :=
  match batch_ids with
  | VNone => ret tt
  | _ =>
      forM (fun batch_id =>
              (let* rid := uuid1 in
               m_set_row "BatchActivity"
                 [("RelationshipID", rid); ("BatchID", batch_id);
                  ("ActivityID", activity_id)]
                 "RelationshipID")%M)
           (match batch_ids with VList l => l | _ => [batch_ids] end)
  end.

(** The folding of the strings [true] and [false], in any case,
    into booleans. *)
Definition fold_bool (val : value) : value :=
  match val with
  | VStr s =>
      if String.eqb (lower s) "true" then VBool true
      else if String.eqb (lower s) "false" then VBool false
      else val
  | _ => val
  end.

(** One turn of the loop of [Tool.update_inputs]: the parameter as
    the turn leaves it, and the keyword arguments. *)
Definition update_input (fuel : nat) (self : Tool) (activity_id : value)
    (pred_outputs : vdict (vdict value)) (default_pred_name : value)
    (name : value) (param : ToolParam) (kwargs : vdict value)
  : M (ToolParam * vdict value) :=
  if negb (py_truthy (is_input param)) then ret (param, kwargs)
  else
    (let feeder := py_or (feeder_tool_name param) default_pred_name in
     let* param :=
       (if py_truthy feeder && py_truthy (feeder_param_name param)
        then
          match vdict_get feeder pred_outputs with
          | None =>
              raise_error ("Feeder tool " +:+ dq +:+ py_str feeder +:+ dq
                             +:+ " not found for tool " +:+ dq
                             +:+ py_str (tool_name self) +:+ "." +:+ dq)
                          ClothoToolError
          | Some feeder_params =>
              except_KeyError
                (match vdict_get (feeder_param_name param) feeder_params with
                 | None => raise (KeyError (py_repr (feeder_param_name param)))
                 | Some v => value_set param v
                 end)
                ("Feeder parameter " +:+ dq +:+ py_str (feeder_param_name param) +:+ dq
                   +:+ " not found for tool " +:+ dq +:+ py_str (tool_name self)
                   +:+ "," +:+ dq +:+ " feeder " +:+ dq +:+ py_str feeder
                   +:+ "." +:+ dq)
                ClothoToolError
          end
        else ret param) in
     let* own := value_get fuel param in
     let supplied := match vdict_get name kwargs with Some v => v | None => own end in
     let* val := or_else supplied (value_get fuel param) in
     let val := fold_bool val in
     let kwargs := vdict_set name val kwargs in
     let* param := record_io param activity_id val (tool_id self) in
     ret (param, kwargs))%M.

(** [Tool.update_inputs]: the parameters and the keyword arguments
    as the loop leaves them. *)
Fixpoint update_inputs (fuel : nat) (self : Tool) (activity_id : value)
    (pred_outputs : vdict (vdict value)) (default_pred_name : value)
    (ps : vdict ToolParam) (kwargs : vdict value)
  : M (vdict ToolParam * vdict value) :=
  match ps with
  | [] => ret ([], kwargs)
  | (name, param) :: rest =>
      (let* done := update_input fuel self activity_id pred_outputs default_pred_name
                                 name param kwargs in
       let* others := update_inputs fuel self activity_id pred_outputs default_pred_name
                                    rest (snd done) in
       ret ((name, fst done) :: fst others, snd others))%M
  end.

(** One turn of the loop of [Tool.update_outputs] *)
Definition update_output (fuel : nat) (self : Tool) (output_dict : vdict value)
    (activity_id : value) (kwargs : vdict value) (name : value) (param : ToolParam)
  : M ToolParam :=
  if py_truthy (is_input param) then ret param
  else
    (let* param :=
       match vdict_get name output_dict with
       | Some v => value_set param v
       | None => ret param
       end in
     let* own := value_get fuel param in
     let val := match vdict_get name kwargs with Some v => v | None => own end in
     record_io param activity_id (fold_bool val) (tool_id self))%M.

(** [Tool.update_outputs] *)
Definition update_outputs (fuel : nat) (self : Tool) (output_dict : vdict value)
    (activity_id : value) (kwargs : vdict value) : M (vdict ToolParam) :=
  mapM (fun np =>
          (let* p := update_output fuel self output_dict activity_id kwargs (fst np) (snd np) in
           ret (fst np, p))%M)
       (params self).

(** [s.rsplit('.', 1)], when it gives two parts *)
Fixpoint rsplit_dot (s : string) : option (string * string) :=
  match s with
  | EmptyString => None
  | String c rest =>
      match rsplit_dot rest with
      | Some (a, b) => Some (String c a, b)
      | None => if Ascii.eqb c "."%char then Some (EmptyString, rest) else None
      end
  end.

(** The lines of [run] that find the function to call. *)
Definition resolve_target (path : value) : M (vdict value -> outcome) :=
  match path with
  | VStr p =>
      match rsplit_dot p with
      | None => raise (ValueError "not enough values to unpack (expected 2, got 1)")
      | Some (mod_path, func_name) =>
          match import_function env mod_path func_name with
          | Some func => ret func
          | None => raise (ImportError (mod_path +:+ "." +:+ func_name))
          end
      end
  | _ => raise (AttributeError "object has no attribute 'rsplit'")
  end.

(** The call of the target with the keyword arguments: a call with
    a keyword that is not a string fails before the target is entered. *)
Definition invoke (func : vdict value -> outcome) (path : value)
    (kwargs : vdict value) : M outcome :=
  if forallb (fun kv => is_str (fst kv)) kwargs
  then fun s => (Ok (func kwargs), add_call (py_str path) kwargs s)
  else ret (Throws "keywords must be strings").

(** What the target returned, as a tuple. *)
Definition as_tuple (returned : value) : list value :=
  match returned with
  | VNone => []
  | VTuple vs => vs
  | _ => [returned]
  end.

(** [dict(zip(self.outputs, output_tuple))] *)
Definition zip_outputs (names : list value) (returned : value) : vdict value :=
  vdict_of_list (combine names (as_tuple returned)).

(** [d.get(k)] on an output mapping *)
Definition vget (k : string) (d : vdict value) : value :=
  match vdict_get (VStr k) d with Some v => v | None => VNone end.

Definition failure_warning (self_name pred_name : value) : string :=
  dq +:+ py_str self_name +:+ dq +:+ " failed due to " +:+ dq
     +:+ py_str pred_name +:+ dq +:+ " failure.".

(** The loop of [Tool.run_predecessors]; [run_rec] is [run] on a
    predecessor.  [None] is the pair [None, None] of the source. *)
Fixpoint run_predecessors_loop
    (run_rec : Tool -> vdict value -> M (Tool * option (vdict value)))
    (self : Tool) (kwargs : vdict value) (pred_ids : list value)
    (pred_outputs : vdict (vdict value)) (last_name : value)
  : M (option (vdict (vdict value) * value)) :=
  match pred_ids with
  | [] => ret (Some (pred_outputs, last_name))
  | pred_id :: rest =>
      (let* pred := Tool_new pred_id (tool_shed self) in
       let* ran := run_rec pred kwargs in
       match snd ran with
       | None =>
           log WARNING (failure_warning (tool_name self) (tool_name (fst ran))) ;;
           ret None
       | Some result =>
           run_predecessors_loop run_rec self kwargs rest
             (vdict_set (tool_name (fst ran)) result pred_outputs)
             (tool_name (fst ran))
       end)%M
  end.

(** [Tool.run_predecessors] *)
Definition run_predecessors
    (run_rec : Tool -> vdict value -> M (Tool * option (vdict value)))
    (self : Tool) (kwargs : vdict value)
  : M (option (vdict (vdict value) * value)) :=
  (let* looped := run_predecessors_loop run_rec self kwargs
                    (map snd (predecessors self)) [] VNone in
   match looped with
   | None => ret None
   | Some (pred_outputs, last_name) =>
       ret (Some (pred_outputs,
                  if Nat.eqb (length (predecessors self)) 1 then last_name else VNone))
   end)%M.

(** The [except] branch of [run] *)
Definition record_failure (self : Tool) (activity_id : value) (e : string) : M unit :=
  (log ERROR ("Tool " +:+ py_str (tool_name self) +:+ " failed. " +:+ e) ;;
   end_activity self activity_id false (VStr e))%M.

(** The lines of [run] after the [try] statement: the parameters as
    [update_outputs] leaves them. *)
Definition record_success (fuel : nat) (self : Tool) (activity_id : value)
    (kwargs output_dict : vdict value) : M (vdict ToolParam) :=
  (let batch_ids :=
     match vdict_get (VStr "batch_ids") output_dict with
     | Some b => b
     | None => vget "batch_id" output_dict
     end in
   write_batches batch_ids activity_id ;;
   end_activity self activity_id true (vget "message" output_dict) ;;
   update_outputs fuel self output_dict activity_id kwargs)%M.

(** The part of [run] from the activity start on. *)
Definition run_target (fuel : nat) (self : Tool) (activity_id : value)
    (func : vdict value -> outcome) (kwargs : vdict value)
  : M (Tool * option (vdict value)) :=
  (let* self := start_activity self activity_id in
   let* returned := invoke func (tool_path self) kwargs in
   match returned with
   | Throws e =>
       record_failure self activity_id e ;;
       ret (self, None)
   | Returns v =>
       let output_dict := zip_outputs (outputs self) v in
       let* ps := record_success fuel self activity_id kwargs output_dict in
       ret (mkTool (tool_config self) ps (predecessors self) (outputs self)
                   (start_time self) (tool_shed self),
            Some output_dict)
   end)%M.

(** What [run] has in hand when it reaches the call: the tool, the
    activity identifier, the function and the keyword arguments. *)
Definition call : Type := (Tool * value * (vdict value -> outcome) * vdict value)%type.

(** The part of [run] before the activity start; [None] when a
    predecessor failed. *)
Definition prepare
    (run_rec : Tool -> vdict value -> M (Tool * option (vdict value)))
    (fuel : nat) (self : Tool) (kwargs : vdict value) : M (option call) :=
  ((if is_none (tool_path self)
    then raise_error ("Path not found for tool " +:+ dq +:+ py_str (tool_name self)
                        +:+ "." +:+ dq)
                     ClothoToolError
    else ret tt) ;;
   let* preds := run_predecessors run_rec self kwargs in
   match preds with
   | None => ret None
   | Some (pred_outputs, default_pred_name) =>
       let* self := (if negb (py_truthy (tool_id self))
                     then Tool_commit self else ret self) in
       let* activity_id := uuid1 in
       let* updated := update_inputs fuel self activity_id pred_outputs
                         default_pred_name (params self) kwargs in
       let self := mkTool (tool_config self) (fst updated) (predecessors self)
                          (outputs self) (start_time self) (tool_shed self) in
       let* func := resolve_target (tool_path self) in
       ret (Some (self, activity_id, func, snd updated))
   end)%M.

(** [Tool.run]: the tool as the run leaves it, and the output mapping
    or [None], the failure signal.  The depth of the recursion into
    predecessors and parent resources is bounded by [fuel]. *)
Fixpoint run (fuel : nat) (self : Tool) (kwargs : vdict value)
  : M (Tool * option (vdict value)) :=
  match fuel with
  | O => raise RecursionError
  | S fuel' =>
      (let* prepared := prepare (run fuel') fuel' self kwargs in
       match prepared with
       | None => ret (self, None)
       | Some (self, activity_id, func, kwargs) =>
           run_target fuel' self activity_id func kwargs
       end)%M
  end.

End Engine.

(** * Further operations of the package *)

(** ** [utils.get_flex] *)

(** The [keys] argument of [get_flex]: one key, or a list of keys. *)
Inductive flex_keys : Type :=
| OneKey (key : string)
| ManyKeys (keys : list string).

(** [if not isinstance(keys, list): keys = [keys]] *)
Definition keys_list (keys : flex_keys) : list string :=
  match keys with
  | OneKey key => [key]
  | ManyKeys keys => keys
  end.

(** The first loop of [get_flex]: every key, followed by its synonym
    when the synonyms give it a true one. *)
Definition all_keys (synonyms : dict value) (keys : list string) : list value :=
  flat_map (fun key =>
              let synonym := get_case_insensitive synonyms key VNone in
              if py_truthy synonym then [VStr key; synonym] else [VStr key])
           keys.

(** The second loop of [get_flex]: the first true value found under one
    of the keys.  A synonym that is not a string has no [lower]. *)
Fixpoint search_keys (dictionary : dict value) (keys : list value)
    (default_value : value) : result value :=
  match keys with
  | [] => Ok default_value
  | VStr key :: rest =>
      let val := get_case_insensitive dictionary key VNone in
      if py_truthy val then Ok val else search_keys dictionary rest default_value
  | _ :: _ => Raise (AttributeError "object has no attribute 'lower'")
  end.

(** [get_flex] *)
Definition get_flex (dictionary : dict value) (keys : flex_keys)
    (synonyms : option (dict value)) (default_value : value) : result value :=
  let synonyms := match synonyms with Some given => given | None => [] end in
  search_keys dictionary (all_keys synonyms (keys_list keys)) default_value.

(** ** Table names and the schema prefix ([sqlitedb.py]) *)

(** [SQLiteDB.prepend_schema]; the schema is [None] or a string. *)
Definition prepend_schema (schema : option string) (table_name : string) : string :=
  match name_given schema with
  | Some prefix => prefix +:+ "." +:+ table_name
  | None => table_name
  end.

(** [s.split('.')] *)
Fixpoint split_dot (s : string) : list string :=
  match s with
  | EmptyString => [EmptyString]
  | String c rest =>
      if Ascii.eqb c "."%char then EmptyString :: split_dot rest
      else match split_dot rest with
           | part :: parts => String c part :: parts
           | [] => [String c EmptyString]
           end
  end.

(** One name of [SQLiteDB.table_names], from the name the file has. *)
Definition listed_name (schema : option string) (raw_name : string) : string :=
  match name_given schema with
  | Some _ => join "." (tail (split_dot raw_name))
  | None => raw_name
  end.

(** ** Deleting rows and building the schema ([sqlitedb.py], [clothodb.py]) *)

(** [SQLiteDB.delete_row] / [ClothoDB.delete_row]: the statement is
    executed outside any [try], so its failure reaches the caller. *)
Definition db_delete_row (db : DB) (table_name key : string) (v : value) : result DB :=
  match db !! table_name with
  | None => Raise (OperationalError "no such table")
  | Some t =>
      match quoted_literal v with
      | None => Raise (OperationalError "malformed statement")
      | Some lit =>
          if mem_string key (t_columns t)
          then Ok (<[table_name :=
                       mkTable (t_columns t)
                         (List.filter (fun r => negb (sql_eqb (dget key r) lit))
                                      (t_rows t))]> db)
          else Raise (OperationalError "no such column")
      end
  end.

(** [SQLiteDB.import_df]: the store, and whether the frame was written.
    With [overwrite] the table is replaced.  Otherwise the rows are
    appended, a table the file does not have being created; a frame
    with rows and a column the table lacks is not written (the failure
    is caught and logged as a warning). *)
Definition import_df (db : DB) (df : table) (table_name : string)
    (overwrite : bool) : DB * bool :=
  if overwrite then (<[table_name := df]> db, true)
  else
    match db !! table_name with
    | None => (<[table_name := df]> db, true)
    | Some t =>
        match t_rows df with
        | [] => (db, true)
        | _ :: _ =>
            if forallb (fun c => mem_string c (t_columns t)) (t_columns df)
            then (<[table_name :=
                      mkTable (t_columns t)
                        (t_rows t ++ map (pad (t_columns t)) (t_rows df))%list]> db,
                  true)
            else (db, false)
        end
    end.

(** [SQLiteDB.table_names] / [ClothoDB.table_names] *)
Definition table_names (db : DB) : list string := map fst (map_to_list db).

(** [ClothoDB.build_schema] over the templates [schema] of
    [get_schema_templates], each an empty frame with the columns of its
    table (on which [fill_nans] changes nothing). *)
Definition build_schema (schema : dict (list string)) (db : DB) : DB :=
  let names := table_names db in
  fold_left (fun acc template =>
               if mem_string (fst template) names then acc
               else fst (import_df acc (mkTable (snd template) []) (fst template) false))
            schema db.

Definition m_delete_row (table_name key : string) (v : value) : M unit :=
  fun s =>
    match db_delete_row (st_db s) table_name key v with
    | Ok db' => (Ok tt, set_db db' s)
    | Raise e => (Raise e, s)
    end.

(** ** [Tool.delete] *)

(** The message [delete] logs for a tool that has no identifier. *)
Definition not_in_database (t : Tool) : string :=
  "Tool " +:+ dq +:+ py_str (tool_name t) +:+ dq +:+ " isn't in the config database.".

(** [Tool.delete] *)
Definition Tool_delete (t : Tool) : M unit :=
  let id := tool_id t in
  if negb (py_truthy id) then log INFO (not_in_database t)
  else
    (m_delete_row "Tools" "ToolID" id ;;
     m_delete_row "ToolParams" "ToolID" id ;;
     m_delete_row "ToolOutputs" "ToolID" id ;;
     m_delete_row "ToolPredecessors" "ToolID" id)%M.

(** * Specification-level definitions *)

Definition rows_of (db : DB) (table_name : string) : list row :=
  match db !! table_name with
  | Some t => t_rows t
  | None => []
  end.

(** The table, when the store has it, has the column. *)
Definition has_column (db : DB) (table_name key : string) : Prop :=
  forall t, db !! table_name = Some t -> mem_string key (t_columns t) = true.

(** The column, when the store has the table, holds text. *)
Definition text_column (db : DB) (table_name key : string) : Prop :=
  forall t, db !! table_name = Some t ->
            numeric_dtype (map (dget key) (t_rows t)) = false.

(** The value can be written into the text of a query. *)
Definition plain_literal (v : value) : Prop := breaks_literal v = false.

(** A row matches the pair of a key and a value, case-sensitively. *)
Definition matches_exact (key : string) (v : value) (r : row) : bool :=
  match sql_literal v with
  | Some lit => sql_eqb (dget key r) lit
  | None => false
  end.

(** The answer the one-row protocol owes to a list of matching rows. *)
Definition answers (matching : list row) (got : result (option row)) : Prop :=
  match matching with
  | [] => got = Ok None
  | [r] => got = Ok (Some r)
  | _ :: _ :: _ => exists msg, got = Raise (ClothoError msg)
  end.




Definition config_or_empty (config : option (dict value)) : dict value :=
  match config with Some c => c | None => [] end.

(** The representative of a value under [==]: booleans are the integers 0 and 1. *)
Fixpoint norm (v : value) : value :=
  match v with
  | VBool b => VInt (Z.b2z b)
  | VTuple vs => VTuple (map norm vs)
  | VList vs => VList (map norm vs)
  | _ => v
  end.

Section ValueInd.
Variable P : value -> Prop.
Hypothesis HNone : P VNone.
Hypothesis HBool : forall b, P (VBool b).
Hypothesis HInt : forall z, P (VInt z).
Hypothesis HStr : forall s, P (VStr s).
Hypothesis HPath : forall p, P (VPath p).
Hypothesis HTuple : forall vs, Forall P vs -> P (VTuple vs).
Hypothesis HList : forall vs, Forall P vs -> P (VList vs).

Fixpoint value_nested_ind (v : value) : P v :=
  let fix all (vs : list value) : Forall P vs :=
    match vs with
    | [] => @Stdlib.Lists.List.Forall_nil value P
    | x :: rest => @Stdlib.Lists.List.Forall_cons value P x rest (value_nested_ind x) (all rest)
    end in
  match v with
  | VNone => HNone
  | VBool b => HBool b
  | VInt z => HInt z
  | VStr s => HStr s
  | VPath p => HPath p
  | VTuple vs => HTuple vs (all vs)
  | VList vs => HList vs (all vs)
  end.
End ValueInd.

(** The list comparison inside [py_eqb]. *)
Fixpoint all_eqb (l1 l2 : list value) : bool :=
  match l1, l2 with
  | [], [] => true
  | x :: l1', y :: l2' => py_eqb x y && all_eqb l1' l2'
  | _, _ => false
  end.

(** No two keys of the list are equal. *)
Fixpoint distinct_keys (l : list value) : Prop :=
  match l with
  | [] => True
  | k :: rest => existsb (py_eqb k) rest = false /\ distinct_keys rest
  end.

(** A computation that leaves a table of the store as it found it,
    whatever it returns. *)
Definition keeps_table {A} (table_name : string) (m : M A) : Prop :=
  forall s, st_db (snd (m s)) !! table_name = st_db s !! table_name.

(** The rows of a table whose identifier cell equals [id]. *)
Definition rows_with_id (db : DB) (table_name id_col : string) (id : value) : list row :=
  List.filter (fun r => cell_eq (dget id_col r) id) (rows_of db table_name).

(** ** Example data *)

(** Modelled from the spec: the table templates of [ClothoSchema.yaml],
    which is not among the sources; every table has the attributes the
    data model of the specification lists for it. *)
Definition clotho_schema (table_name : string) : option (list string) :=
  if String.eqb table_name "Resources" then
    Some ["ResourceID"; "Name"; "Path"; "Parent"]
  else if String.eqb table_name "Tools" then
    Some ["ToolID"; "Name"; "Path"]
  else if String.eqb table_name "ToolParams" then
    Some ["ParamID"; "ToolID"; "Name"; "IsInput"; "IsResource"; "IsRead"; "IsWrite";
          "Value"; "FeederToolName"; "FeederParamName"]
  else if String.eqb table_name "ToolPredecessors" then
    Some ["RelationshipID"; "ToolID"; "PredecessorID"]
  else if String.eqb table_name "ToolOutputs" then
    Some ["OutputID"; "ToolID"; "OutputOrder"; "Name"]
  else if String.eqb table_name "Activity" then
    Some ["ActivityID"; "ToolID"; "ToolName"; "ToolPath"; "StartTime"; "EndTime";
          "Duration"; "Succeeded"; "Message"]
  else if String.eqb table_name "ActivityIO" then
    Some ["IOID"; "ActivityID"; "ParamID"; "ParamName"; "Value"; "IsResource";
          "IsInput"; "IsRead"; "IsWrite"]
  else if String.eqb table_name "BatchActivity" then
    Some ["RelationshipID"; "BatchID"; "ActivityID"]
  else None.

Definition clotho_tables : list string :=
  ["Resources"; "Tools"; "ToolParams"; "ToolPredecessors"; "ToolOutputs";
   "Activity"; "ActivityIO"; "BatchActivity"].

(** The store that [build_schema] leaves: every table, empty. *)
Definition empty_store : DB :=
  fold_right (fun t db =>
                match clotho_schema t with
                | Some columns => <[t := mkTable columns []]> db
                | None => db
                end)
             ∅ clotho_tables.

(** Targets of a module [jobs]: [pair] returns the tuple (1, 2), [one]
    the number 5, [nothing] returns [None], [broken] raises. *)
Definition example_targets (mod_path func_name : string)
  : option (vdict value -> outcome) :=
  if negb (String.eqb mod_path "jobs") then None
  else if String.eqb func_name "pair" then Some (fun _ => Returns (VTuple [VInt 1; VInt 2]))
  else if String.eqb func_name "one" then Some (fun _ => Returns (VInt 5))
  else if String.eqb func_name "nothing" then Some (fun _ => Returns VNone)
  else if String.eqb func_name "broken" then Some (fun _ => Throws "can't read")
  else None.

Definition example_host : host :=
  mkHost clotho_schema example_targets (fun n => Z.of_nat n)
         (fun _ => "2022-05-19 10:00:00") (fun _ => "0:00:01").

Definition store_state (db : DB) : state := mkState db [] [] [] [] 0 0.

(** The three resources of [test_resource.py]. *)
Definition chain_store : DB :=
  <["Resources" :=
      mkTable ["ResourceID"; "Name"; "Path"; "Parent"]
        [[("ResourceID", VStr "bogus3"); ("Name", VStr "project folder");
          ("Path", VStr "asdf"); ("Parent", VStr "bogus2")];
         [("ResourceID", VStr "bogus1"); ("Name", VStr "X Drive");
          ("Path", VStr "X:"); ("Parent", VNone)];
         [("ResourceID", VStr "bogus2"); ("Name", VStr "GIS");
          ("Path", VStr "GIS"); ("Parent", VStr "bogus1")]]]> empty_store.

(** A resource whose parent names nothing in the store. *)
Definition orphan_store : DB :=
  <["Resources" :=
      mkTable ["ResourceID"; "Name"; "Path"; "Parent"]
        [[("ResourceID", VStr "r1"); ("Name", VStr "scratch");
          ("Path", VStr "asdf"); ("Parent", VStr "gone")]]]> empty_store.

(** Two resources whose names differ by case only. *)
Definition twin_store : DB :=
  <["Resources" :=
      mkTable ["ResourceID"; "Name"; "Path"; "Parent"]
        [[("ResourceID", VStr "r1"); ("Name", VStr "gis");
          ("Path", VStr "a"); ("Parent", VNone)];
         [("ResourceID", VStr "r2"); ("Name", VStr "GIS");
          ("Path", VStr "b"); ("Parent", VNone)]]]> empty_store.

(** Resources that go by numbers. *)
Definition numbered_store : DB :=
  <["Resources" :=
      mkTable ["ResourceID"; "Name"; "Path"; "Parent"]
        [[("ResourceID", VStr "r1"); ("Name", VInt 1);
          ("Path", VStr "a"); ("Parent", VNone)]]]> empty_store.

(** The resource the cache builds for a name the store does not have. *)
Definition blank_resource (columns : list string) (name : value) : Resource :=
  mkResource (override [("Name", name)] (blank_row columns)) None true.

(** The store has the table of resources, with a text column of names. *)
Definition resources_ready (db : DB) (t : table) : Prop :=
  db !! "Resources" = Some t /\
  mem_string "Name" (t_columns t) = true /\
  numeric_dtype (map (dget "Name") (t_rows t)) = false.

(** No persisted resource goes by the name. *)
Definition unknown_name (db : DB) (name : value) : Prop :=
  List.filter (matches_insensitive "Name" name) (rows_of db "Resources") = [].

(** The state a cache miss leaves: the new object at the next address,
    and the name bound to it. *)
Definition cached (name : value) (r : Resource) (s : state) : state :=
  mkState (st_db s) (st_heap s ++ [r])%list
          (vdict_set name (length (st_heap s)) (st_shed s))
          (st_log s) (st_calls s) (st_uuids s) (st_ticks s).

(** What a cache miss on an unknown name amounts to: the blank record
    at a new address, the same address at every later [get], a path
    set through the address seen by whoever reads it there, and the
    identifier a commit through the address gives the object, with its
    row in the store, seen there as well. *)
Definition miss_then_shared (env : host) (name : value) (s : state) (t : table) : Prop :=
  let l := length (st_heap s) in
  let r := blank_resource (t_columns t) name in
  let s1 := cached name r s in
  shed_get name s = (Ok l, s1) /\
  st_heap s1 !! l = Some r /\
  dget "Name" (r_config r) = path_to_str name /\
  (forall f v, In (f, v) (r_config r) ->
               v = if String.eqb (lower f) "name" then path_to_str name else VNone) /\
  shed_get name s1 = (Ok l, s1) /\
  (forall new_path, exists s2,
     set_path l new_path s1 = (Ok tt, s2) /\
     shed_get name s2 = (Ok l, s2) /\
     st_heap s2 !! l = Some (with_path r new_path) /\
     Resource_path 1 (with_path r new_path) s2 = (Ok new_path, s2)) /\
  (forall s2,
     commit_at env l s1 = (Ok tt, s2) ->
     exists id,
       py_truthy id = true /\
       shed_get name s2 = (Ok l, s2) /\
       st_heap s2 !! l = Some (mkResource (dict_set "ResourceID" id (r_config r)) None true) /\
       length (rows_with_id (st_db s2) "Resources" "ResourceID" id) = 1%nat).

(** The session of [test_resource.py], through a cache: the paths of
    the folder, the drive and the directory between them, read before
    and after the path of the folder is set. *)
Definition chain_session : M (list value * list value) :=
  (let* c := shed_get (VStr "project folder") in
   let* a := shed_get (VStr "X Drive") in
   let* b := shed_get (VStr "GIS") in
   let read := (let* rc := deref c in
                let* pc := Resource_path 5 rc in
                let* ra := deref a in
                let* pa := Resource_path 5 ra in
                let* rb := deref b in
                let* pb := Resource_path 5 rb in
                ret [pc; pa; pb]) in
   let* before := read in
   set_path c (VStr "qwer") ;;
   let* after := read in
   ret (before, after))%M.

(** The same session on objects of their own, as the test has it. *)
Definition chain_session_uncached : M (value * value) :=
  (let* c := Resource_new (Some [("name", VStr "project folder")]) VNone false in
   let* before := Resource_path 5 c in
   let* after := Resource_path 5 (with_path c (VStr "qwer")) in
   ret (before, after))%M.

(** ** Activities *)

(** The strings the host makes of times hold no single quote. *)
Definition time_strings_plain (env : host) : Prop :=
  (forall z, has_quote (strftime env z) = false) /\
  (forall z, has_quote (timedelta_str env z) = false).

(** The schema has the table of activities, with the columns
    [end_activity] writes. *)
Definition activity_template (env : host) : Prop :=
  exists columns,
    schema_template env "Activity" = Some columns /\
    forallb (fun c => mem_string c columns)
            ["EndTime"; "Duration"; "Succeeded"; "Message"] = true.

(** The row of the activity, the only one with its identifier, as a
    failed run leaves it.  The statement that updates the row stores
    the boolean [False] as the integer 0. *)
Definition failure_recorded (env : host) (activity_id : value) (e : string)
    (started ended : Z) (db : DB) : Prop :=
  exists r,
    rows_with_id db "Activity" "ActivityID" activity_id = [r] /\
    dget "EndTime" r = VStr (strftime env ended) /\
    dget "Duration" r = VStr (timedelta_str env (ended - started)) /\
    dget "Succeeded" r = VInt 0 /\
    dget "Message" r = VStr (replace_quotes e).

(** The assignments of the statement [end_activity] builds. *)
Definition end_pairs (env : host) (started ended : Z) (succeeded : bool)
    (message : option string) : dict value :=
  ([("EndTime", VStr (strftime env ended));
    ("Duration", VStr (timedelta_str env (ended - started)));
    ("Succeeded", VInt (Z.b2z succeeded))]
   ++ match message with
      | Some m => [("Message", VStr (replace_quotes m))]
      | None => []
      end)%list.

(** The rows of a table after an [UPDATE]. *)
Definition updated_rows (query_col : string) (lit : value) (pairs : dict value)
    (rows : list row) : list row :=
  map (fun r => if sql_eqb (dget query_col r) lit then apply_pairs pairs r else r) rows.

(** The character [replace] puts for a character. *)
Definition requote (c : ascii) : ascii :=
  if Ascii.eqb c "'"%char then double_quote else c.

(** ** Example tools *)

(** The store of [test_clothodb.py], after the second cherry. *)
Definition fruit_store : DB :=
  <["Fruit" :=
      mkTable ["FruitID"; "Name"; "Color"]
        [[("FruitID", VInt 0); ("Name", VStr "apple"); ("Color", VStr "green")];
         [("FruitID", VInt 1); ("Name", VStr "banana"); ("Color", VStr "yellow")];
         [("FruitID", VInt 3); ("Name", VStr "cherry"); ("Color", VStr "red")];
         [("FruitID", VInt 4); ("Name", VStr "cherry"); ("Color", VStr "black")]]]> ∅.

(** A table of people, one of them with a single quote in the name. *)
Definition people_store : DB :=
  <["People" :=
      mkTable ["PersonID"; "Name"]
        [[("PersonID", VInt 1); ("Name", VStr "O'Brien")];
         [("PersonID", VInt 2); ("Name", VStr "Smith")]]]> ∅.

(** A store with one tool, whose target raises. *)
Definition tools_store : DB :=
  <["Tools" :=
      mkTable ["ToolID"; "Name"; "Path"]
        [[("ToolID", VStr "p1"); ("Name", VStr "Get Data");
          ("Path", VStr "jobs.broken")]]]> empty_store.

(** The tool of the end-to-end scenario, with that tool for predecessor. *)
Definition crunch_tool : Tool :=
  mkTool [("ToolID", VStr "t1"); ("Name", VStr "Crunch Data"); ("Path", VStr "jobs.one")]
         [] [(VStr "Get Data", VStr "p1")] [VStr "a"] None false.

Definition broken_tool : Tool :=
  mkTool [("ToolID", VStr "p1"); ("Name", VStr "Get Data"); ("Path", VStr "jobs.broken")]
         [] [] [] None false.

(** A tool with one input, the text [true] for its own value. *)
Definition flag_param : ToolParam :=
  mkToolParam [("ParamID", VStr "q1"); ("ToolID", VStr "t3"); ("Value", VStr "true");
               ("IsInput", VBool true)]
              (VStr "overwrite") false.

Definition flag_tool : Tool :=
  mkTool [("ToolID", VStr "t3"); ("Name", VStr "Export"); ("Path", VStr "jobs.one")]
         [(VStr "overwrite", flag_param)] [] [VStr "a"] None false.

(** A tool with one declared output, whose target returns [None]. *)
Definition nothing_tool : Tool :=
  mkTool [("ToolID", VStr "t4"); ("Name", VStr "Touch"); ("Path", VStr "jobs.nothing")]
         [] [] [VStr "a"] None false.

(** ** Statements about a run *)

(** No feeder applies to the parameter. *)
Definition no_feeder (param : ToolParam) (default_pred_name : value) : Prop :=
  py_truthy (py_or (feeder_tool_name param) default_pred_name)
    && py_truthy (feeder_param_name param) = false.

(** What the caller supplied under the name, or else [own]. *)
Definition supplied_or (name : value) (kwargs : vdict value) (own : value) : value :=
  match vdict_get name kwargs with
  | Some v => v
  | None => own
  end.

(** The table of inputs and outputs has a row for the activity, the
    parameter and the value. *)
Definition io_recorded (db : DB) (activity_id name val : value) : Prop :=
  exists r,
    In r (rows_of db "ActivityIO") /\
    dget "ActivityID" r = activity_id /\
    dget "ParamName" r = name /\
    dget "Value" r = val.


(** The output mapping pairs the names with the values returned, place
    by place: as many pairs as the shorter of the two has places. *)
Definition zipped_positionally (names : list value) (returned : value) : Prop :=
  zip_outputs names returned = combine names (as_tuple returned) /\
  length (zip_outputs names returned)
  = Nat.min (length names) (length (as_tuple returned)) /\
  (forall i name,
     names !! i = Some name ->
     vdict_get name (zip_outputs names returned) = as_tuple returned !! i) /\
  (forall k,
     existsb (py_eqb k) names = false ->
     vdict_get k (zip_outputs names returned) = None).

(** What a turn of [update_inputs] on an input parameter without a
    feeder comes to, [chosen] being the value before the folding of
    booleans. *)
Definition input_resolved (env : host) (fuel : nat) (self : Tool)
    (activity_id : value) (pred_outputs : vdict (vdict value))
    (default_pred_name name : value) (param : ToolParam) (kwargs : vdict value)
    (s : state) (chosen : value) (param' : ToolParam) (s3 : state) : Prop :=
  update_input env fuel self activity_id pred_outputs default_pred_name name param kwargs s
  = (Ok (param', vdict_set name (fold_bool chosen) kwargs), s3) /\
  vdict_get name (vdict_set name (fold_bool chosen) kwargs) = Some (fold_bool chosen) /\
  (forall v, vdict_get name kwargs = Some v -> py_truthy v = true -> chosen = v) /\
  (py_truthy (dget "IsResource" (p_config param)) = false ->
   chosen = py_or (supplied_or name kwargs (dget "Value" (p_config param)))
                  (dget "Value" (p_config param))) /\
  io_recorded (st_db s3) activity_id (p_name param) (fold_bool chosen).

(** The row of the drive in [chain_store], and the object for the
    directory below it as [Resource.configure] builds it. *)
Definition drive_row : row :=
  [("ResourceID", VStr "bogus1"); ("Name", VStr "X Drive");
   ("Path", VStr "X:"); ("Parent", VNone)].

Definition gis_resource : Resource :=
  mkResource [("ResourceID", VStr "bogus2"); ("Name", VStr "GIS");
              ("Path", VStr "GIS"); ("Parent", VStr "bogus1")]
             (Some drive_row) false.

(** ** Notions used by the further properties *)

(** No key of the dictionary equals [key] up to case. *)
Definition no_key_like (d : dict value) (key : string) : Prop :=
  forall k v, In (k, v) d -> lower k <> lower key.

(** The keys the second loop of [get_flex] goes through hold a true
    value under none of them. *)
Definition nothing_true (dictionary : dict value) (keys : list value) : Prop :=
  forall key, In (VStr key) keys ->
              py_truthy (get_case_insensitive dictionary key VNone) = false.

(** The value can be written as a literal into the text of a statement. *)
Definition literal_value (v : value) : bool :=
  match quoted_literal v with Some _ => true | None => false end.

(** A computation that changes nothing of the state but the log, to
    which it may add records. *)
Definition only_logs {A} (m : M A) : Prop :=
  forall s, exists records,
    snd (m s) = mkState (st_db s) (st_heap s) (st_shed s) (st_log s ++ records)%list
                        (st_calls s) (st_uuids s) (st_ticks s).

(** A computation that leaves the tables, the trace of calls, the
    identifiers issued and the clock as they were; it may cache
    resources and write to the log. *)
Definition reads_store {A} (m : M A) : Prop :=
  forall s,
    st_db (snd (m s)) = st_db s /\
    st_calls (snd (m s)) = st_calls s /\
    st_uuids (snd (m s)) = st_uuids s /\
    st_ticks (snd (m s)) = st_ticks s.

(** The string holds no dot. *)
Fixpoint has_dot (s : string) : bool :=
  match s with
  | EmptyString => false
  | String c rest => Ascii.eqb c "."%char || has_dot rest
  end.

(** The tables that hold the rows of a tool. *)
Definition tool_tables : list string :=
  ["Tools"; "ToolParams"; "ToolOutputs"; "ToolPredecessors"].

(** The table, which the store has, has the column. *)
Definition table_with_column (db : DB) (table_name key : string) : Prop :=
  exists t, db !! table_name = Some t /\ mem_string key (t_columns t) = true.

(** ** Further example data *)

(** A tool one of whose outputs is recorded twice. *)
Definition outputs_store : DB :=
  <["ToolOutputs" :=
      mkTable ["OutputID"; "ToolID"; "OutputOrder"; "Name"]
        [[("OutputID", VStr "o2"); ("ToolID", VStr "p1");
          ("OutputOrder", VInt 1); ("Name", VStr "count")];
         [("OutputID", VStr "o1"); ("ToolID", VStr "p1");
          ("OutputOrder", VInt 0); ("Name", VStr "rows")];
         [("OutputID", VStr "o3"); ("ToolID", VStr "p1");
          ("OutputOrder", VInt 2); ("Name", VStr "rows")]]]> tools_store.

(** A tool whose recorded predecessor is not among the tools. *)
Definition dangling_store : DB :=
  <["ToolPredecessors" :=
      mkTable ["RelationshipID"; "ToolID"; "PredecessorID"]
        [[("RelationshipID", VStr "rel1"); ("ToolID", VStr "p1");
          ("PredecessorID", VStr "gone")]]]> tools_store.

(** The rows a deletion by [key] and [v] keeps. *)
Definition kept_rows (key : string) (v : value) (rows : list row) : list row :=
  List.filter (fun r => negb (matches_exact key v r)) rows.

(** The row of the activity, the only one with its identifier, as a
    run that succeeded leaves it; the statement that updates the row
    stores the boolean [True] as the integer 1. *)
Definition success_recorded (env : host) (activity_id : value) (self : Tool)
    (started ended : Z) (db : DB) : Prop :=
  exists r,
    rows_with_id db "Activity" "ActivityID" activity_id = [r] /\
    dget "ToolName" r = tool_name self /\
    dget "ToolPath" r = tool_path self /\
    dget "StartTime" r = VStr (strftime env started) /\
    dget "EndTime" r = VStr (strftime env ended) /\
    dget "Duration" r = VStr (timedelta_str env (ended - started)) /\
    dget "Succeeded" r = VInt 1.

(** A store with the table of resources alone, and one resource. *)
Definition drive_store : DB :=
  <["Resources" :=
      mkTable ["ResourceID"; "Name"; "Path"; "Parent"]
        [[("ResourceID", VStr "bogus1"); ("Name", VStr "X Drive");
          ("Path", VStr "X:"); ("Parent", VNone)]]]> ∅.

(** * Properties *)

(** ** Equality of values *)

Lemma py_eqb_tuple x y : py_eqb (VTuple x) (VTuple y) = all_eqb x y.
Proof.
  simpl. revert y.
  induction x as [|a x IH]; intros [|b y]; simpl; try reflexivity; rewrite IH; reflexivity.
Qed.

Lemma py_eqb_list x y : py_eqb (VList x) (VList y) = all_eqb x y.
Proof.
  simpl. revert y.
  induction x as [|a x IH]; intros [|b y]; simpl; try reflexivity; rewrite IH; reflexivity.
Qed.

Lemma b2z_inj x y : Z.b2z x = Z.b2z y -> x = y.
Proof. destruct x, y; simpl; congruence. Qed.

Lemma all_eqb_norm vs :
  Forall (fun a => forall b, py_eqb a b = true <-> norm a = norm b) vs ->
  forall ws, all_eqb vs ws = true <-> map norm vs = map norm ws.
Proof.
  induction 1 as [|a vs Ha Hvs IH]; intros [|b ws]; simpl.
  - split; reflexivity.
  - split; discriminate.
  - split; discriminate.
  - rewrite andb_true_iff, Ha, IH. split.
    + intros [-> ->]. reflexivity.
    + intros H. inversion H. split; reflexivity.
Qed.

Lemma py_eqb_norm a : forall b, py_eqb a b = true <-> norm a = norm b.
Proof.
  induction a as [|x|x|x|x|vs IH|vs IH] using value_nested_ind; intros b.
  - destruct b as [|[]| | | | |]; simpl; split; congruence.
  - destruct b as [|y|y|y|y|ws|ws]; simpl; try (split; congruence).
    + rewrite Bool.eqb_true_iff. split; [congruence|].
      intros H. inversion H. apply b2z_inj. assumption.
    + rewrite Z.eqb_eq. split; congruence.
  - destruct b as [|y|y|y|y|ws|ws]; simpl; try (split; congruence).
    + rewrite Z.eqb_eq. split; congruence.
    + rewrite Z.eqb_eq. split; congruence.
  - destruct b as [|y|y|y|y|ws|ws]; simpl; try (split; congruence).
    rewrite String.eqb_eq. split; congruence.
  - destruct b as [|y|y|y|y|ws|ws]; simpl; try (split; congruence).
    rewrite String.eqb_eq. split; congruence.
  - destruct b as [|y|y|y|y|ws|ws]; try (simpl; split; congruence).
    rewrite py_eqb_tuple, (all_eqb_norm vs IH). simpl. split; congruence.
  - destruct b as [|y|y|y|y|ws|ws]; try (simpl; split; congruence).
    rewrite py_eqb_list, (all_eqb_norm vs IH). simpl. split; congruence.
Qed.

Lemma py_eqb_refl a : py_eqb a a = true.
Proof. apply py_eqb_norm. reflexivity. Qed.

Lemma py_eqb_sym a b : py_eqb a b = py_eqb b a.
Proof.
  destruct (py_eqb a b) eqn:Hab, (py_eqb b a) eqn:Hba; try reflexivity.
  - apply py_eqb_norm in Hab. symmetry in Hab. apply py_eqb_norm in Hab. congruence.
  - apply py_eqb_norm in Hba. symmetry in Hba. apply py_eqb_norm in Hba. congruence.
Qed.

Lemma py_eqb_trans a b c :
  py_eqb a b = true -> py_eqb b c = true -> py_eqb a c = true.
Proof.
  rewrite !py_eqb_norm. congruence.
Qed.

Lemma py_eqb_false_l a b c :
  py_eqb a b = true -> py_eqb a c = false -> py_eqb b c = false.
Proof.
  intros Hab Hac. destruct (py_eqb b c) eqn:Hbc; [|reflexivity].
  rewrite (py_eqb_trans a b c Hab Hbc) in Hac. discriminate.
Qed.

(** ** Dictionaries *)

Lemma dict_get_set_eq {V} k (v : V) d : dict_get k (dict_set k v d) = Some v.
Proof.
  induction d as [|[k0 v0] rest IH]; simpl.
  - rewrite String.eqb_refl. reflexivity.
  - destruct (String.eqb k0 k) eqn:E; simpl; rewrite E; [reflexivity|exact IH].
Qed.

Lemma dict_get_set_ne {V} k k' (v : V) d :
  k <> k' -> dict_get k (dict_set k' v d) = dict_get k d.
Proof.
  intros Hne. induction d as [|[k0 v0] rest IH]; simpl.
  - destruct (String.eqb k' k) eqn:E; [apply String.eqb_eq in E; congruence|reflexivity].
  - destruct (String.eqb k0 k') eqn:E; simpl.
    + apply String.eqb_eq in E. subst k0.
      destruct (String.eqb k' k) eqn:E'; [apply String.eqb_eq in E'; congruence|reflexivity].
    + rewrite IH. reflexivity.
Qed.

Lemma dget_set_eq k v d : dget k (dict_set k v d) = v.
Proof. unfold dget. rewrite dict_get_set_eq. reflexivity. Qed.

Lemma dget_set_ne k k' v d : k <> k' -> dget k (dict_set k' v d) = dget k d.
Proof. intros H. unfold dget. rewrite dict_get_set_ne by exact H. reflexivity. Qed.

Lemma vdict_get_set_eq {V} k (v : V) d : vdict_get k (vdict_set k v d) = Some v.
Proof.
  induction d as [|[k0 v0] rest IH]; simpl.
  - rewrite py_eqb_refl. reflexivity.
  - destruct (py_eqb k0 k) eqn:E; simpl; rewrite E; [reflexivity|exact IH].
Qed.

Lemma vdict_get_set_ne {V} k k' (v : V) d :
  py_eqb k' k = false -> vdict_get k (vdict_set k' v d) = vdict_get k d.
Proof.
  intros Hne. induction d as [|[k0 v0] rest IH]; simpl.
  - rewrite Hne. reflexivity.
  - destruct (py_eqb k0 k') eqn:E; simpl.
    + rewrite (py_eqb_false_l k' k0 k); [| rewrite py_eqb_sym; exact E | exact Hne].
      reflexivity.
    + rewrite IH. reflexivity.
Qed.

Lemma vdict_set_fresh {V} k (v : V) d :
  existsb (fun k' => py_eqb k' k) (map fst d) = false ->
  vdict_set k v d = (d ++ [(k, v)])%list.
Proof.
  induction d as [|[k0 v0] rest IH]; simpl; [reflexivity|].
  rewrite orb_false_iff. intros [-> H]. rewrite IH by exact H. reflexivity.
Qed.

Lemma existsb_sym k l :
  existsb (fun k' => py_eqb k' k) l = existsb (py_eqb k) l.
Proof.
  induction l as [|x l IH]; simpl; [reflexivity|].
  rewrite IH, (py_eqb_sym x k). reflexivity.
Qed.

Lemma distinct_app_one l k :
  distinct_keys l -> existsb (fun k' => py_eqb k' k) l = false ->
  distinct_keys (l ++ [k]).
Proof.
  induction l as [|x l IH]; simpl.
  - intros _ _. split; [reflexivity|exact I].
  - intros [Hx Hl]. rewrite orb_false_iff. intros [Hxk Hlk]. split.
    + rewrite existsb_app, Hx. simpl. rewrite Hxk. reflexivity.
    + apply IH; assumption.
Qed.

Lemma vdict_of_list_distinct {V} (l : list (value * V)) :
  distinct_keys (map fst l) -> vdict_of_list l = l.
Proof.
  unfold vdict_of_list.
  assert (Hgen : forall (acc : vdict V),
             distinct_keys (map fst acc ++ map fst l) ->
             fold_left (fun d kv => vdict_set (fst kv) (snd kv) d) l acc = (acc ++ l)%list).
  { induction l as [|[k v] rest IH]; intros acc Hd; simpl.
    - rewrite app_nil_r. reflexivity.
    - rewrite vdict_set_fresh.
      + rewrite IH.
        * rewrite <- app_assoc. reflexivity.
        * rewrite map_app. simpl. rewrite <- app_assoc. exact Hd.
      + clear IH. simpl in Hd. induction acc as [|[k0 v0] acc IHacc]; simpl; [reflexivity|].
        simpl in Hd. destruct Hd as [Hk0 Hd].
        rewrite existsb_app in Hk0. apply orb_false_iff in Hk0 as [_ Hk0].
        simpl in Hk0. apply orb_false_iff in Hk0 as [Hk0 _].
        rewrite Hk0. simpl. apply IHacc. exact Hd. }
  intros Hd. apply (Hgen []). exact Hd.
Qed.

(** ** Properties of the table lookups *)

Lemma one_row_answers msg rows : answers rows (one_row msg rows).
Proof.
  destruct rows as [|r [|r' rest]]; simpl; eauto.
Qed.

Lemma answers_nil got : got = Ok None -> answers [] got.
Proof. intros ->. reflexivity. Qed.

Lemma breaks_sql_literal v lit :
  sql_literal v = Some lit -> breaks_literal lit = breaks_literal v.
Proof.
  destruct v; simpl; intros H; inversion H; reflexivity.
Qed.

Lemma get_row_answers db table_name key v :
  has_column db table_name key ->
  plain_literal v ->
  answers (List.filter (matches_exact key v) (rows_of db table_name))
          (get_row db table_name key v).
Proof.
  intros Hcol Hplain. unfold get_row, matches_exact, rows_of, db_get.
  destruct (sql_literal v) as [lit|] eqn:Hlit.
  - destruct (db !! table_name) as [t|] eqn:Ht.
    + rewrite (Hcol t Ht), (breaks_sql_literal v lit Hlit), Hplain. simpl.
      apply one_row_answers.
    + reflexivity.
  - replace (List.filter (fun _ => false) _) with (@nil row).
    + reflexivity.
    + symmetry. induction (match db !! table_name with Some t => t_rows t | None => [] end);
        simpl; auto.
Qed.

Lemma get_row_insensitive_answers db table_name key v :
  has_column db table_name key ->
  text_column db table_name key ->
  answers (List.filter (matches_insensitive key v) (rows_of db table_name))
          (get_row_insensitive db table_name key v).
Proof.
  intros Hcol Htext. unfold get_row_insensitive, rows_of, db_get.
  destruct (db !! table_name) as [t|] eqn:Ht.
  - rewrite (Hcol t Ht), (Htext t Ht). simpl. apply one_row_answers.
  - reflexivity.
Qed.

(** ** Properties of the config resolver *)




Lemma In_dict_set {V} (k k' : string) (x v : V) (d : dict V) :
  In (k, x) (dict_set k' v d) -> x = v \/ In (k, x) d.
Proof.
  induction d as [|[k0 v0] rest IH]; simpl.
  - intros [H|[]]. inversion H. left. reflexivity.
  - destruct (String.eqb k0 k').
    + intros [H|H]; [inversion H; left; reflexivity | right; right; exact H].
    + intros [H|H]; [right; left; exact H|].
      destruct (IH H) as [Hv|Hin]; [left; exact Hv | right; right; exact Hin].
Qed.

Lemma blank_row_null columns k x : In (k, x) (blank_row columns) -> x = VNone.
Proof.
  unfold blank_row, dict_of_list.
  assert (Hgen : forall (acc : row),
             (forall k' x', In (k', x') acc -> x' = VNone) ->
             In (k, x) (fold_left (fun d kv => dict_set (fst kv) (snd kv) d)
                                  (map (fun c => (c, VNone)) columns) acc) ->
             x = VNone).
  { induction columns as [|c rest IH]; simpl; intros acc Hacc Hin.
    - eapply Hacc. exact Hin.
    - eapply IH; [|exact Hin]. intros k' x' H'.
      apply In_dict_set in H' as [H'|H']; [exact H'|eapply Hacc; exact H']. }
  apply Hgen. intros k' x' [].
Qed.

Lemma In_override config r f v :
  In (f, v) (override config r) ->
  exists db_val, In (f, db_val) r /\
                 v = path_to_str (get_case_insensitive config f db_val).
Proof.
  unfold override. rewrite in_map_iff. intros [[k db_val] [Heq Hin]].
  simpl in Heq. inversion Heq; subst. exists db_val. split; [exact Hin|reflexivity].
Qed.


(** ** The state and error monad *)

Lemma bind_ok {A B} (m : M A) (k : A -> M B) s a s1 :
  m s = (Ok a, s1) -> bind m k s = k a s1.
Proof. unfold bind. intros ->. reflexivity. Qed.

Lemma bind_raise {A B} (m : M A) (k : A -> M B) s e s1 :
  m s = (Raise e, s1) -> bind m k s = (Raise e, s1).
Proof. unfold bind. intros ->. reflexivity. Qed.

Lemma bind_inv {A B} (m : M A) (k : A -> M B) s b s' :
  bind m k s = (Ok b, s') ->
  exists a s1, m s = (Ok a, s1) /\ k a s1 = (Ok b, s').
Proof.
  unfold bind. destruct (m s) as [[a|e] s1]; intros H.
  - exists a, s1. split; [reflexivity|exact H].
  - discriminate.
Qed.

Lemma keeps_ret {A} t (a : A) : keeps_table t (ret a).
Proof. intros s. reflexivity. Qed.

Lemma keeps_raise {A} t e : keeps_table t (@raise A e).
Proof. intros s. reflexivity. Qed.

Lemma keeps_bind {A B} t (m : M A) (k : A -> M B) :
  keeps_table t m -> (forall a, keeps_table t (k a)) -> keeps_table t (bind m k).
Proof.
  intros Hm Hk s. unfold bind. specialize (Hm s).
  destruct (m s) as [[a|e] s1]; simpl in *.
  - rewrite Hk. exact Hm.
  - exact Hm.
Qed.

Lemma keeps_lift_result {A} t (r : result A) : keeps_table t (lift_result r).
Proof.
  intros s. unfold lift_result. destruct r as [a|e]; [reflexivity|].
  destruct (logged e); reflexivity.
Qed.

Lemma keeps_log t lvl msg : keeps_table t (log lvl msg).
Proof. intros s. reflexivity. Qed.

Lemma keeps_uuid1 t : keeps_table t uuid1.
Proof. intros s. reflexivity. Qed.

Lemma keeps_getitem t k d : keeps_table t (getitem k d).
Proof. unfold getitem. destruct (dict_get k d); [apply keeps_ret|apply keeps_raise]. Qed.

(** What the cast to the template lets through: the frame itself, with
    every column of the template among its columns. *)
Lemma astype_template_inv template df df' :
  astype_template template df = Ok df' ->
  df' = df /\
  forall columns c, template = Some columns -> In c columns -> In c (t_columns df).
Proof.
  unfold astype_template. destruct template as [columns|].
  - destruct (List.filter _ columns) as [|missing rest] eqn:Hf; [|discriminate].
    intros H. inversion H; subst df'. split; [reflexivity|].
    intros columns' c Hc Hin. inversion Hc; subst columns'.
    destruct (mem_string c (t_columns df)) eqn:Hmem.
    + unfold mem_string in Hmem. apply existsb_exists in Hmem as [x [Hx Heq]].
      apply String.eqb_eq in Heq. subst x. exact Hx.
    + assert (Hc' : In c (List.filter (fun c => negb (mem_string c (t_columns df))) columns)).
      { apply filter_In. split; [exact Hin|]. rewrite Hmem. reflexivity. }
      rewrite Hf in Hc'. destruct Hc'.
  - intros H. inversion H. split; [reflexivity|]. intros columns c Hc. discriminate.
Qed.

(** [set_row], when it goes through: the frame of the rows kept, which
    has the columns of the template, and the table written. *)
Lemma set_row_unfold template db table_name r id_col db' :
  set_row template db table_name r id_col = Ok db' ->
  exists df,
    match db !! table_name with
    | None => df = mkTable [] []
    | Some t =>
        mem_string id_col (t_columns t) = true /\
        exists idv,
          dict_get id_col r = Some idv /\
          df = mkTable (t_columns t)
                 (List.filter (fun old => cell_ne (dget id_col old) idv) (t_rows t))
    end /\
    (forall columns c, template = Some columns -> In c columns -> In c (t_columns df)) /\
    db' = <[table_name := concat_row df (row_columns template r) r]> db.
Proof.
  unfold set_row, db_get. intros H.
  destruct (db !! table_name) as [t|] eqn:Ht.
  - destruct (mem_string id_col (t_columns t)) eqn:Hcol; [|discriminate].
    destruct (dict_get id_col r) as [idv|] eqn:Hid; [|discriminate].
    simpl in H.
    destruct (astype_template template _) as [df'|e] eqn:Ha; [|discriminate].
    apply astype_template_inv in Ha as [-> Hcols]. simpl in H. inversion H.
    eexists. split; [split; [reflexivity|]; exists idv; split; reflexivity|].
    split; [exact Hcols|reflexivity].
  - simpl in H.
    destruct (astype_template template _) as [df'|e] eqn:Ha; [|discriminate].
    apply astype_template_inv in Ha as [-> Hcols]. simpl in H. inversion H.
    eexists. split; [reflexivity|]. split; [exact Hcols|reflexivity].
Qed.

Lemma set_row_other template db table_name r id_col db' other :
  set_row template db table_name r id_col = Ok db' ->
  other <> table_name -> db' !! other = db !! other.
Proof.
  intros H Hne. apply set_row_unfold in H as [df [_ [_ ->]]].
  rewrite lookup_insert_ne by congruence. reflexivity.
Qed.

Section EngineFacts.
Variable env : host.


Lemma keeps_m_get_row t table_name key v : keeps_table t (m_get_row table_name key v).
Proof. intros s. unfold m_get_row. apply keeps_lift_result. Qed.

Lemma keeps_m_set_row t table_name r id_col :
  t <> table_name -> keeps_table t (m_set_row env table_name r id_col).
Proof.
  intros Hne s. unfold m_set_row.
  destruct (set_row _ _ _ _ _) as [db'|e] eqn:H; simpl; [|reflexivity].
  eapply set_row_other; eassumption.
Qed.

Lemma keeps_mapM {A B} t (f : A -> M B) l :
  (forall x, keeps_table t (f x)) -> keeps_table t (mapM f l).
Proof.
  intros Hf. induction l as [|x rest IH]; simpl.
  - apply keeps_ret.
  - apply keeps_bind; [apply Hf|]. intros y.
    apply keeps_bind; [exact IH|]. intros ys. apply keeps_ret.
Qed.

Lemma keeps_forM {A} t (f : A -> M unit) l :
  (forall x, keeps_table t (f x)) -> keeps_table t (forM f l).
Proof.
  intros Hf. induction l as [|x rest IH]; simpl.
  - apply keeps_ret.
  - apply keeps_bind; [apply Hf|]. intros _. exact IH.
Qed.


Lemma keeps_ToolParam_commit t p tool_id :
  t <> "ToolParams" -> keeps_table t (ToolParam_commit env p tool_id).
Proof.
  intros Hne. unfold ToolParam_commit.
  apply keeps_bind.
  - destruct (negb _); [|apply keeps_ret].
    apply keeps_bind; [apply keeps_uuid1|]. intros id. apply keeps_ret.
  - intros config. apply keeps_bind; [apply keeps_m_set_row; exact Hne|].
    intros _. apply keeps_ret.
Qed.
End EngineFacts.

(** ** Writes *)

Lemma mem_string_In k l : mem_string k l = true <-> In k l.
Proof.
  unfold mem_string. rewrite existsb_exists. split.
  - intros [x [Hin Heq]]. apply String.eqb_eq in Heq. subst. exact Hin.
  - intros Hin. exists k. split; [exact Hin|apply String.eqb_refl].
Qed.

Lemma dict_get_In_keys {V} k (d : dict V) v : dict_get k d = Some v -> In k (dict_keys d).
Proof.
  induction d as [|[k0 v0] rest IH]; simpl; [discriminate|].
  destruct (String.eqb k0 k) eqn:E.
  - intros _. left. apply String.eqb_eq. exact E.
  - intros H. right. apply IH. exact H.
Qed.

Lemma dget_pad columns r k : In k columns -> dget k (pad columns r) = dget k r.
Proof.
  unfold pad. induction columns as [|c rest IH]; simpl; [intros []|].
  intros Hin. unfold dget at 1. simpl.
  destruct (String.eqb c k) eqn:E.
  - apply String.eqb_eq in E. subst. reflexivity.
  - destruct Hin as [Hc|Hin]; [subst; rewrite String.eqb_refl in E; discriminate|].
    apply IH. exact Hin.
Qed.

Lemma filter_map_comm {A B} (f : B -> bool) (g : A -> B) l :
  List.filter f (map g l) = map g (List.filter (fun x => f (g x)) l).
Proof.
  induction l as [|x l IH]; simpl; [reflexivity|].
  destruct (f (g x)); simpl; rewrite IH; reflexivity.
Qed.

Lemma filter_none {A} (f : A -> bool) l :
  (forall x, In x l -> f x = false) -> List.filter f l = [].
Proof.
  induction l as [|x l IH]; simpl; intros H; [reflexivity|].
  rewrite (H x) by (left; reflexivity). apply IH. intros y Hy. apply H. right. exact Hy.
Qed.

Lemma In_row_columns_key template (r : row) k :
  In k (dict_keys r) -> In k (row_columns template r).
Proof.
  intros Hin. unfold row_columns. destruct template as [columns|]; [|exact Hin].
  apply in_or_app. destruct (mem_string k columns) eqn:E.
  - left. apply mem_string_In. exact E.
  - right. apply filter_In. split; [exact Hin|]. rewrite E. reflexivity.
Qed.

Lemma In_row_columns_template columns (r : row) k :
  In k columns -> In k (row_columns (Some columns) r).
Proof. intros Hin. unfold row_columns. apply in_or_app. left. exact Hin. Qed.

Lemma In_concat_columns df new_columns r k :
  In k new_columns -> In k (t_columns (concat_row df new_columns r)).
Proof.
  intros Hin. unfold concat_row. simpl. apply in_or_app.
  destruct (mem_string k (t_columns df)) eqn:E.
  - left. apply mem_string_In. exact E.
  - right. apply filter_In. split; [exact Hin|]. rewrite E. reflexivity.
Qed.

(** What [set_row] leaves: the table, with the columns of the frame
    among its columns, and the row written as the one row that carries
    its identifier. *)
Lemma set_row_written template db table_name r id_col id db' :
  set_row template db table_name r id_col = Ok db' ->
  dict_get id_col r = Some id ->
  is_none id = false ->
  exists t,
    db' = <[table_name := t]> db /\
    (forall k, In k (row_columns template r) -> In k (t_columns t)) /\
    List.filter (fun x => cell_eq (dget id_col x) id) (t_rows t) = [pad (t_columns t) r].
Proof.
  intros Hset Hid Hnn.
  assert (Hkey : In id_col (dict_keys r)) by (eapply dict_get_In_keys; exact Hid).
  assert (Hdget : dget id_col r = id) by (unfold dget; rewrite Hid; reflexivity).
  assert (Hgen : forall df,
             (forall x, In x (t_rows df) -> cell_eq (dget id_col x) id = false) ->
             exists t,
               <[table_name := concat_row df (row_columns template r) r]> db
               = <[table_name := t]> db /\
               (forall k, In k (row_columns template r) -> In k (t_columns t)) /\
               List.filter (fun x => cell_eq (dget id_col x) id) (t_rows t)
               = [pad (t_columns t) r]).
  { intros df Hkept. exists (concat_row df (row_columns template r) r).
    split; [reflexivity|]. split; [intros k; apply In_concat_columns|].
    pose proof (In_concat_columns df (row_columns template r) r id_col
                  (In_row_columns_key template r id_col Hkey)) as Hcol.
    unfold concat_row in *. simpl in *.
    rewrite filter_map_comm, List.filter_app, (filter_none _ (t_rows df)).
    - simpl. rewrite dget_pad by exact Hcol. rewrite Hdget.
      unfold cell_eq, cell_ne. rewrite Hnn, py_eqb_refl. reflexivity.
    - intros x Hx. rewrite dget_pad by exact Hcol. apply Hkept. exact Hx. }
  apply set_row_unfold in Hset as [df [Hdf [_ ->]]].
  apply Hgen. destruct (db !! table_name) as [t|].
  - destruct Hdf as [_ [idv [Hidv ->]]]. rewrite Hid in Hidv. inversion Hidv; subst idv.
    simpl. intros x Hx. apply filter_In in Hx as [_ Hx].
    unfold cell_eq. rewrite Hx. reflexivity.
  - subst df. simpl. intros x [].
Qed.

(** After [set_row], exactly one row of the table carries the identifier
    of the row written, and the table has the identifier column. *)
Lemma set_row_one_row template db table_name r id_col id db' :
  set_row template db table_name r id_col = Ok db' ->
  dict_get id_col r = Some id ->
  is_none id = false ->
  length (rows_with_id db' table_name id_col id) = 1%nat /\
  has_column db' table_name id_col.
Proof.
  intros Hset Hid Hnn.
  destruct (set_row_written _ _ _ _ _ _ _ Hset Hid Hnn) as [t [-> [Hcols Hrows]]].
  split.
  - unfold rows_with_id, rows_of. rewrite lookup_insert_eq, Hrows. reflexivity.
  - intros t' Ht'. rewrite lookup_insert_eq in Ht'. inversion Ht'; subst t'.
    apply mem_string_In. apply Hcols. apply In_row_columns_key.
    eapply dict_get_In_keys. exact Hid.
Qed.

(** The table [set_row] leaves has the rows it kept, then the row
    written. *)
Lemma set_row_inv template db table_name r id_col id db' :
  set_row template db table_name r id_col = Ok db' ->
  dict_get id_col r = Some id ->
  exists t',
    db' = <[table_name := t']> db /\
    t_rows t'
    = (map (pad (t_columns t'))
           (List.filter (fun old => cell_ne (dget id_col old) id) (rows_of db table_name))
         ++ [pad (t_columns t') r])%list /\
    forall t k, db !! table_name = Some t -> In k (t_columns t) -> In k (t_columns t').
Proof.
  intros Hset Hid. apply set_row_unfold in Hset as [df [Hdf [_ ->]]].
  unfold rows_of. destruct (db !! table_name) as [t|] eqn:Ht.
  - destruct Hdf as [_ [idv [Hidv ->]]]. rewrite Hid in Hidv. inversion Hidv; subst idv.
    eexists. split; [reflexivity|]. split.
    + unfold concat_row. simpl. rewrite List.map_app. reflexivity.
    + intros t0 k Ht0 Hk. inversion Ht0; subst t0. unfold concat_row. simpl.
      apply in_or_app. left. exact Hk.
  - subst df. eexists. split; [reflexivity|]. split.
    + unfold concat_row. simpl. reflexivity.
    + intros t0 k Ht0. discriminate.
Qed.

Lemma filter_split_length {A} (f : A -> bool) l :
  (length (List.filter f l) + length (List.filter (fun x => negb (f x)) l))%nat = length l.
Proof.
  induction l as [|x l IH]; simpl; [reflexivity|].
  destruct (f x); simpl; lia.
Qed.

(** [set_row] on a table that has one row with the identifier puts the
    row written in its place: the table has as many rows as before. *)
Lemma set_row_replaces template db table_name r id_col id db' :
  set_row template db table_name r id_col = Ok db' ->
  dict_get id_col r = Some id ->
  length (rows_with_id db table_name id_col id) = 1%nat ->
  length (rows_of db' table_name) = length (rows_of db table_name).
Proof.
  intros Hset Hid Hone.
  destruct (set_row_inv _ _ _ _ _ _ _ Hset Hid) as [t' [-> [Hrows _]]].
  unfold rows_of at 1. rewrite lookup_insert_eq, Hrows.
  rewrite List.length_app, List.length_map. simpl.
  pose proof (filter_split_length (fun old => cell_ne (dget id_col old) id)
                                  (rows_of db table_name)) as Hsplit.
  cbv beta in Hsplit. unfold rows_with_id, cell_eq, row in *.
  rewrite Hone in Hsplit. lia.
Qed.

Lemma truthy_not_none v : py_truthy v = true -> is_none v = false.
Proof. destruct v; simpl; congruence. Qed.

Lemma dget_Some k d : is_none (dget k d) = false -> dict_get k d = Some (dget k d).
Proof. unfold dget. destruct (dict_get k d); [reflexivity|discriminate]. Qed.

Section Commit.
Variable env : host.

Lemma m_set_row_inv table_name r id_col s s1 :
  m_set_row env table_name r id_col s = (Ok tt, s1) ->
  exists db',
    set_row (schema_template env table_name) (st_db s) table_name r id_col = Ok db' /\
    s1 = set_db db' s.
Proof.
  unfold m_set_row. destruct (set_row _ _ _ _ _) as [db'|e]; intros H; inversion H.
  exists db'. split; reflexivity.
Qed.

(** One [set_row] in the monad, on a row that has its identifier:
    one row of the table carries the identifier afterwards, in the
    place of the one that carried it before. *)
Lemma m_set_row_one_row table_name r id_col s s1 :
  m_set_row env table_name r id_col s = (Ok tt, s1) ->
  py_truthy (dget id_col r) = true ->
  length (rows_with_id (st_db s1) table_name id_col (dget id_col r)) = 1%nat /\
  (length (rows_with_id (st_db s) table_name id_col (dget id_col r)) = 1%nat ->
   length (rows_of (st_db s1) table_name) = length (rows_of (st_db s) table_name)).
Proof.
  intros Hset Hid. apply truthy_not_none in Hid.
  pose proof (dget_Some _ _ Hid) as Hget.
  apply m_set_row_inv in Hset as [db' [Hset ->]]. simpl. split.
  - apply (set_row_one_row _ _ _ _ _ _ _ Hset Hget Hid).
  - apply (set_row_replaces _ _ _ _ _ _ _ Hset Hget).
Qed.






End Commit.

(** ** Resources and the resource cache *)

Lemma dict_get_In {V} k (d : dict V) v : dict_get k d = Some v -> In (k, v) d.
Proof.
  induction d as [|[k0 v0] rest IH]; simpl; [discriminate|].
  destruct (String.eqb k0 k) eqn:E.
  - apply String.eqb_eq in E. subst. intros H. inversion H. left. reflexivity.
  - intros H. right. apply IH. exact H.
Qed.

Lemma dget_override config r f :
  dget f (override config r)
  = match dict_get f r with
    | Some v => path_to_str (get_case_insensitive config f v)
    | None => VNone
    end.
Proof.
  unfold dget, override. induction r as [|[k v] rest IH]; simpl; [reflexivity|].
  destruct (String.eqb k f) eqn:E.
  - apply String.eqb_eq in E. subst. reflexivity.
  - exact IH.
Qed.

Lemma dget_blank_row columns f : dget f (blank_row columns) = VNone.
Proof.
  unfold dget. destruct (dict_get f (blank_row columns)) as [v|] eqn:E; [|reflexivity].
  apply dict_get_In in E. eapply blank_row_null. exact E.
Qed.

Lemma find_insensitive_name name f :
  find_insensitive [("Name", name)] f
  = if String.eqb (lower f) "name" then Some name else None.
Proof.
  unfold find_insensitive. change (lower "Name") with "name".
  rewrite (String.eqb_sym "name"). destruct (String.eqb (lower f) "name"); reflexivity.
Qed.

(** A field of the blank record is the caller's when its name is the
    caller's key up to case, and null otherwise. *)
Lemma dget_override_blank name columns f :
  dget f (override [("Name", name)] (blank_row columns))
  = if String.eqb (lower f) "name" && mem_string f (dict_keys (blank_row columns))
    then path_to_str name else VNone.
Proof.
  rewrite dget_override.
  destruct (dict_get f (blank_row columns)) as [v|] eqn:E.
  - assert (Hin : mem_string f (dict_keys (blank_row columns)) = true).
    { apply mem_string_In. eapply dict_get_In_keys. exact E. }
    rewrite Hin, andb_true_r.
    apply dict_get_In in E. apply blank_row_null in E. subst v.
    unfold get_case_insensitive. rewrite find_insensitive_name.
    destruct (String.eqb (lower f) "name"); reflexivity.
  - destruct (mem_string f (dict_keys (blank_row columns))) eqn:Hin.
    + apply mem_string_In in Hin. unfold dict_keys in Hin.
      apply in_map_iff in Hin as [[k v] [Hk Hin]]. simpl in Hk. subst k.
      exfalso. clear -E Hin. induction (blank_row columns) as [|[k0 v0] rest IH].
      * destruct Hin.
      * simpl in E. destruct (String.eqb k0 f) eqn:E0; [discriminate|].
        destruct Hin as [H|H]; [inversion H; subst; rewrite String.eqb_refl in E0; discriminate|].
        apply IH; assumption.
    + rewrite andb_false_r. reflexivity.
Qed.

Lemma In_override_blank name columns f v :
  In (f, v) (override [("Name", name)] (blank_row columns)) ->
  v = if String.eqb (lower f) "name" then path_to_str name else VNone.
Proof.
  intros Hin. apply In_override in Hin as [db_val [Hin ->]].
  apply blank_row_null in Hin. subst db_val.
  unfold get_case_insensitive. rewrite find_insensitive_name.
  destruct (String.eqb (lower f) "name"); reflexivity.
Qed.

Section ResourceFacts.
Variable env : host.

(** The constructor on a name the store does not have: the blank
    record, no parent, and the state as it was. *)
Lemma Resource_new_unknown name shed s t :
  resources_ready (st_db s) t ->
  unknown_name (st_db s) name ->
  Resource_new (Some [("Name", name)]) VNone shed s
  = (Ok (mkResource (override [("Name", name)] (blank_row (t_columns t))) None shed), s).
Proof.
  intros [Ht [Hcol Htext]] Hunknown.
  assert (Hfill : forall id_column,
             id_column = "ResourceID" \/ id_column = "Name" ->
             fill_config (st_db s) "Resources" id_column (Some [("Name", name)]) VNone None
             = Ok (override [("Name", name)] (blank_row (t_columns t)))).
  { intros id_column Hc. unfold fill_config.
    assert (Hfound : find_persisted (st_db s) "Resources" id_column [("Name", name)] VNone None
                     = Ok None).
    { unfold find_persisted. destruct Hc as [-> | ->].
      - reflexivity.
      - change (get_case_insensitive [("Name", name)] "Name" VNone) with name.
        destruct (is_none name); [reflexivity|].
        unfold get_row_insensitive, db_get. rewrite Ht, Hcol, Htext. simpl.
        unfold unknown_name, rows_of in Hunknown. rewrite Ht in Hunknown.
        rewrite Hunknown. reflexivity. }
    rewrite Hfound. simpl. unfold get_columns, db_get. rewrite Ht. reflexivity. }
  unfold Resource_new, Resource_configure, m_fill_config.
  unfold bind at 1. rewrite (Hfill "ResourceID") by (left; reflexivity). simpl.
  rewrite dget_override_blank. simpl.
  unfold bind at 1. rewrite (Hfill "Name") by (right; reflexivity). simpl.
  unfold init_parent. simpl. rewrite dget_override_blank. simpl. reflexivity.
Qed.

Lemma shed_get_miss name s t :
  resources_ready (st_db s) t ->
  unknown_name (st_db s) name ->
  vdict_get name (st_shed s) = None ->
  shed_get name s
  = (Ok (length (st_heap s)), cached name (blank_resource (t_columns t) name) s).
Proof.
  intros Hready Hunknown Hmiss. unfold shed_get. rewrite Hmiss.
  unfold bind. rewrite (Resource_new_unknown name true s t Hready Hunknown).
  reflexivity.
Qed.

(** A name that is bound stays bound to the same address. *)
Lemma shed_get_hit name s l :
  vdict_get name (st_shed s) = Some l -> shed_get name s = (Ok l, s).
Proof. intros H. unfold shed_get. rewrite H. reflexivity. Qed.

(** Whatever [get] returned, the next [get] of the name returns it
    again and changes nothing. *)
Lemma shed_get_again name s l s1 :
  shed_get name s = (Ok l, s1) -> shed_get name s1 = (Ok l, s1).
Proof.
  unfold shed_get. destruct (vdict_get name (st_shed s)) as [l0|] eqn:Hs.
  - intros H. inversion H; subst. rewrite Hs. reflexivity.
  - intros H. apply bind_inv in H as [r [s0 [_ H]]].
    unfold cache in H. inversion H; subst. simpl.
    rewrite vdict_get_set_eq. reflexivity.
Qed.

Lemma Resource_path_no_parent fuel r s :
  row_given (r_parent_row r) = None ->
  Resource_path (S fuel) r s = (Ok (dget "Path" (r_config r)), s).
Proof. intros H. simpl. rewrite H. reflexivity. Qed.

Lemma Resource_path_parent fuel r parent_row s parent s1 parent_path s2 :
  row_given (r_parent_row r) = Some parent_row ->
  get_parent r parent_row s = (Ok parent, s1) ->
  Resource_path fuel parent s1 = (Ok parent_path, s2) ->
  (is_none parent_path || is_none (dget "Path" (r_config r)) = true ->
   Resource_path (S fuel) r s = (Ok VNone, s2)) /\
  (is_none parent_path || is_none (dget "Path" (r_config r)) = false ->
   forall again s3,
     Resource_path fuel parent s2 = (Ok (VStr again), s3) ->
     Resource_path (S fuel) r s
     = (Ok (VStr ((again +:+ "/") +:+ py_str (dget "Path" (r_config r)))), s3)).
Proof.
  intros Hrow Hparent Hpath.
  assert (Hunfold : Resource_path (S fuel) r s
            = (if is_none parent_path then ret VNone
               else if is_none (dget "Path" (r_config r)) then ret VNone
               else (let* again := Resource_path fuel parent in
                     let* prefix := py_add again (VStr "/") in
                     py_add prefix (VStr (py_str (dget "Path" (r_config r)))))%M) s2).
  { simpl. rewrite Hrow. rewrite (bind_ok _ _ _ _ _ Hparent).
    rewrite (bind_ok _ _ _ _ _ Hpath). reflexivity. }
  rewrite Hunfold. split.
  - intros H. apply orb_true_iff in H as [-> | H]; [reflexivity|].
    rewrite H. destruct (is_none parent_path); reflexivity.
  - intros H. apply orb_false_iff in H as [-> ->]. intros again s3 Hagain.
    rewrite (bind_ok _ _ _ _ _ Hagain). reflexivity.
Qed.

(** A parent that neither lookup finds leaves the resource without
    a parent row, and a warning in the log. *)
Lemma init_parent_unresolved r s :
  py_truthy (dget "Parent" (r_config r)) = true ->
  get_row (st_db s) "Resources" "ResourceID" (dget "Parent" (r_config r)) = Ok None ->
  get_row_insensitive (st_db s) "Resources" "Name" (dget "Parent" (r_config r)) = Ok None ->
  init_parent r s
  = (Ok (mkResource (r_config r) None (r_shed r)),
     add_log WARNING ("Parent resource " +:+ dq +:+ py_str (dget "Parent" (r_config r))
                        +:+ dq +:+ " not found.") s).
Proof.
  intros Htruthy Hid Hname. unfold init_parent. rewrite Htruthy. simpl.
  unfold bind at 1. unfold m_get_row. rewrite Hid. simpl.
  unfold bind at 1. unfold m_get_row_insensitive. rewrite Hname. simpl.
  reflexivity.
Qed.
End ResourceFacts.

Lemma dict_get_blank_row columns k :
  In k columns -> dict_get k (blank_row columns) = Some VNone.
Proof.
  unfold blank_row, dict_of_list.
  assert (Hgen : forall (acc : row),
             dict_get k acc = Some VNone \/ In k columns ->
             dict_get k (fold_left (fun d kv => dict_set (fst kv) (snd kv) d)
                                   (map (fun c => (c, VNone)) columns) acc) = Some VNone).
  { induction columns as [|c rest IH]; simpl; intros acc H.
    - destruct H as [H|[]]. exact H.
    - apply IH. destruct (String.eqb c k) eqn:E.
      + apply String.eqb_eq in E. subst. left. apply dict_get_set_eq.
      + assert (Hne : k <> c) by (intros ->; rewrite String.eqb_refl in E; discriminate).
        destruct H as [H|[H|H]].
        * left. rewrite dict_get_set_ne by exact Hne. exact H.
        * congruence.
        * right. exact H. }
  intros Hin. apply Hgen. right. exact Hin.
Qed.

Lemma py_truthy_uuid n : py_truthy (VStr (uuid_str n)) = true.
Proof. reflexivity. Qed.

(** [commit] through the address of a blank record the cache holds:
    the object gets an identifier, stays where it is, and its row is in
    the store. *)
Lemma commit_at_cached env name columns s s2 :
  let l := length (st_heap s) in
  let r := blank_resource columns name in
  commit_at env l (cached name r s) = (Ok tt, s2) ->
  exists id,
    py_truthy id = true /\
    shed_get name s2 = (Ok l, s2) /\
    st_heap s2 !! l = Some (mkResource (dict_set "ResourceID" id (r_config r)) None true) /\
    length (rows_with_id (st_db s2) "Resources" "ResourceID" id) = 1%nat.
Proof.
  intros l r H.
  assert (Hl : st_heap (cached name r s) !! l = Some r).
  { simpl. rewrite lookup_app_r by (unfold l; lia). unfold l. rewrite Nat.sub_diag.
    reflexivity. }
  assert (Hid : dget "ResourceID" (r_config r) = VNone).
  { unfold r, blank_resource. simpl. rewrite dget_override_blank. reflexivity. }
  unfold commit_at in H.
  apply bind_inv in H as [r0 [s0 [Hderef H]]].
  unfold deref in Hderef. rewrite Hl in Hderef. inversion Hderef; subst r0 s0.
  rewrite Hid in H. simpl py_truthy in H. simpl negb in H. cbv iota in H.
  apply bind_inv in H as [config [s0 [Hconfig H]]].
  apply bind_inv in Hconfig as [id [s0' [Huuid Hret]]].
  unfold uuid1 in Huuid. inversion Huuid; subst id s0'. clear Huuid.
  inversion Hret; subst config s0. clear Hret.
  apply bind_inv in H as [[] [s3 [Hstore Hset]]].
  inversion Hstore; subst s3. clear Hstore.
  exists (VStr (uuid_str (st_uuids s))).
  split; [apply py_truthy_uuid|].
  destruct (m_set_row_one_row env _ _ _ _ _ Hset) as [Hone _].
  { rewrite dget_set_eq. apply py_truthy_uuid. }
  rewrite dget_set_eq in Hone.
  apply m_set_row_inv in Hset as [db' [_ ->]].
  split; [|split; [|exact Hone]].
  - apply shed_get_hit. simpl. apply vdict_get_set_eq.
  - simpl. apply list_lookup_insert_eq. rewrite length_app. simpl. unfold l. lia.
Qed.

(** C9, amended: over a store whose table of resources has a column
    of names that holds text, [get] of a name that is not cached and
    that no persisted resource goes by does not raise; it builds the
    record with that name and every other field null, caches it,
    returns the same object at every later [get] of the name, and a
    path set through that object, or the identifier a commit through
    it assigns, is what every holder finds there.  For any name, a
    [get] that returned an object returns it again. *)
Theorem shed_get_unknown_name_shared env :
  (forall name s t,
     resources_ready (st_db s) t ->
     unknown_name (st_db s) name ->
     vdict_get name (st_shed s) = None ->
     miss_then_shared env name s t) /\
  (forall name s l s1,
     shed_get name s = (Ok l, s1) -> shed_get name s1 = (Ok l, s1)).
Proof.
  split.
  - intros name s t Hready Hunknown Hmiss. unfold miss_then_shared.
    pose proof (shed_get_miss name s t Hready Hunknown Hmiss) as Hget.
    assert (Hl : (st_heap s ++ [blank_resource (t_columns t) name])%list
                   !! length (st_heap s) = Some (blank_resource (t_columns t) name)).
    { rewrite lookup_app_r by lia. rewrite Nat.sub_diag. reflexivity. }
    split; [exact Hget|]. split; [exact Hl|]. split.
    { simpl. rewrite dget_override, dict_get_blank_row.
      - reflexivity.
      - apply mem_string_In. apply Hready. }
    split; [intros f v; apply In_override_blank|].
    split; [eapply shed_get_again; exact Hget|].
    split; [|intros s2; apply commit_at_cached].
    intros new_path. unfold set_path. simpl. rewrite Hl.
    eexists. split; [reflexivity|]. split.
    { unfold shed_get. simpl. rewrite vdict_get_set_eq. reflexivity. }
    split.
    { simpl. rewrite insert_app_r_alt by lia. rewrite Nat.sub_diag. simpl.
      rewrite lookup_app_r by lia. rewrite Nat.sub_diag. reflexivity. }
    simpl. unfold ret. rewrite dget_set_eq. reflexivity.
  - intros name s l s1. apply shed_get_again.
Qed.

Lemma shed_get_unknown_name_shared_witness :
  miss_then_shared example_host (VStr "METAR CSV") (store_state empty_store)
                   (mkTable ["ResourceID"; "Name"; "Path"; "Parent"] []).
Proof.
  apply (proj1 (shed_get_unknown_name_shared example_host)).
  - repeat split; reflexivity.
  - reflexivity.
  - reflexivity.
Defined.

(** C9 as stated fails: [get] raises over a store with two resources
    whose names differ by case only, over a store without the table of
    resources, and over a table whose names are numbers; and the record
    it builds for a name that is a [pathlib.Path] has the string of the
    path for name. *)
Lemma shed_get_can_raise :
  (exists msg s',
     shed_get (VStr "gis") (store_state twin_store) = (Raise (ClothoError msg), s')) /\
  (exists msg s',
     shed_get (VStr "gis") (store_state ∅) = (Raise (AttributeError msg), s')) /\
  (exists msg s',
     shed_get (VStr "gis") (store_state numbered_store)
     = (Raise (AttributeError msg), s')) /\
  (exists l s' r,
     shed_get (VPath "data/gis") (store_state empty_store) = (Ok l, s') /\
     st_heap s' !! l = Some r /\
     dget "Name" (r_config r) = VStr "data/gis" /\
     dget "Name" (r_config r) <> VPath "data/gis").
Proof.
  split; [|split; [|split]].
  - eexists. eexists. vm_compute. reflexivity.
  - eexists. eexists. vm_compute. reflexivity.
  - eexists. eexists. vm_compute. reflexivity.
  - do 3 eexists. split; [vm_compute; reflexivity|].
    split; [reflexivity|]. split; [reflexivity|discriminate].
Qed.

(** C6, amended: a resource without a parent row, which is also how
    [init_parent] leaves a resource whose parent it does not find, has
    its own path component for path; a resource with a parent row has
    the path of the parent, a slash and its own component, and null when
    the path of the parent or its own component is null.  On the chain
    of the test the folder has path X:/GIS/asdf, and X:/GIS/qwer once
    its component is set to qwer, with the paths of the drive and of the
    directory as they were. *)
Theorem Resource_path_composition :
  (forall fuel r s,
     row_given (r_parent_row r) = None ->
     Resource_path (S fuel) r s = (Ok (dget "Path" (r_config r)), s)) /\
  (forall r s,
     py_truthy (dget "Parent" (r_config r)) = true ->
     get_row (st_db s) "Resources" "ResourceID" (dget "Parent" (r_config r)) = Ok None ->
     get_row_insensitive (st_db s) "Resources" "Name" (dget "Parent" (r_config r)) = Ok None ->
     exists s', init_parent r s = (Ok (mkResource (r_config r) None (r_shed r)), s')) /\
  (forall fuel r parent_row s parent s1 parent_path s2,
     row_given (r_parent_row r) = Some parent_row ->
     get_parent r parent_row s = (Ok parent, s1) ->
     Resource_path fuel parent s1 = (Ok parent_path, s2) ->
     (is_none parent_path || is_none (dget "Path" (r_config r)) = true ->
      Resource_path (S fuel) r s = (Ok VNone, s2)) /\
     (is_none parent_path || is_none (dget "Path" (r_config r)) = false ->
      forall again s3,
        Resource_path fuel parent s2 = (Ok (VStr again), s3) ->
        Resource_path (S fuel) r s
        = (Ok (VStr ((again +:+ "/") +:+ py_str (dget "Path" (r_config r)))), s3))) /\
  fst (chain_session (store_state chain_store))
  = Ok ([VStr "X:/GIS/asdf"; VStr "X:"; VStr "X:/GIS"],
        [VStr "X:/GIS/qwer"; VStr "X:"; VStr "X:/GIS"]) /\
  fst (chain_session_uncached (store_state chain_store))
  = Ok (VStr "X:/GIS/asdf", VStr "X:/GIS/qwer").
Proof.
  split; [exact Resource_path_no_parent|].
  split.
  { intros r s H1 H2 H3. eexists. apply init_parent_unresolved; assumption. }
  split; [exact Resource_path_parent|].
  split; vm_compute; reflexivity.
Qed.

(** C6 as stated fails: a resource whose parent names nothing in the
    store has its own component for path, not null. *)
Lemma Resource_path_unresolved_parent_not_null :
  exists r s1 s2,
    Resource_new None (VStr "r1") false (store_state orphan_store) = (Ok r, s1) /\
    dget "Parent" (r_config r) = VStr "gone" /\
    r_parent_row r = None /\
    Resource_path 5 r s1 = (Ok (VStr "asdf"), s2).
Proof.
  do 3 eexists. split; [vm_compute; reflexivity|].
  split; [reflexivity|]. split; [reflexivity|]. vm_compute. reflexivity.
Qed.

(** ** The output mapping *)

Lemma existsb_combine_keys {V} k names (vs : list V) :
  existsb (py_eqb k) names = false ->
  existsb (py_eqb k) (map fst (combine names vs)) = false.
Proof.
  revert vs. induction names as [|n names IH]; intros [|v vs]; simpl; try reflexivity.
  rewrite !orb_false_iff. intros [Hn Hrest]. split; [exact Hn|apply IH; exact Hrest].
Qed.

Lemma distinct_combine_keys {V} names (vs : list V) :
  distinct_keys names -> distinct_keys (map fst (combine names vs)).
Proof.
  revert vs. induction names as [|n names IH]; intros [|v vs]; simpl; try (intros; exact I).
  intros [Hn Hrest]. split; [apply existsb_combine_keys; exact Hn|apply IH; exact Hrest].
Qed.

Lemma zip_outputs_combine names returned :
  distinct_keys names ->
  zip_outputs names returned = combine names (as_tuple returned).
Proof.
  intros Hd. unfold zip_outputs. apply vdict_of_list_distinct.
  apply distinct_combine_keys. exact Hd.
Qed.

Lemma vdict_get_combine names (vs : list value) i name :
  distinct_keys names ->
  names !! i = Some name ->
  vdict_get name (combine names vs) = vs !! i.
Proof.
  revert vs i. induction names as [|n names IH]; intros vs i Hd Hi; [discriminate|].
  destruct Hd as [Hn Hd]. destruct i as [|i]; simpl in Hi.
  - inversion Hi; subst. destruct vs as [|v vs]; simpl; [reflexivity|].
    rewrite py_eqb_refl. reflexivity.
  - destruct vs as [|v vs]; simpl.
    + destruct (names !! i); reflexivity.
    + assert (Hne : py_eqb n name = false).
      { destruct (py_eqb n name) eqn:E; [|reflexivity].
        rewrite <- Hn. symmetry. apply existsb_exists. exists name. split; [|exact E].
        apply list_elem_of_In. eapply list_elem_of_lookup_2. exact Hi. }
      rewrite Hne. apply IH; assumption.
Qed.

Lemma vdict_get_combine_absent names (vs : list value) k :
  existsb (py_eqb k) names = false -> vdict_get k (combine names vs) = None.
Proof.
  revert vs. induction names as [|n names IH]; intros [|v vs]; simpl; try reflexivity.
  rewrite orb_false_iff. intros [Hn Hrest]. rewrite py_eqb_sym, Hn. apply IH. exact Hrest.
Qed.

Section RunFacts.
Variable env : host.

Lemma start_activity_inv self activity_id s self1 s1 :
  start_activity env self activity_id s = (Ok self1, s1) ->
  self1 = mkTool (tool_config self) (params self) (predecessors self) (outputs self)
                 (Some (clock env (st_ticks s))) (tool_shed self).
Proof.
  unfold start_activity. intros H.
  apply bind_inv in H as [now [s0 [Hnow H]]].
  unfold get_now in Hnow. inversion Hnow; subst.
  apply bind_inv in H as [[] [s2 [_ H]]].
  inversion H. reflexivity.
Qed.

Lemma run_target_returns fuel self activity_id func kwargs s self1 s1 v s2 ps s3 :
  start_activity env self activity_id s = (Ok self1, s1) ->
  invoke func (tool_path self1) kwargs s1 = (Ok (Returns v), s2) ->
  record_success env fuel self1 activity_id kwargs (zip_outputs (outputs self) v) s2
    = (Ok ps, s3) ->
  run_target env fuel self activity_id func kwargs s
  = (Ok (mkTool (tool_config self1) ps (predecessors self1) (outputs self1)
                (start_time self1) (tool_shed self1),
         Some (zip_outputs (outputs self) v)), s3).
Proof.
  intros Hstart Hinvoke Hrecord.
  assert (Hout : outputs self1 = outputs self).
  { rewrite (start_activity_inv _ _ _ _ _ Hstart). reflexivity. }
  unfold run_target.
  rewrite (bind_ok _ _ _ _ _ Hstart), (bind_ok _ _ _ _ _ Hinvoke).
  cbv zeta. rewrite Hout. rewrite (bind_ok _ _ _ _ _ Hrecord). reflexivity.
Qed.
End RunFacts.

(** ** The end of an activity *)

Lemma has_quote_replace_quotes s : has_quote (replace_quotes s) = false.
Proof.
  induction s as [|c s IH]; simpl; [reflexivity|].
  rewrite IH, orb_false_r. destruct (Ascii.eqb c "'") eqn:E; [reflexivity|exact E].
Qed.

Lemma replace_quotes_get s i :
  String.get i (replace_quotes s) = option_map requote (String.get i s).
Proof.
  revert i. induction s as [|c s IH]; intros i; simpl; [reflexivity|].
  destruct i as [|i]; [reflexivity|]. apply IH.
Qed.

Lemma has_quote_append a b : has_quote (a +:+ b) = has_quote a || has_quote b.
Proof.
  induction a as [|c a IH]; simpl; [reflexivity|]. rewrite IH, orb_assoc. reflexivity.
Qed.

Lemma has_quote_uuid n : has_quote (uuid_str n) = false.
Proof.
  unfold uuid_str. rewrite has_quote_append.
  replace (has_quote "uuid-") with false by reflexivity. simpl.
  induction (Pos.of_succ_nat n) as [p IH|p IH|]; simpl; auto.
Qed.

Lemma update_pairs_end env started ended succeeded message :
  time_strings_plain env ->
  update_pairs [("EndTime", VStr (strftime env ended));
                ("Duration", VStr (timedelta_str env (ended - started)));
                ("Succeeded", VBool succeeded);
                ("Message", match message with
                            | Some m => VStr (replace_quotes m)
                            | None => VNone
                            end)]
  = Some (end_pairs env started ended succeeded message).
Proof.
  intros [Ht Hd]. unfold end_pairs.
  destruct message as [m|]; simpl;
    rewrite ?has_quote_replace_quotes, Ht, Hd; reflexivity.
Qed.

Lemma db_update_ok db table_name t query_col query_val lit vals p pairs :
  db !! table_name = Some t ->
  update_pairs vals = Some (p :: pairs) ->
  quoted_literal query_val = Some lit ->
  mem_string query_col (t_columns t) = true ->
  forallb (fun kv => mem_string (fst kv) (t_columns t)) (p :: pairs) = true ->
  db_update db table_name query_col query_val vals
  = Ok (<[table_name := mkTable (t_columns t)
                          (updated_rows query_col lit (p :: pairs) (t_rows t))]> db).
Proof.
  intros Ht Hp Hl Hq Hcols. unfold db_update. rewrite Ht, Hp, Hl, Hq, Hcols. reflexivity.
Qed.

Lemma dget_apply_pairs_other pairs r k :
  existsb (String.eqb k) (map fst pairs) = false ->
  dget k (apply_pairs pairs r) = dget k r.
Proof.
  unfold apply_pairs. revert r. induction pairs as [|[k0 v0] rest IH]; intros r; simpl.
  - reflexivity.
  - rewrite orb_false_iff. intros [Hk Hrest]. rewrite IH by exact Hrest.
    apply dget_set_ne. intros ->. rewrite String.eqb_refl in Hk. discriminate.
Qed.

Lemma filter_ext_map {A} (f : A -> bool) (g : A -> A) l :
  (forall x, f (g x) = f x) ->
  List.filter f (map g l) = map g (List.filter f l).
Proof.
  intros H. rewrite filter_map_comm. f_equal. apply filter_ext. exact H.
Qed.

Section Failure.
Variable env : host.

Lemma invoke_frame func path kwargs s out s1 :
  invoke func path kwargs s = (Ok out, s1) ->
  st_db s1 = st_db s /\ st_ticks s1 = st_ticks s /\ st_log s1 = st_log s /\
  st_uuids s1 = st_uuids s /\ st_heap s1 = st_heap s /\ st_shed s1 = st_shed s.
Proof.
  unfold invoke. destruct (forallb _ _); intros H; inversion H; subst; simpl; auto 10.
Qed.

Lemma start_activity_state self activity_id s self1 s1 :
  start_activity env self activity_id s = (Ok self1, s1) ->
  exists db1,
    set_row (schema_template env "Activity") (st_db s) "Activity"
            [("ActivityID", activity_id);
             ("ToolID", tool_id self);
             ("ToolName", tool_name self);
             ("ToolPath", tool_path self);
             ("StartTime", VStr (strftime env (clock env (st_ticks s))))]
            "ActivityID" = Ok db1 /\
    s1 = mkState db1 (st_heap s) (st_shed s) (st_log s) (st_calls s) (st_uuids s)
                 (S (st_ticks s)).
Proof.
  unfold start_activity. intros H.
  apply bind_inv in H as [now [s0 [Hnow H]]].
  unfold get_now in Hnow. inversion Hnow; subst. clear Hnow.
  apply bind_inv in H as [[] [s2 [Hset H]]].
  inversion H; subst. clear H.
  unfold m_set_row in Hset. simpl in Hset.
  destruct (set_row _ _ _ _ _) as [db1|e'] eqn:E; inversion Hset; subst.
  exists db1. split; reflexivity.
Qed.

Lemma start_activity_tool self activity_id s self1 s1 :
  start_activity env self activity_id s = (Ok self1, s1) ->
  self1 = mkTool (tool_config self) (params self) (predecessors self) (outputs self)
                 (Some (clock env (st_ticks s))) (tool_shed self).
Proof.
  unfold start_activity. intros H.
  apply bind_inv in H as [now [s0 [Hnow H]]].
  unfold get_now in Hnow. inversion Hnow; subst. clear Hnow.
  apply bind_inv in H as [[] [s2 [Hset H]]].
  inversion H; subst. reflexivity.
Qed.

(** The statement of [end_activity] on the table [start_activity] left. *)
Lemma end_activity_on_started self a started succeeded message s db0 :
  time_strings_plain env ->
  activity_template env ->
  has_quote a = false ->
  start_time self = Some started ->
  set_row (schema_template env "Activity") db0 "Activity"
          [("ActivityID", VStr a);
           ("ToolID", tool_id self);
           ("ToolName", tool_name self);
           ("ToolPath", tool_path self);
           ("StartTime", VStr (strftime env started))]
          "ActivityID" = Ok (st_db s) ->
  exists t r,
    st_db s !! "Activity" = Some t /\
    end_activity env self (VStr a) succeeded
                 (match message with Some m => VStr m | None => VNone end) s
    = (Ok tt,
       mkState (<["Activity" :=
                    mkTable (t_columns t)
                      (updated_rows "ActivityID" (VStr a)
                         (end_pairs env started (clock env (st_ticks s)) succeeded message)
                         (t_rows t))]> (st_db s))
               (st_heap s) (st_shed s) (st_log s) (st_calls s) (st_uuids s)
               (S (st_ticks s))) /\
    List.filter (fun x => cell_eq (dget "ActivityID" x) (VStr a)) (t_rows t) = [r] /\
    List.filter (fun x => cell_eq (dget "ActivityID" x) (VStr a))
                (updated_rows "ActivityID" (VStr a)
                   (end_pairs env started (clock env (st_ticks s)) succeeded message)
                   (t_rows t))
    = [apply_pairs (end_pairs env started (clock env (st_ticks s)) succeeded message) r].
Proof.
  intros Hplain [columns [Htemplate Hcolumns]] Hquote Hstarted Hset.
  destruct (set_row_written _ _ _ _ _ (VStr a) _ Hset) as [t [Hdb [Hcols Hrows]]];
    [reflexivity|reflexivity|].
  assert (Ht : st_db s !! "Activity" = Some t).
  { rewrite Hdb. apply lookup_insert_eq. }
  assert (Hin : forall k, In k ("ActivityID" :: columns) -> mem_string k (t_columns t) = true).
  { intros k Hk. apply mem_string_In. apply Hcols. rewrite Htemplate.
    destruct Hk as [<-|Hk].
    - apply In_row_columns_key. left. reflexivity.
    - apply In_row_columns_template. exact Hk. }
  assert (Hall : forall k, In k ["EndTime"; "Duration"; "Succeeded"; "Message"] ->
                           mem_string k (t_columns t) = true).
  { intros k Hk. apply Hin. right. apply mem_string_In.
    rewrite forallb_forall in Hcolumns. apply Hcolumns. exact Hk. }
  set (pairs := end_pairs env started (clock env (st_ticks s)) succeeded message).
  exists t, (pad (t_columns t) [("ActivityID", VStr a);
                                ("ToolID", tool_id self);
                                ("ToolName", tool_name self);
                                ("ToolPath", tool_path self);
                                ("StartTime", VStr (strftime env started))]).
  split; [exact Ht|]. split.
  - unfold end_activity.
    assert (Hclean : clean_message (match message with Some m => VStr m | None => VNone end)
                     = ret (match message with
                            | Some m => VStr (replace_quotes m)
                            | None => VNone
                            end)).
    { destruct message; reflexivity. }
    rewrite Hclean. unfold bind at 1. unfold ret at 1.
    unfold bind at 1. unfold get_now at 1. rewrite Hstarted.
    unfold m_update. simpl st_db.
    erewrite db_update_ok.
    + reflexivity.
    + exact Ht.
    + apply update_pairs_end. exact Hplain.
    + simpl. rewrite Hquote. reflexivity.
    + apply Hin. left. reflexivity.
    + unfold end_pairs. destruct message; simpl;
        rewrite !Hall by (simpl; auto); reflexivity.
  - split; [exact Hrows|].
    unfold updated_rows. rewrite filter_ext_map.
    + rewrite Hrows. simpl.
      assert (Hid : dget "ActivityID"
                      (pad (t_columns t)
                         [("ActivityID", VStr a); ("ToolID", tool_id self);
                          ("ToolName", tool_name self); ("ToolPath", tool_path self);
                          ("StartTime", VStr (strftime env started))]) = VStr a).
      { rewrite dget_pad; [reflexivity|]. apply mem_string_In. apply Hin.
        left. reflexivity. }
      rewrite Hid. unfold sql_eqb. simpl. rewrite String.eqb_refl. reflexivity.
    + intros x. destruct (sql_eqb (dget "ActivityID" x) (VStr a)); [|reflexivity].
      rewrite dget_apply_pairs_other; [reflexivity|].
      unfold pairs, end_pairs. destruct message; reflexivity.
Qed.
End Failure.

(** ** A run whose target raises *)

Lemma dget_end_pairs env started ended succeeded m r :
  let r' := apply_pairs (end_pairs env started ended succeeded (Some m)) r in
  dget "EndTime" r' = VStr (strftime env ended) /\
  dget "Duration" r' = VStr (timedelta_str env (ended - started)) /\
  dget "Succeeded" r' = VInt (Z.b2z succeeded) /\
  dget "Message" r' = VStr (replace_quotes m).
Proof.
  unfold apply_pairs, end_pairs. simpl.
  repeat split;
    repeat first [ apply dget_set_eq | rewrite dget_set_ne by discriminate ].
Qed.

Section Throws.
Variable env : host.

Lemma Tool_commit_inv t s t' s' :
  Tool_commit env t s = (Ok t', s') ->
  outputs t' = outputs t /\ predecessors t' = predecessors t /\
  tool_shed t' = tool_shed t /\
  (forall k, k <> "ToolID" -> dget k (tool_config t') = dget k (tool_config t)).
Proof.
  unfold Tool_commit. intros H.
  apply bind_inv in H as [cfg [s1 [Hcfg H]]].
  apply bind_inv in H as [[] [s2 [_ H]]].
  apply bind_inv in H as [ps [s3 [_ H]]].
  apply bind_inv in H as [pred_rows [s4 [_ H]]].
  apply bind_inv in H as [db_preds [s5 [_ H]]].
  apply bind_inv in H as [[] [s6 [_ H]]].
  apply bind_inv in H as [output_rows [s7 [_ H]]].
  apply bind_inv in H as [[] [s8 [_ H]]].
  inversion H; subst; simpl. repeat split.
  intros k Hk.
  destruct (negb (py_truthy (tool_id t))).
  - apply bind_inv in Hcfg as [id [s0 [_ Hcfg]]]. inversion Hcfg; subst.
    apply dget_set_ne. exact Hk.
  - inversion Hcfg; subst. reflexivity.
Qed.

(** What [run] has in hand at the call is the tool with its outputs,
    name and path, and an identifier issued by [uuid1]. *)
Lemma prepare_inv run_rec fuel self kwargs s self' activity_id func kw s0 :
  prepare env run_rec fuel self kwargs s = (Ok (Some (self', activity_id, func, kw)), s0) ->
  (exists n, activity_id = VStr (uuid_str n)) /\
  outputs self' = outputs self /\
  tool_name self' = tool_name self /\
  tool_path self' = tool_path self.
Proof.
  unfold prepare. intros H.
  apply bind_inv in H as [[] [s1 [_ H]]].
  apply bind_inv in H as [preds [s2 [_ H]]].
  destruct preds as [[pred_outputs default_pred_name]|]; [|inversion H].
  apply bind_inv in H as [committed [s3 [Hcommit H]]].
  apply bind_inv in H as [aid [s4 [Hid H]]].
  apply bind_inv in H as [updated [s5 [_ H]]].
  apply bind_inv in H as [f [s6 [_ H]]].
  inversion H; subst; clear H.
  unfold uuid1 in Hid. inversion Hid; subst; clear Hid.
  split; [eexists; reflexivity|].
  unfold tool_name, tool_path. simpl.
  destruct (negb (py_truthy (tool_id self))).
  - apply Tool_commit_inv in Hcommit as [Ho [_ [_ Hc]]].
    rewrite Ho, !Hc by discriminate. auto.
  - inversion Hcommit; subst. auto.
Qed.

(** The run from the activity start on, when the activity was
    started and the target raises. *)
Lemma run_target_throws fuel self a func kw s self1 s1 e :
  time_strings_plain env ->
  activity_template env ->
  has_quote a = false ->
  start_activity env self (VStr a) s = (Ok self1, s1) ->
  forallb (fun kv => is_str (fst kv)) kw = true ->
  func kw = Throws e ->
  exists s3,
    run_target env fuel self (VStr a) func kw s = (Ok (self1, None), s3) /\
    failure_recorded env (VStr a) e (clock env (st_ticks s))
                     (clock env (S (st_ticks s))) (st_db s3) /\
    (forall t, t <> "Activity" -> st_db s3 !! t = st_db s !! t) /\
    st_calls s3 = (st_calls s ++ [(py_str (tool_path self), kw)])%list /\
    st_log s3 = (st_log s ++ [(ERROR, "Tool " +:+ py_str (tool_name self)
                                        +:+ " failed. " +:+ e)])%list.
Proof.
  intros Hplain Htemplate Hquote Hstart Hkeys Hthrows.
  pose proof (start_activity_tool env _ _ _ _ _ Hstart) as Hself1.
  destruct (start_activity_state env _ _ _ _ _ Hstart) as [db1 [Hset Hs1]].
  remember (add_log ERROR ("Tool " +:+ py_str (tool_name self) +:+ " failed. " +:+ e)
                    (add_call (py_str (tool_path self)) kw s1)) as s2 eqn:Hs2.
  assert (Hticks : st_ticks s2 = S (st_ticks s)) by (rewrite Hs2, Hs1; reflexivity).
  assert (Hdb2 : st_db s2 = db1) by (rewrite Hs2, Hs1; reflexivity).
  assert (Hcalls2 : st_calls s2 = (st_calls s ++ [(py_str (tool_path self), kw)])%list)
    by (rewrite Hs2, Hs1; reflexivity).
  assert (Hlog2 : st_log s2 = (st_log s ++ [(ERROR, "Tool " +:+ py_str (tool_name self)
                                                    +:+ " failed. " +:+ e)])%list)
    by (rewrite Hs2, Hs1; reflexivity).
  destruct (end_activity_on_started env self1 a (clock env (st_ticks s)) false (Some e) s2
              (st_db s) Hplain Htemplate Hquote)
    as [t [r [Ht [Hend [Hrows Hupdated]]]]].
  { rewrite Hself1. reflexivity. }
  { rewrite Hdb2, Hself1. exact Hset. }
  rewrite Hticks in Hend, Hupdated.
  eexists. split; [|split; [|split; [|split]]].
  - unfold run_target. rewrite (bind_ok _ _ _ _ _ Hstart).
    unfold invoke. rewrite Hkeys. unfold bind at 1. rewrite Hthrows.
    unfold record_failure. unfold bind at 1. unfold bind at 1. unfold log at 1.
    replace (tool_name self1) with (tool_name self) by (rewrite Hself1; reflexivity).
    replace (tool_path self1) with (tool_path self) by (rewrite Hself1; reflexivity).
    rewrite <- Hs2. rewrite Hend. reflexivity.
  - unfold failure_recorded. cbn [st_db].
    exists (apply_pairs (end_pairs env (clock env (st_ticks s)) (clock env (S (st_ticks s)))
                                   false (Some e)) r).
    split.
    + unfold rows_with_id, rows_of. rewrite lookup_insert_eq. cbn [t_rows]. exact Hupdated.
    + apply dget_end_pairs.
  - intros t' Hne. cbn [st_db]. rewrite lookup_insert_ne by congruence. rewrite Hdb2.
    eapply set_row_other; [exact Hset|exact Hne].
  - cbn [st_calls]. exact Hcalls2.
  - cbn [st_log]. exact Hlog2.
Qed.

(** [end_activity] with no message leaves the messages of the table
    as they are. *)
Lemma end_activity_null_message self activity_id succeeded s s' :
  end_activity env self activity_id succeeded VNone s = (Ok tt, s') ->
  map (dget "Message") (rows_of (st_db s') "Activity")
  = map (dget "Message") (rows_of (st_db s) "Activity").
Proof.
  unfold end_activity. intros H.
  apply bind_inv in H as [message [s1 [Hclean H]]].
  inversion Hclean; subst. clear Hclean.
  apply bind_inv in H as [end_time [s2 [Hnow H]]].
  unfold get_now in Hnow. inversion Hnow; subst. clear Hnow.
  destruct (start_time self) as [started|]; [|discriminate].
  unfold m_update in H. simpl st_db in H.
  destruct (db_update _ _ _ _ _) as [db'|e] eqn:Hup; [|discriminate].
  inversion H; subst. clear H. simpl.
  unfold db_update in Hup.
  destruct (st_db s1 !! "Activity") as [t|] eqn:Ht; [|discriminate].
  destruct (update_pairs _) as [pairs|] eqn:Hpairs; [|discriminate].
  destruct pairs as [|p pairs]; [discriminate|].
  destruct (quoted_literal activity_id) as [lit|]; [|discriminate].
  destruct (_ && _); [|discriminate].
  inversion Hup; subst. clear Hup.
  assert (Hkeys : existsb (String.eqb "Message") (map fst (p :: pairs)) = false).
  { simpl in Hpairs.
    destruct (has_quote (timedelta_str env _)); [discriminate|].
    destruct (has_quote (strftime env _)); [discriminate|].
    inversion Hpairs. reflexivity. }
  unfold rows_of. rewrite lookup_insert_eq, Ht. cbn [t_rows].
  rewrite map_map. apply map_ext. intros r.
  destruct (sql_eqb _ _); [|reflexivity].
  exact (dget_apply_pairs_other (p :: pairs) r "Message" Hkeys).
Qed.
End Throws.

(** ** Predecessors *)



(** ** Inputs *)

Lemma or_else_inv a (m : M value) s chosen s' :
  or_else a m s = (Ok chosen, s') ->
  (py_truthy a = true /\ chosen = a /\ s' = s) \/
  (py_truthy a = false /\ m s = (Ok chosen, s')).
Proof.
  unfold or_else. destruct (py_truthy a).
  - intros H. inversion H. left. auto.
  - intros H. right. auto.
Qed.

Lemma value_get_literal fuel p s :
  py_truthy (dget "IsResource" (p_config p)) = false ->
  value_get fuel p s = (Ok (dget "Value" (p_config p)), s).
Proof.
  intros H. unfold value_get, get_resource. rewrite H. reflexivity.
Qed.

Section Inputs.
Variable env : host.

Lemma update_input_no_feeder fuel self activity_id pred_outputs default_pred_name
      name param kwargs s own s1 chosen s2 param' s3 :
  py_truthy (is_input param) = true ->
  py_truthy (py_or (feeder_tool_name param) default_pred_name)
    && py_truthy (feeder_param_name param) = false ->
  value_get fuel param s = (Ok own, s1) ->
  or_else (match vdict_get name kwargs with Some v => v | None => own end)
          (value_get fuel param) s1 = (Ok chosen, s2) ->
  record_io env param activity_id (fold_bool chosen) (tool_id self) s2 = (Ok param', s3) ->
  update_input env fuel self activity_id pred_outputs default_pred_name name param kwargs s
  = (Ok (param', vdict_set name (fold_bool chosen) kwargs), s3).
Proof.
  intros Hinput Hfeeder Hown Hchosen Hrecord. unfold update_input.
  rewrite Hinput. cbn [negb]. cbv zeta. rewrite Hfeeder.
  unfold bind at 1. unfold ret at 1.
  rewrite (bind_ok _ _ _ _ _ Hown), (bind_ok _ _ _ _ _ Hchosen),
          (bind_ok _ _ _ _ _ Hrecord).
  reflexivity.
Qed.

(** What a turn of the loop does to the keyword arguments: nothing,
    or one assignment under the name of the parameter. *)
Lemma update_input_kwargs fuel self activity_id pred_outputs default_pred_name
      name param kwargs s param' kwargs' s' :
  update_input env fuel self activity_id pred_outputs default_pred_name name param kwargs s
  = (Ok (param', kwargs'), s') ->
  kwargs' = kwargs \/ exists v, kwargs' = vdict_set name v kwargs.
Proof.
  unfold update_input. destruct (negb (py_truthy (is_input param))).
  - intros H. inversion H. left. reflexivity.
  - intros H. cbv zeta in H.
    apply bind_inv in H as [p1 [s1 [_ H]]].
    apply bind_inv in H as [own [s2 [_ H]]].
    apply bind_inv in H as [val [s3 [_ H]]].
    apply bind_inv in H as [p2 [s4 [_ H]]].
    inversion H. right. eexists. reflexivity.
Qed.

Lemma update_inputs_other_key fuel self activity_id pred_outputs default_pred_name
      ps name :
  existsb (py_eqb name) (map fst ps) = false ->
  forall kwargs s ps' kwargs' s',
    update_inputs env fuel self activity_id pred_outputs default_pred_name ps kwargs s
    = (Ok (ps', kwargs'), s') ->
    vdict_get name kwargs' = vdict_get name kwargs.
Proof.
  induction ps as [|[n p] rest IH]; intros Hkeys kwargs s ps' kwargs' s' H.
  - simpl in H. inversion H. reflexivity.
  - simpl in Hkeys. apply orb_false_iff in Hkeys as [Hn Hrest].
    simpl in H.
    apply bind_inv in H as [[p1 kw1] [s1 [Hturn H]]].
    apply bind_inv in H as [[ps2 kw2] [s2 [Hloop H]]].
    inversion H; subst. clear H. simpl in Hloop.
    rewrite (IH Hrest _ _ _ _ _ Hloop).
    apply update_input_kwargs in Hturn as [-> | [v ->]]; [reflexivity|].
    apply vdict_get_set_ne. rewrite py_eqb_sym. exact Hn.
Qed.

(** A turn followed by the rest of the loop: the assignment of the
    turn is the one the loop leaves under the name. *)
Lemma update_inputs_turn fuel self activity_id pred_outputs default_pred_name
      name param rest kwargs s param' kwargs1 s1 ps' kwargs' s' :
  existsb (py_eqb name) (map fst rest) = false ->
  update_input env fuel self activity_id pred_outputs default_pred_name name param kwargs s
  = (Ok (param', kwargs1), s1) ->
  update_inputs env fuel self activity_id pred_outputs default_pred_name rest kwargs1 s1
  = (Ok (ps', kwargs'), s') ->
  update_inputs env fuel self activity_id pred_outputs default_pred_name
                ((name, param) :: rest) kwargs s
  = (Ok ((name, param') :: ps', kwargs'), s') /\
  vdict_get name kwargs' = vdict_get name kwargs1.
Proof.
  intros Hkeys Hturn Hloop. split.
  - simpl. rewrite (bind_ok _ _ _ _ _ Hturn). simpl.
    rewrite (bind_ok _ _ _ _ _ Hloop). reflexivity.
  - eapply update_inputs_other_key; eassumption.
Qed.

(** The turns before a parameter leave what the caller supplied
    under its name. *)
Lemma update_inputs_app fuel self activity_id pred_outputs default_pred_name
      (before : vdict ToolParam) :
  forall (rest : vdict ToolParam) kwargs s ps' kwargs' s',
    update_inputs env fuel self activity_id pred_outputs default_pred_name
                  (before ++ rest)%list kwargs s = (Ok (ps', kwargs'), s') ->
    exists before' kwargs0 s0 rest',
      update_inputs env fuel self activity_id pred_outputs default_pred_name
                    before kwargs s = (Ok (before', kwargs0), s0) /\
      update_inputs env fuel self activity_id pred_outputs default_pred_name
                    rest kwargs0 s0 = (Ok (rest', kwargs'), s') /\
      ps' = (before' ++ rest')%list.
Proof.
  induction before as [|[n p] before IH]; intros rest kwargs s ps' kwargs' s' H.
  - exists [], kwargs, s, ps'. simpl. split; [reflexivity|]. split; [exact H|reflexivity].
  - simpl in H.
    apply bind_inv in H as [[p1 kw1] [s1 [Hturn H]]].
    apply bind_inv in H as [[ps2 kw2] [s2 [Hloop H]]].
    inversion H; subst. clear H. simpl in Hloop.
    destruct (IH _ _ _ _ _ _ Hloop) as [before' [kwargs0 [s0 [rest' [Hb [Hr ->]]]]]].
    exists ((n, p1) :: before'), kwargs0, s0, rest'.
    split; [|split; [exact Hr|reflexivity]].
    simpl. rewrite (bind_ok _ _ _ _ _ Hturn). simpl.
    rewrite (bind_ok _ _ _ _ _ Hb). reflexivity.
Qed.

(** [record_io] leaves a row of the activity, the parameter and the
    value in the table of inputs and outputs. *)
Lemma record_io_row param activity_id val tool_id s param' s' :
  record_io env param activity_id val tool_id s = (Ok param', s') ->
  exists r,
    In r (rows_of (st_db s') "ActivityIO") /\
    dget "ActivityID" r = activity_id /\
    dget "ParamName" r = p_name param /\
    dget "Value" r = val.
Proof.
  unfold record_io. intros H. cbv zeta in H.
  apply bind_inv in H as [[] [s1 [_ H]]].
  apply bind_inv in H as [p1 [s2 [Hcommit H]]].
  apply bind_inv in H as [ioid [s3 [Hid H]]].
  apply bind_inv in H as [[] [s4 [Hset H]]].
  inversion H; subst. clear H.
  unfold uuid1 in Hid. inversion Hid; subst. clear Hid.
  unfold m_set_row in Hset.
  destruct (set_row _ _ _ _ _) as [db'|e] eqn:E; [|discriminate].
  inversion Hset; subst. clear Hset. simpl st_db.
  destruct (set_row_written _ _ _ _ _ (VStr (uuid_str (st_uuids s2))) _ E)
    as [t [-> [Hcols Hrows]]]; [reflexivity|reflexivity|].
  exists (pad (t_columns t)
              [("IOID", VStr (uuid_str (st_uuids s2)));
               ("ActivityID", activity_id);
               ("ParamID", param_id param');
               ("ParamName", p_name param');
               ("Value", val);
               ("IsResource", match dict_get "IsResource" (p_config param') with
                              | Some v => v
                              | None => VBool false
                              end);
               ("IsInput", is_input param');
               ("IsRead", is_read param');
               ("IsWrite", is_write param')]).
  assert (Hname : p_name param' = p_name param).
  { destruct (negb (py_truthy (param_id param))).
    - unfold ToolParam_commit in Hcommit.
      apply bind_inv in Hcommit as [cfg [s5 [_ Hcommit]]].
      apply bind_inv in Hcommit as [[] [s6 [_ Hcommit]]].
      inversion Hcommit. reflexivity.
    - inversion Hcommit. reflexivity. }
  split.
  - unfold rows_of. rewrite lookup_insert_eq.
    assert (Hin : In (pad (t_columns t)
              [("IOID", VStr (uuid_str (st_uuids s2)));
               ("ActivityID", activity_id);
               ("ParamID", param_id param');
               ("ParamName", p_name param');
               ("Value", val);
               ("IsResource", match dict_get "IsResource" (p_config param') with
                              | Some v => v
                              | None => VBool false
                              end);
               ("IsInput", is_input param');
               ("IsRead", is_read param');
               ("IsWrite", is_write param')])
              (List.filter (fun x => cell_eq (dget "IOID" x)
                                       (VStr (uuid_str (st_uuids s2)))) (t_rows t))).
    { rewrite Hrows. left. reflexivity. }
    apply filter_In in Hin. apply Hin.
  - rewrite <- Hname.
    repeat split; (rewrite dget_pad; [reflexivity|]);
      apply Hcols; apply In_row_columns_key; simpl; auto 10.
Qed.
End Inputs.

(** * The claims *)



(** C7, amended: a lookup by a key that is a column of the table raises
    when more than one row matches the pair of key and value, returns
    the row when one row matches, and returns [None] when none does:
    the case-sensitive lookup for a value that is not a string holding
    a single quote, the lookup that ignores case over a column that is
    not numeric. *)
Theorem row_lookup_by_match_count db table_name key v :
  has_column db table_name key ->
  (plain_literal v ->
   answers (List.filter (matches_exact key v) (rows_of db table_name))
           (get_row db table_name key v)) /\
  (text_column db table_name key ->
   answers (List.filter (matches_insensitive key v) (rows_of db table_name))
           (get_row_insensitive db table_name key v)).
Proof.
  intros Hcol. split.
  - intros Hplain. apply get_row_answers; assumption.
  - intros Htext. apply get_row_insensitive_answers; assumption.
Qed.

Lemma row_lookup_by_match_count_witness :
  (exists msg, get_row fruit_store "Fruit" "Name" (VStr "cherry") = Raise (ClothoError msg)) /\
  (exists msg, get_row_insensitive fruit_store "Fruit" "Name" (VStr "Cherry")
               = Raise (ClothoError msg)).
Proof.
  assert (Hcol : has_column fruit_store "Fruit" "Name").
  { intros t Ht. unfold fruit_store in Ht. rewrite lookup_insert_eq in Ht.
    inversion Ht. reflexivity. }
  assert (Htext : text_column fruit_store "Fruit" "Name").
  { intros t Ht. unfold fruit_store in Ht. rewrite lookup_insert_eq in Ht.
    inversion Ht. reflexivity. }
  destruct (row_lookup_by_match_count fruit_store "Fruit" "Name" (VStr "cherry") Hcol)
    as [Hexact _].
  destruct (row_lookup_by_match_count fruit_store "Fruit" "Name" (VStr "Cherry") Hcol)
    as [_ Hcase].
  split; [exact (Hexact eq_refl)|exact (Hcase Htext)].
Defined.

(** C7 as stated fails.  The case-sensitive lookup of a name with a
    single quote, which is written into the query as it is, returns
    [None] although one row has the name.  The lookup that ignores case
    of the number 0 in a column of numbers raises [AttributeError],
    which is neither the row that has the number, nor [None], nor the
    error for several rows. *)
Lemma row_lookup_not_by_match_count :
  (List.filter (matches_exact "Name" (VStr "O'Brien")) (rows_of people_store "People")
   = [[("PersonID", VInt 1); ("Name", VStr "O'Brien")]] /\
   get_row people_store "People" "Name" (VStr "O'Brien") = Ok None) /\
  (List.filter (fun r => py_eqb (dget "FruitID" r) (VInt 0)) (rows_of fruit_store "Fruit")
   = [[("FruitID", VInt 0); ("Name", VStr "apple"); ("Color", VStr "green")]] /\
   exists msg,
     get_row_insensitive fruit_store "Fruit" "FruitID" (VInt 0)
     = Raise (AttributeError msg)).
Proof.
  split; split.
  - vm_compute. reflexivity.
  - vm_compute. reflexivity.
  - vm_compute. reflexivity.
  - eexists. vm_compute. reflexivity.
Qed.



Section RunClaims.
Variable env : host.

(** [run] on a tool whose target raises, from the call on. *)
Lemma run_throws fuel self kwargs s self0 activity_id func kw s0 self1 s1 e :
  prepare env (run env fuel) fuel self kwargs s
  = (Ok (Some (self0, activity_id, func, kw)), s0) ->
  start_activity env self0 activity_id s0 = (Ok self1, s1) ->
  forallb (fun kv => is_str (fst kv)) kw = true ->
  func kw = Throws e ->
  time_strings_plain env ->
  activity_template env ->
  exists s3,
    run env (S fuel) self kwargs s = (Ok (self1, None), s3) /\
    failure_recorded env activity_id e (clock env (st_ticks s0))
                     (clock env (S (st_ticks s0))) (st_db s3) /\
    (forall t, t <> "Activity" -> st_db s3 !! t = st_db s0 !! t) /\
    st_calls s3 = (st_calls s0 ++ [(py_str (tool_path self), kw)])%list.
Proof.
  intros Hprepare Hstart Hkeys Hthrows Hplain Htemplate.
  destruct (prepare_inv env _ _ _ _ _ _ _ _ _ _ Hprepare) as [[n ->] [_ [_ Hpath]]].
  destruct (run_target_throws env fuel self0 (uuid_str n) func kw s0 self1 s1 e
              Hplain Htemplate (has_quote_uuid n) Hstart Hkeys Hthrows)
    as [s3 [Hrun [Hrec [Hframe [Hcalls _]]]]].
  exists s3. split; [|split; [exact Hrec|split; [exact Hframe|]]].
  - simpl. rewrite (bind_ok _ _ _ _ _ Hprepare). exact Hrun.
  - rewrite <- Hpath. exact Hcalls.
Qed.

(** The keyword arguments [run] calls the target with are those
    [update_inputs] leaves. *)
Lemma prepare_kwargs run_rec fuel self kwargs s self' activity_id func kw s0 :
  prepare env run_rec fuel self kwargs s = (Ok (Some (self', activity_id, func, kw)), s0) ->
  exists committed pred_outputs default_pred_name sa sb,
    update_inputs env fuel committed activity_id pred_outputs default_pred_name
                  (params committed) kwargs sa = (Ok (params self', kw), sb).
Proof.
  unfold prepare. intros H.
  apply bind_inv in H as [[] [s1 [_ H]]].
  apply bind_inv in H as [preds [s2 [_ H]]].
  destruct preds as [[pred_outputs default_pred_name]|]; [|inversion H].
  apply bind_inv in H as [committed [s3 [_ H]]].
  apply bind_inv in H as [aid [s4 [_ H]]].
  apply bind_inv in H as [[ps kw'] [s5 [Hupd H]]].
  apply bind_inv in H as [f [s6 [_ H]]].
  inversion H; subst; clear H. simpl.
  exists committed, pred_outputs, default_pred_name, s4, s5. exact Hupd.
Qed.
End RunClaims.



(** C5: when the target of a run raises, the activity of the run
    having been started, the exception does not leave [run]: the run
    returns the failure signal; the row of the activity has its end
    time, its duration, no success and the message; and the tables of
    inputs and outputs and of batches are as they were when the target
    was called. *)
Theorem target_exception_is_recorded env fuel self kwargs s self0 activity_id func kw s0
        self1 s1 e :
  prepare env (run env fuel) fuel self kwargs s
  = (Ok (Some (self0, activity_id, func, kw)), s0) ->
  start_activity env self0 activity_id s0 = (Ok self1, s1) ->
  forallb (fun kv => is_str (fst kv)) kw = true ->
  func kw = Throws e ->
  time_strings_plain env ->
  activity_template env ->
  exists s3,
    run env (S fuel) self kwargs s = (Ok (self1, None), s3) /\
    failure_recorded env activity_id e (clock env (st_ticks s0))
                     (clock env (S (st_ticks s0))) (st_db s3) /\
    st_db s3 !! "ActivityIO" = st_db s0 !! "ActivityIO" /\
    st_db s3 !! "BatchActivity" = st_db s0 !! "BatchActivity" /\
    st_calls s3 = (st_calls s0 ++ [(py_str (tool_path self), kw)])%list.
Proof.
  intros Hprepare Hstart Hkeys Hthrows Hplain Htemplate.
  destruct (run_throws env fuel self kwargs s self0 activity_id func kw s0 self1 s1 e
              Hprepare Hstart Hkeys Hthrows Hplain Htemplate)
    as [s3 [Hrun [Hrec [Hframe Hcalls]]]].
  exists s3. repeat split; try assumption; apply Hframe; discriminate.
Qed.

Lemma example_host_plain : time_strings_plain example_host.
Proof. split; intros z; reflexivity. Defined.

Lemma example_host_template : activity_template example_host.
Proof. eexists. split; reflexivity. Defined.

Lemma target_exception_is_recorded_witness :
  exists self1 s3,
    run example_host 3 broken_tool [] (store_state empty_store) = (Ok (self1, None), s3) /\
    failure_recorded example_host (VStr (uuid_str 0)) "can't read" 0 1 (st_db s3).
Proof.
  assert (Hprepare : exists s0,
             prepare example_host (run example_host 2) 2 broken_tool []
                     (store_state empty_store)
             = (Ok (Some (broken_tool, VStr (uuid_str 0),
                          (fun _ => Throws "can't read"), [])), s0) /\
             st_ticks s0 = 0%nat).
  { eexists. split; vm_compute; reflexivity. }
  destruct Hprepare as [s0 [Hprepare Hticks]].
  assert (Hstart : exists self1 s1,
             start_activity example_host broken_tool (VStr (uuid_str 0)) s0 = (Ok self1, s1)).
  { vm_compute in Hprepare. inversion Hprepare; subst s0.
    eexists. eexists. vm_compute. reflexivity. }
  destruct Hstart as [self1 [s1 Hstart]].
  destruct (target_exception_is_recorded example_host 2 broken_tool []
              (store_state empty_store) broken_tool (VStr (uuid_str 0))
              (fun _ => Throws "can't read") [] s0 self1 s1 "can't read"
              Hprepare Hstart eq_refl eq_refl example_host_plain example_host_template)
    as [s3 [Hrun [Hrec _]]].
  rewrite Hticks in Hrec.
  exists self1, s3. split; [exact Hrun|exact Hrec].
Defined.

(** C10: the message a failed run leaves in the row of its activity is
    the text of the exception with every single quote replaced by a
    double quote; and [end_activity] with no message leaves the message
    of every row as it was. *)
Theorem failure_message_requoted env :
  (forall fuel self kwargs s self0 activity_id func kw s0 self1 s1 e,
     prepare env (run env fuel) fuel self kwargs s
     = (Ok (Some (self0, activity_id, func, kw)), s0) ->
     start_activity env self0 activity_id s0 = (Ok self1, s1) ->
     forallb (fun kv => is_str (fst kv)) kw = true ->
     func kw = Throws e ->
     time_strings_plain env ->
     activity_template env ->
     exists s3 r,
       run env (S fuel) self kwargs s = (Ok (self1, None), s3) /\
       rows_with_id (st_db s3) "Activity" "ActivityID" activity_id = [r] /\
       dget "Message" r = VStr (replace_quotes e)) /\
  (forall e,
     has_quote (replace_quotes e) = false /\
     forall i, String.get i (replace_quotes e) = option_map requote (String.get i e)) /\
  (forall self activity_id succeeded s s',
     end_activity env self activity_id succeeded VNone s = (Ok tt, s') ->
     map (dget "Message") (rows_of (st_db s') "Activity")
     = map (dget "Message") (rows_of (st_db s) "Activity")).
Proof.
  split; [|split].
  - intros fuel self kwargs s self0 activity_id func kw s0 self1 s1 e
           Hprepare Hstart Hkeys Hthrows Hplain Htemplate.
    destruct (run_throws env fuel self kwargs s self0 activity_id func kw s0 self1 s1 e
                Hprepare Hstart Hkeys Hthrows Hplain Htemplate)
      as [s3 [Hrun [[r [Hrows [_ [_ [_ Hmsg]]]]] _]]].
    exists s3, r. auto.
  - intros e. split; [apply has_quote_replace_quotes|apply replace_quotes_get].
  - apply end_activity_null_message.
Qed.

Lemma failure_message_requoted_witness :
  exists self1 s3 r,
    run example_host 3 broken_tool [] (store_state empty_store) = (Ok (self1, None), s3) /\
    rows_with_id (st_db s3) "Activity" "ActivityID" (VStr (uuid_str 0)) = [r] /\
    dget "Message" r = VStr ("can" +:+ dq +:+ "t read").
Proof.
  assert (Hprepare : exists s0,
             prepare example_host (run example_host 2) 2 broken_tool []
                     (store_state empty_store)
             = (Ok (Some (broken_tool, VStr (uuid_str 0),
                          (fun _ => Throws "can't read"), [])), s0)).
  { eexists. vm_compute. reflexivity. }
  destruct Hprepare as [s0 Hprepare].
  assert (Hstart : exists self1 s1,
             start_activity example_host broken_tool (VStr (uuid_str 0)) s0 = (Ok self1, s1)).
  { vm_compute in Hprepare. inversion Hprepare; subst s0.
    eexists. eexists. vm_compute. reflexivity. }
  destruct Hstart as [self1 [s1 Hstart]].
  destruct (proj1 (failure_message_requoted example_host) 2%nat broken_tool []
                  (store_state empty_store) broken_tool (VStr (uuid_str 0))
                  (fun _ => Throws "can't read") [] s0 self1 s1 "can't read"
                  Hprepare Hstart eq_refl eq_refl example_host_plain example_host_template)
    as [s3 [r H]].
  exists self1, s3, r. exact H.
Defined.

Lemma zip_outputs_positional names returned :
  distinct_keys names -> zipped_positionally names returned.
Proof.
  intros Hd. unfold zipped_positionally.
  rewrite (zip_outputs_combine names returned Hd).
  split; [reflexivity|]. split; [apply List.length_combine|]. split.
  - intros i name Hi. apply vdict_get_combine; assumption.
  - intros k Hk. apply vdict_get_combine_absent. exact Hk.
Qed.

(** C4, amended: the value the target returned is zipped, place by
    place, with the declared output names: a tuple gives its elements
    in order, a single value that is neither a tuple nor [None] goes to
    the first name, values beyond the names are dropped, names beyond
    the values get nothing, and [None] gives the empty mapping.  The
    mapping is what [run] returns. *)
Theorem output_zipping env :
  (forall names returned, distinct_keys names -> zipped_positionally names returned) /\
  (forall vs, as_tuple (VTuple vs) = vs) /\
  (forall v, is_none v = false -> (forall vs, v <> VTuple vs) -> as_tuple v = [v]) /\
  (forall names, zip_outputs names VNone = []) /\
  zip_outputs [VStr "a"; VStr "b"] (VTuple [VInt 1; VInt 2])
  = [(VStr "a", VInt 1); (VStr "b", VInt 2)] /\
  (forall v, is_none v = false -> (forall vs, v <> VTuple vs) ->
             zip_outputs [VStr "a"] v = [(VStr "a", v)]) /\
  (forall fuel self kwargs s self0 activity_id func kw s0 self1 s1 v s2 ps s3,
     prepare env (run env fuel) fuel self kwargs s
     = (Ok (Some (self0, activity_id, func, kw)), s0) ->
     start_activity env self0 activity_id s0 = (Ok self1, s1) ->
     invoke func (tool_path self1) kw s1 = (Ok (Returns v), s2) ->
     record_success env fuel self1 activity_id kw (zip_outputs (outputs self) v) s2
     = (Ok ps, s3) ->
     exists self',
       run env (S fuel) self kwargs s
       = (Ok (self', Some (zip_outputs (outputs self) v)), s3)).
Proof.
  split; [exact zip_outputs_positional|].
  split; [reflexivity|].
  assert (Hsingle : forall v, is_none v = false -> (forall vs, v <> VTuple vs) ->
                              as_tuple v = [v]).
  { intros v Hn Ht. destruct v; try reflexivity; [discriminate|].
    exfalso. eapply Ht. reflexivity. }
  split; [exact Hsingle|].
  split.
  { intros names. unfold zip_outputs. simpl. destruct names; reflexivity. }
  split; [reflexivity|].
  split.
  { intros v Hn Ht. unfold zip_outputs. rewrite (Hsingle v Hn Ht). reflexivity. }
  intros fuel self kwargs s self0 activity_id func kw s0 self1 s1 v s2 ps s3
         Hprepare Hstart Hinvoke Hrecord.
  destruct (prepare_inv env _ _ _ _ _ _ _ _ _ _ Hprepare) as [_ [Hout _]].
  rewrite <- Hout in Hrecord |- *.
  eexists. simpl. rewrite (bind_ok _ _ _ _ _ Hprepare).
  apply (run_target_returns env fuel self0 activity_id func kw s0 self1 s1 v s2 ps s3
           Hstart Hinvoke Hrecord).
Qed.

Lemma output_zipping_witness :
  zipped_positionally [VStr "a"; VStr "b"; VStr "c"] (VTuple [VInt 1; VInt 2]).
Proof.
  apply (proj1 (output_zipping example_host)).
  simpl. auto.
Defined.

(** C4 as stated fails: a target that returns [None], a single value
    that is not a tuple, against one declared output gives the empty
    mapping, not the mapping of the output to [None]. *)
Lemma none_return_is_not_paired :
  zip_outputs [VStr "a"] VNone = [] /\
  vdict_get (VStr "a") (zip_outputs [VStr "a"] VNone) = None /\
  exists self' s',
    run example_host 3 nothing_tool [] (store_state empty_store)
    = (Ok (self', Some []), s').
Proof.
  split; [reflexivity|]. split; [reflexivity|].
  do 2 eexists. vm_compute. reflexivity.
Qed.

(** C3, amended: for an input parameter to which no feeder applies,
    the value resolved is what the caller supplied under the name of the
    parameter when that is true in the sense of [or], and the own value
    of the parameter otherwise, also when the caller supplied [None],
    [False], zero or the empty string; the strings true and false, in
    any case, are folded into booleans; the value is recorded by
    [record_io] and stays under the name in the keyword arguments the
    target is called with. *)
Theorem input_resolution env :
  (forall fuel self activity_id pred_outputs default_pred_name name param kwargs
          s own s1 chosen s2 param' s3,
     py_truthy (is_input param) = true ->
     no_feeder param default_pred_name ->
     value_get fuel param s = (Ok own, s1) ->
     or_else (supplied_or name kwargs own) (value_get fuel param) s1 = (Ok chosen, s2) ->
     record_io env param activity_id (fold_bool chosen) (tool_id self) s2 = (Ok param', s3) ->
     input_resolved env fuel self activity_id pred_outputs default_pred_name name param
                    kwargs s chosen param' s3) /\
  (forall fuel self activity_id pred_outputs default_pred_name name param rest kwargs s
          param' kwargs1 s1 ps' kwargs' s',
     existsb (py_eqb name) (map fst rest) = false ->
     update_input env fuel self activity_id pred_outputs default_pred_name name param kwargs s
     = (Ok (param', kwargs1), s1) ->
     update_inputs env fuel self activity_id pred_outputs default_pred_name rest kwargs1 s1
     = (Ok (ps', kwargs'), s') ->
     update_inputs env fuel self activity_id pred_outputs default_pred_name
                   ((name, param) :: rest) kwargs s
     = (Ok ((name, param') :: ps', kwargs'), s') /\
     vdict_get name kwargs' = vdict_get name kwargs1) /\
  (forall run_rec fuel self kwargs s self' activity_id func kw s0,
     prepare env run_rec fuel self kwargs s = (Ok (Some (self', activity_id, func, kw)), s0) ->
     exists committed pred_outputs default_pred_name sa sb,
       update_inputs env fuel committed activity_id pred_outputs default_pred_name
                     (params committed) kwargs sa = (Ok (params self', kw), sb)) /\
  (forall func path kw s,
     forallb (fun kv => is_str (fst kv)) kw = true ->
     invoke func path kw s = (Ok (func kw), add_call (py_str path) kw s)) /\
  (forall text,
     fold_bool (VStr text)
     = if String.eqb (lower text) "true" then VBool true
       else if String.eqb (lower text) "false" then VBool false
       else VStr text) /\
  (forall v, is_str v = false -> fold_bool v = v).
Proof.
  split.
  { intros fuel self activity_id pred_outputs default_pred_name name param kwargs
           s own s1 chosen s2 param' s3 Hinput Hfeeder Hown Hchosen Hrecord.
    unfold input_resolved. split; [|split; [|split; [|split]]].
    - apply (update_input_no_feeder env fuel self activity_id pred_outputs default_pred_name
               name param kwargs s own s1 chosen s2 param' s3); assumption.
    - apply vdict_get_set_eq.
    - intros v Hv Htruthy. unfold supplied_or in Hchosen. rewrite Hv in Hchosen.
      apply or_else_inv in Hchosen as [[_ [-> _]] | [Hfalse _]]; [reflexivity|].
      congruence.
    - intros Hliteral.
      rewrite (value_get_literal fuel param s Hliteral) in Hown.
      inversion Hown; subst own s1. clear Hown.
      apply or_else_inv in Hchosen as [[Ht [-> _]] | [Hf Hagain]].
      + unfold py_or. rewrite Ht. reflexivity.
      + rewrite (value_get_literal fuel param s Hliteral) in Hagain.
        inversion Hagain; subst. unfold py_or. rewrite Hf. reflexivity.
    - unfold io_recorded. eapply record_io_row. exact Hrecord. }
  split.
  { intros. eapply update_inputs_turn; eassumption. }
  split; [apply prepare_kwargs|].
  split.
  { intros func path kw s Hkeys. unfold invoke. rewrite Hkeys. reflexivity. }
  split.
  { intros text. reflexivity. }
  intros v Hv. destruct v; try reflexivity. discriminate.
Qed.

Lemma input_resolution_witness :
  exists param' s3,
    input_resolved example_host 2 flag_tool (VStr "act") [] VNone (VStr "overwrite")
                   flag_param [(VStr "overwrite", VStr "False")]
                   (store_state empty_store) (VStr "False") param' s3.
Proof.
  do 2 eexists.
  eapply (proj1 (input_resolution example_host) 2%nat flag_tool (VStr "act") [] VNone
                (VStr "overwrite") flag_param [(VStr "overwrite", VStr "False")]
                (store_state empty_store)).
  - reflexivity.
  - reflexivity.
  - vm_compute. reflexivity.
  - vm_compute. reflexivity.
  - vm_compute. reflexivity.
Defined.

(** C3 as stated fails: the caller supplies [False] for a parameter
    whose own value is the text true, and the target is called with
    [True]. *)
Lemma falsy_keyword_argument_is_dropped :
  exists self' out s',
    run example_host 3 flag_tool [(VStr "overwrite", VBool false)]
        (store_state empty_store) = (Ok (self', out), s') /\
    st_calls s' = [("jobs.one", [(VStr "overwrite", VBool true)])].
Proof.
  do 3 eexists. split; [vm_compute; reflexivity|]. reflexivity.
Qed.

Lemma Resource_path_composition_witness :
  Resource_path 2 gis_resource (store_state chain_store)
  = (Ok (VStr "X:/GIS"), store_state chain_store).
Proof.
  destruct Resource_path_composition as (_ & _ & Hcompose & _).
  edestruct (Hcompose 1%nat gis_resource drive_row (store_state chain_store))
    as [_ Hjoin].
  - reflexivity.
  - vm_compute. reflexivity.
  - vm_compute. reflexivity.
  - refine (Hjoin eq_refl "X:" (store_state chain_store) _).
    vm_compute. reflexivity.
Defined.

(** * Further properties *)

(** ** Further properties of [utils.py] *)

Lemma find_insensitive_like d k k' :
  lower k = lower k' -> find_insensitive d k = find_insensitive d k'.
Proof.
  intros Hk. induction d as [|[k0 v] rest IH]; simpl; [reflexivity|].
  rewrite Hk, IH. reflexivity.
Qed.

Lemma find_insensitive_none d key :
  no_key_like d key -> find_insensitive d key = None.
Proof.
  induction d as [|[k0 v] rest IH]; simpl; intros Hno; [reflexivity|].
  destruct (String.eqb (lower k0) (lower key)) eqn:Heq.
  - apply String.eqb_eq in Heq. exfalso. apply (Hno k0 v); [left; reflexivity|exact Heq].
  - apply IH. intros k v' Hin. apply (Hno k v'). right. exact Hin.
Qed.

Lemma find_insensitive_first pre k0 v post key :
  lower k0 = lower key -> no_key_like pre key ->
  find_insensitive (pre ++ (k0, v) :: post)%list key = Some v.
Proof.
  intros Hk. induction pre as [|[k1 v1] rest IH]; simpl; intros Hno.
  - rewrite Hk, String.eqb_refl. reflexivity.
  - destruct (String.eqb (lower k1) (lower key)) eqn:Heq.
    + apply String.eqb_eq in Heq. exfalso.
      apply (Hno k1 v1); [left; reflexivity|exact Heq].
    + apply IH. intros k v' Hin. apply (Hno k v'). right. exact Hin.
Qed.

(** X1: [get_case_insensitive] looks a key up without regard to its
    case or to the case of the keys of the dictionary: two keys equal
    up to case get the same answer, the first entry in the order of the
    dictionary whose key equals the key up to case gives the value, and
    the default is returned when there is no such entry. *)
Theorem get_case_insensitive_first_match :
  (forall d k k' default_value,
     lower k = lower k' ->
     get_case_insensitive d k default_value = get_case_insensitive d k' default_value) /\
  (forall pre k0 v post key default_value,
     lower k0 = lower key -> no_key_like pre key ->
     get_case_insensitive (pre ++ (k0, v) :: post)%list key default_value = v) /\
  (forall d key default_value,
     no_key_like d key -> get_case_insensitive d key default_value = default_value).
Proof.
  split; [|split].
  - intros d k k' default_value Hk. unfold get_case_insensitive.
    rewrite (find_insensitive_like d k k' Hk). reflexivity.
  - intros pre k0 v post key default_value Hk Hno. unfold get_case_insensitive.
    rewrite (find_insensitive_first pre k0 v post key Hk Hno). reflexivity.
  - intros d key default_value Hno. unfold get_case_insensitive.
    rewrite (find_insensitive_none d key Hno). reflexivity.
Qed.

Lemma get_case_insensitive_first_match_witness :
  get_case_insensitive [("B", VInt 2); ("A", VInt 1); ("a", VInt 3)] "a" VNone = VInt 1.
Proof.
  apply (proj1 (proj2 get_case_insensitive_first_match) [("B", VInt 2)] "A" (VInt 1)
               [("a", VInt 3)] "a" VNone).
  - reflexivity.
  - intros k v [Heq|[]]. inversion Heq; subst. vm_compute. discriminate.
Defined.

Lemma search_keys_result dictionary keys default_value v :
  search_keys dictionary keys default_value = Ok v ->
  (v = default_value /\ nothing_true dictionary keys) \/
  (py_truthy v = true /\
   exists key, In (VStr key) keys /\ find_insensitive dictionary key = Some v).
Proof.
  induction keys as [|key rest IH]; simpl.
  - intros H. inversion H. left. split; [reflexivity|]. intros k [].
  - destruct key as [| | |key| | |]; try discriminate.
    destruct (py_truthy (get_case_insensitive dictionary key VNone)) eqn:Htrue.
    + intros H. inversion H; subst. right. split; [exact Htrue|].
      exists key. split; [left; reflexivity|].
      unfold get_case_insensitive in *.
      destruct (find_insensitive dictionary key); [reflexivity|discriminate].
    + intros H. destruct (IH H) as [[Hv Hnone]|[Hv [k [Hin Hfound]]]].
      * left. split; [exact Hv|]. intros k [Heq|Hin].
        -- inversion Heq; subst. exact Htrue.
        -- apply Hnone. exact Hin.
      * right. split; [exact Hv|]. exists k. split; [right; exact Hin|exact Hfound].
Qed.

Lemma all_keys_no_synonyms keys : all_keys [] keys = map VStr keys.
Proof.
  induction keys as [|k rest IH]; [reflexivity|].
  change (all_keys [] (k :: rest)) with (VStr k :: all_keys [] rest).
  rewrite IH. reflexivity.
Qed.

Lemma search_keys_strings dictionary keys default_value :
  exists v, search_keys dictionary (map VStr keys) default_value = Ok v.
Proof.
  induction keys as [|k rest IH]; simpl; [eauto|].
  destruct (py_truthy _); eauto.
Qed.

Lemma search_keys_first dictionary key rest default_value :
  py_truthy (get_case_insensitive dictionary key VNone) = true ->
  search_keys dictionary (VStr key :: rest) default_value
  = Ok (get_case_insensitive dictionary key VNone).
Proof. intros H. simpl. rewrite H. reflexivity. Qed.

(** X2: [get_flex] returns either a true value that the dictionary
    holds under one of the keys or synonyms, or the default when the
    dictionary holds a true value under none of them: a value stored
    as [0], [False], the empty string or [None] is never returned as
    found.  Without synonyms it never raises, and a true value under
    the first key wins over the later keys. *)
Theorem get_flex_true_value_or_default dictionary keys synonyms default_value :
  (forall v,
     get_flex dictionary keys synonyms default_value = Ok v ->
     (v = default_value /\
      nothing_true dictionary
        (all_keys (config_or_empty synonyms) (keys_list keys))) \/
     (py_truthy v = true /\
      exists key,
        In (VStr key) (all_keys (config_or_empty synonyms) (keys_list keys)) /\
        find_insensitive dictionary key = Some v)) /\
  (exists v, get_flex dictionary keys None default_value = Ok v) /\
  (forall key rest,
     py_truthy (get_case_insensitive dictionary key VNone) = true ->
     get_flex dictionary (ManyKeys (key :: rest)) synonyms default_value
     = Ok (get_case_insensitive dictionary key VNone)).
Proof.
  split; [|split].
  - intros v H. apply search_keys_result. exact H.
  - unfold get_flex. rewrite all_keys_no_synonyms. apply search_keys_strings.
  - intros key rest Htrue. unfold get_flex.
    change (all_keys ?syn (keys_list (ManyKeys (key :: rest))))
      with ((if py_truthy (get_case_insensitive syn key VNone)
             then [VStr key; get_case_insensitive syn key VNone]
             else [VStr key]) ++ all_keys syn rest)%list.
    destruct (py_truthy (get_case_insensitive
                           match synonyms with Some given => given | None => [] end
                           key VNone));
      apply search_keys_first; exact Htrue.
Qed.

Lemma get_flex_true_value_or_default_witness :
  get_flex [("A", VInt 1); ("b", VInt 0)] (ManyKeys ["a"; "b"]) None VNone = Ok (VInt 1) /\
  get_flex [("A", VInt 1); ("b", VInt 0)] (OneKey "b") None (VStr "none") = Ok (VStr "none").
Proof.
  split.
  - apply (proj2 (proj2 (get_flex_true_value_or_default
                           [("A", VInt 1); ("b", VInt 0)] (ManyKeys ["a"; "b"]) None VNone))
                 "a" ["b"]).
    reflexivity.
  - reflexivity.
Defined.

(** ** Further properties of the config resolver *)

Lemma get_row_insensitive_no_table db table_name key v :
  db !! table_name = None -> get_row_insensitive db table_name key v = Ok None.
Proof. intros H. unfold get_row_insensitive, db_get. rewrite H. reflexivity. Qed.

Lemma find_persisted_no_table db table_name id_column config id name_column :
  db !! table_name = None ->
  find_persisted db table_name id_column config id name_column = Ok None.
Proof.
  intros H. unfold find_persisted.
  rewrite !(get_row_insensitive_no_table db table_name _ _ H).
  destruct (is_none _); simpl; destruct (name_given name_column); try reflexivity;
    destruct (py_truthy _); try reflexivity;
    apply get_row_insensitive_no_table; exact H.
Qed.

(** X3: over a table the store does not have, [fill_config] raises
    [AttributeError] whatever it is asked for: the lookups of the row
    find nothing, and the blank record cannot be built from the columns
    of a failed read. *)
Theorem fill_config_without_table db table_name id_column config id name_column :
  db !! table_name = None ->
  exists msg,
    fill_config db table_name id_column config id name_column = Raise (AttributeError msg).
Proof.
  intros H. unfold fill_config.
  rewrite (find_persisted_no_table db table_name id_column _ id name_column H).
  simpl. unfold get_columns, db_get. rewrite H. simpl. eauto.
Qed.

Lemma fill_config_without_table_witness :
  exists msg,
    fill_config (∅ : DB) "Resources" "ResourceID" (Some [("Name", VStr "X Drive")])
                VNone None
    = Raise (AttributeError msg).
Proof.
  apply (fill_config_without_table ∅ "Resources" "ResourceID"). reflexivity.
Defined.

Lemma dict_keys_override config r : dict_keys (override config r) = dict_keys r.
Proof.
  unfold override, dict_keys. rewrite List.map_map. reflexivity.
Qed.

(** X4: the fields of the record [fill_config] resolves are those of
    the persisted row its lookup found, in their order, or the columns
    of the table when it found none: a key of the caller's
    configuration that names none of them is not in the record. *)
Theorem fill_config_fields db table_name id_column config id name_column resolved :
  fill_config db table_name id_column config id name_column = Ok resolved ->
  exists found,
    find_persisted db table_name id_column (config_or_empty config) id name_column
    = Ok found /\
    match found with
    | Some p => dict_keys resolved = dict_keys p
    | None =>
        exists t, db !! table_name = Some t /\
                  dict_keys resolved = dict_keys (blank_row (t_columns t))
    end.
Proof.
  unfold fill_config, config_or_empty. intros H.
  destruct (find_persisted db table_name id_column _ id name_column) as [found|e];
    [|discriminate].
  exists found. split; [reflexivity|]. simpl in H.
  destruct found as [p|].
  - simpl in H. inversion H. apply dict_keys_override.
  - unfold get_columns, db_get in H.
    destruct (db !! table_name) as [t|]; [|discriminate].
    simpl in H. inversion H. exists t. split; [reflexivity|]. apply dict_keys_override.
Qed.

Lemma fill_config_fields_witness :
  exists found,
    find_persisted chain_store "Resources" "ResourceID"
                   [("Colour", VStr "red"); ("name", VStr "gis")] VNone (Some "Name")
    = Ok found /\
    match found with
    | Some p =>
        dict_keys [("ResourceID", VStr "bogus2"); ("Name", VStr "gis");
                   ("Path", VStr "GIS"); ("Parent", VStr "bogus1")]
        = dict_keys p
    | None =>
        exists t, chain_store !! "Resources" = Some t /\
                  dict_keys [("ResourceID", VStr "bogus2"); ("Name", VStr "gis");
                             ("Path", VStr "GIS"); ("Parent", VStr "bogus1")]
                  = dict_keys (blank_row (t_columns t))
    end.
Proof.
  apply (fill_config_fields chain_store "Resources" "ResourceID"
           (Some [("Colour", VStr "red"); ("name", VStr "gis")]) VNone (Some "Name")).
  vm_compute. reflexivity.
Defined.

(** ** Further properties of the table store *)

Lemma literal_value_inv v :
  literal_value v = true ->
  exists lit, quoted_literal v = Some lit /\ sql_literal v = Some lit /\
              is_none v = false /\ breaks_literal v = false /\
              breaks_literal lit = false.
Proof.
  unfold literal_value. destruct v as [| b | z | s | p | vs | vs]; simpl; try discriminate.
  - intros _. exists (VInt (Z.b2z b)). repeat split.
  - intros _. exists (VInt z). repeat split.
  - destruct (has_quote s) eqn:Hq; [discriminate|]. intros _.
    exists (VStr s). simpl. rewrite Hq. repeat split.
Qed.

Lemma quoted_sql_literal v lit : quoted_literal v = Some lit -> sql_literal v = Some lit.
Proof.
  destruct v; simpl; try (intros H; exact H).
  destruct (has_quote s); [discriminate|]. intros H; exact H.
Qed.


(** The comparison of a cell with the literal of a value is the
    comparison with the value. *)
Lemma sql_eqb_literal cell v lit :
  sql_literal v = Some lit -> sql_eqb cell lit = cell_eq cell v.
Proof.
  unfold sql_eqb, cell_eq, cell_ne.
  destruct v as [| b | z | s | p | vs | vs]; simpl; intros H; inversion H; subst; simpl;
    try (destruct (is_none cell); simpl; try reflexivity;
         rewrite negb_involutive; reflexivity).
  destruct (is_none cell) eqn:Hn; simpl; [reflexivity|].
  rewrite negb_involutive.
  destruct cell as [| b' | z' | s' | p' | vs' | vs']; simpl; try reflexivity.
  - destruct b', b; reflexivity.
  - rewrite Z.eqb_sym. reflexivity.
Qed.

Lemma matches_exact_cell_eq key v r :
  literal_value v = true -> matches_exact key v r = cell_eq (dget key r) v.
Proof.
  intros Hv. destruct (literal_value_inv v Hv) as [lit [_ [Hlit _]]].
  unfold matches_exact. rewrite Hlit. apply sql_eqb_literal. exact Hlit.
Qed.




Lemma filter_all {A} (f : A -> bool) l :
  (forall x, In x l -> f x = true) -> List.filter f l = l.
Proof.
  induction l as [|x rest IH]; simpl; intros H; [reflexivity|].
  rewrite (H x (or_introl eq_refl)). f_equal. apply IH.
  intros y Hy. apply H. right. exact Hy.
Qed.

(** X6: [set_row] writes to one table and leaves the other rows of
    that table alone: every row whose identifier differs from that of
    the row written is still there, with the cells it had in every
    column of the table; the table has one row more than the rows
    kept; and a row whose identifier is null replaces nothing. *)
Theorem set_row_keeps_other_rows template db table_name r id_col id db' :
  set_row template db table_name r id_col = Ok db' ->
  dict_get id_col r = Some id ->
  (forall other, other <> table_name -> db' !! other = db !! other) /\
  (forall old,
     In old (rows_of db table_name) ->
     cell_ne (dget id_col old) id = true ->
     exists kept,
       In kept (rows_of db' table_name) /\
       forall t k, db !! table_name = Some t -> In k (t_columns t) ->
                   dget k kept = dget k old) /\
  length (rows_of db' table_name)
  = S (length (List.filter (fun old => cell_ne (dget id_col old) id)
                           (rows_of db table_name))) /\
  (is_none id = true ->
   length (rows_of db' table_name) = S (length (rows_of db table_name))).
Proof.
  intros Hset Hid.
  destruct (set_row_inv _ _ _ _ _ _ _ Hset Hid) as [t' [-> [Hrows Hcols]]].
  assert (Hlen : length (rows_of (<[table_name := t']> db) table_name)
                 = S (length (List.filter (fun old => cell_ne (dget id_col old) id)
                                          (rows_of db table_name)))).
  { unfold rows_of at 1. rewrite lookup_insert_eq, Hrows.
    rewrite List.length_app, List.length_map. simpl. apply Nat.add_1_r. }
  split; [|split; [|split]].
  - intros other Hother. apply lookup_insert_ne. congruence.
  - intros old Hold Hne. exists (pad (t_columns t') old). split.
    + unfold rows_of at 1. rewrite lookup_insert_eq, Hrows.
      apply in_or_app. left. apply in_map. apply filter_In. split; assumption.
    + intros t k Ht Hk. apply dget_pad. apply (Hcols t k Ht Hk).
  - exact Hlen.
  - intros Hnone. rewrite Hlen. f_equal. f_equal. apply filter_all.
    intros x _. unfold cell_ne. rewrite Hnone, orb_true_r. reflexivity.
Qed.

Lemma set_row_keeps_other_rows_witness :
  exists db',
    set_row None fruit_store "Fruit"
            [("FruitID", VInt 3); ("Name", VStr "cherry"); ("Color", VStr "pink")]
            "FruitID" = Ok db' /\
    length (rows_of db' "Fruit") = 4%nat.
Proof.
  assert (Hset : exists db',
             set_row None fruit_store "Fruit"
                     [("FruitID", VInt 3); ("Name", VStr "cherry"); ("Color", VStr "pink")]
                     "FruitID" = Ok db').
  { eexists. vm_compute. reflexivity. }
  destruct Hset as [db' Hset]. exists db'. split; [exact Hset|].
  rewrite (proj1 (proj2 (proj2 (set_row_keeps_other_rows _ _ _ _ _ (VInt 3) _ Hset
                                  eq_refl)))).
  vm_compute. reflexivity.
Defined.





(** ** [update] *)

Lemma db_update_inv db table_name query_col query_val vals db' :
  db_update db table_name query_col query_val vals = Ok db' ->
  exists t pairs lit,
    db !! table_name = Some t /\
    update_pairs vals = Some pairs /\
    quoted_literal query_val = Some lit /\
    db' = <[table_name :=
              mkTable (t_columns t)
                (map (fun r => if sql_eqb (dget query_col r) lit
                               then apply_pairs pairs r else r)
                     (t_rows t))]> db.
Proof.
  unfold db_update. intros H.
  destruct (db !! table_name) as [t|]; [|discriminate].
  destruct (update_pairs vals) as [[|p pairs]|]; try discriminate.
  destruct (quoted_literal query_val) as [lit|]; [|discriminate].
  destruct (_ && _); [|discriminate].
  inversion H. exists t, (p :: pairs), lit. repeat split.
Qed.

(** The assignments of a statement are the entries that are not null,
    each with its literal. *)
Lemma update_pairs_In vals pairs k lit :
  update_pairs vals = Some pairs ->
  In (k, lit) pairs ->
  exists v, In (k, v) vals /\ is_none v = false /\ quoted_literal v = Some lit.
Proof.
  revert pairs. induction vals as [|[col v] rest IH]; simpl; intros pairs H Hin.
  - inversion H; subst. destruct Hin.
  - destruct (update_pairs rest) as [ps|]; [|discriminate].
    destruct (is_none v) eqn:Hn.
    + inversion H; subst. destruct (IH pairs eq_refl Hin) as [v' [Hv' Hrest]].
      exists v'. split; [right; exact Hv'|exact Hrest].
    + destruct (quoted_literal v) as [l|] eqn:Hq; [|discriminate].
      inversion H; subst. destruct Hin as [Heq|Hin].
      * inversion Heq; subst. exists v. split; [left; reflexivity|]. split; assumption.
      * destruct (IH ps eq_refl Hin) as [v' [Hv' Hrest]].
        exists v'. split; [right; exact Hv'|exact Hrest].
Qed.

Lemma update_pairs_has vals pairs k v lit :
  update_pairs vals = Some pairs ->
  In (k, v) vals -> quoted_literal v = Some lit ->
  In (k, lit) pairs.
Proof.
  revert pairs. induction vals as [|[col v0] rest IH]; simpl; intros pairs H Hin Hq.
  - destruct Hin.
  - destruct (update_pairs rest) as [ps|]; [|discriminate].
    assert (Hnn : forall x l, quoted_literal x = Some l -> is_none x = false).
    { intros x l. destruct x; simpl; try reflexivity; discriminate. }
    destruct Hin as [Heq|Hin].
    + inversion Heq; subst. rewrite (Hnn v lit Hq), Hq in H.
      inversion H. left. reflexivity.
    + destruct (is_none v0).
      * inversion H; subst. apply IH; auto.
      * destruct (quoted_literal v0); [|discriminate]. inversion H; subst.
        right. apply IH; auto.
Qed.

Lemma update_pairs_keys vals pairs :
  update_pairs vals = Some pairs ->
  List.NoDup (dict_keys vals) -> List.NoDup (dict_keys pairs).
Proof.
  revert pairs. induction vals as [|[col v] rest IH]; simpl; intros pairs H Hnd.
  - inversion H. constructor.
  - apply List.NoDup_cons_iff in Hnd as [Hnotin Hnd].
    destruct (update_pairs rest) as [ps|] eqn:Hps; [|discriminate].
    destruct (is_none v).
    + inversion H; subst. apply IH; auto.
    + destruct (quoted_literal v) as [l|]; [|discriminate]. inversion H; subst.
      simpl. apply List.NoDup_cons_iff. split; [|apply IH; auto].
      intros Hin. apply Hnotin.
      unfold dict_keys in *. apply in_map_iff in Hin as [[k' l'] [Hk Hin]].
      simpl in Hk; subst k'.
      destruct (update_pairs_In rest ps col l' Hps Hin) as [v' [Hv' _]].
      apply in_map_iff. exists (col, v'). split; [reflexivity|exact Hv'].
Qed.

Lemma existsb_keys_false k (pairs : dict value) :
  ~ In k (dict_keys pairs) -> existsb (String.eqb k) (map fst pairs) = false.
Proof.
  intros Hnot. apply not_true_is_false. intros Hex. apply Hnot.
  apply existsb_exists in Hex as [x [Hin Heq]]. apply String.eqb_eq in Heq. subst x.
  exact Hin.
Qed.

Lemma dget_apply_pairs_set pairs : forall r k lit,
  List.NoDup (dict_keys pairs) -> In (k, lit) pairs ->
  dget k (apply_pairs pairs r) = lit.
Proof.
  induction pairs as [|[k1 l1] rest IH]; intros r k lit Hnd Hin; [destruct Hin|].
  simpl in Hnd. apply List.NoDup_cons_iff in Hnd as [Hnotin Hnd].
  change (apply_pairs ((k1, l1) :: rest) r) with (apply_pairs rest (dict_set k1 l1 r)).
  destruct Hin as [Heq|Hin].
  - inversion Heq; subst.
    rewrite dget_apply_pairs_other.
    + apply dget_set_eq.
    + apply existsb_keys_false. exact Hnotin.
  - apply IH; assumption.
Qed.

Lemma update_pairs_untouched vals pairs k :
  update_pairs vals = Some pairs ->
  (forall v, In (k, v) vals -> is_none v = true) ->
  existsb (String.eqb k) (map fst pairs) = false.
Proof.
  intros Hp Hnull. apply existsb_keys_false. intros Hin.
  unfold dict_keys in Hin. apply in_map_iff in Hin as [[k' l] [Hk Hin]].
  simpl in Hk; subst k'.
  destruct (update_pairs_In vals pairs k l Hp Hin) as [v [Hv [Hnn _]]].
  rewrite (Hnull v Hv) in Hnn. discriminate.
Qed.






Lemma update_pairs_all_null vals :
  (forall k v, In (k, v) vals -> is_none v = true) -> update_pairs vals = Some [].
Proof.
  induction vals as [|[col v] rest IH]; simpl; intros Hnull; [reflexivity|].
  rewrite IH.
  - rewrite (Hnull col v (or_introl eq_refl)). reflexivity.
  - intros k v' Hin. apply (Hnull k v'). right. exact Hin.
Qed.

(** X10: an [update] that has nothing to set, its values being empty
    or all [None], raises [OperationalError] and writes nothing: the
    statement it builds has no assignment. *)
Theorem update_without_values_raises db table_name query_col query_val vals :
  (forall k v, In (k, v) vals -> is_none v = true) ->
  exists msg,
    db_update db table_name query_col query_val vals = Raise (OperationalError msg).
Proof.
  intros Hnull. unfold db_update. rewrite (update_pairs_all_null vals Hnull).
  destruct (db !! table_name); eauto.
Qed.

Lemma update_without_values_raises_witness :
  exists msg,
    db_update fruit_store "Fruit" "FruitID" (VInt 0) [("Color", VNone)]
    = Raise (OperationalError msg).
Proof.
  apply (update_without_values_raises fruit_store "Fruit" "FruitID" (VInt 0)).
  intros k v [Heq|[]]. inversion Heq. reflexivity.
Defined.

(** ** The two lookups *)




(** ** Building the schema *)

Lemma table_names_mem (db : DB) n :
  mem_string n (table_names db) = true <-> is_Some (db !! n).
Proof.
  rewrite mem_string_In. unfold table_names. rewrite in_map_iff. split.
  - intros [[k t] [Hk Hin]]. simpl in Hk. subst k.
    apply list_elem_of_In in Hin. apply elem_of_map_to_list in Hin. eauto.
  - intros [t Ht]. exists (n, t). split; [reflexivity|].
    apply list_elem_of_In. apply elem_of_map_to_list. exact Ht.
Qed.

Lemma table_names_absent (db : DB) n :
  db !! n = None -> mem_string n (table_names db) = false.
Proof.
  intros H. apply not_true_is_false. intros Hmem.
  apply table_names_mem in Hmem as [t Ht]. congruence.
Qed.

(** One turn of the loop of [build_schema], the names of the tables
    having been read before the loop. *)
Lemma build_step_lookup names (acc : DB) name cols n :
  (if mem_string name names then acc
   else fst (import_df acc (mkTable cols []) name false)) !! n
  = match acc !! n with
    | Some t => Some t
    | None =>
        if mem_string name names then None
        else if String.eqb name n then Some (mkTable cols []) else None
    end.
Proof.
  destruct (mem_string name names).
  - destruct (acc !! n); reflexivity.
  - unfold import_df. simpl.
    destruct (acc !! name) as [t|] eqn:Hname; simpl.
    + destruct (acc !! n) eqn:Hn; [reflexivity|].
      destruct (String.eqb name n) eqn:Heq; [|reflexivity].
      apply String.eqb_eq in Heq. congruence.
    + destruct (String.eqb name n) eqn:Heq.
      * apply String.eqb_eq in Heq. subst n. rewrite lookup_insert_eq, Hname. reflexivity.
      * apply String.eqb_neq in Heq. rewrite lookup_insert_ne by exact Heq.
        destruct (acc !! n); reflexivity.
Qed.

Lemma build_fold_lookup names schema : forall (acc : DB) n,
  fold_left (fun acc template =>
               if mem_string (fst template) names then acc
               else fst (import_df acc (mkTable (snd template) []) (fst template) false))
            schema acc !! n
  = match acc !! n with
    | Some t => Some t
    | None =>
        if mem_string n names then None
        else option_map (fun cols => mkTable cols []) (dict_get n schema)
    end.
Proof.
  induction schema as [|[name cols] rest IH]; intros acc n.
  - simpl. destruct (acc !! n); [reflexivity|]. destruct (mem_string n names); reflexivity.
  - cbn [fold_left fst snd dict_get]. rewrite IH. rewrite (build_step_lookup names acc name cols n).
    destruct (acc !! n) as [t|]; [reflexivity|].
    destruct (mem_string name names) eqn:Hname.
    + destruct (mem_string n names) eqn:Hn; [reflexivity|].
      destruct (String.eqb name n) eqn:Heq; [|reflexivity].
      apply String.eqb_eq in Heq. congruence.
    + destruct (String.eqb name n) eqn:Heq.
      * apply String.eqb_eq in Heq. subst n. rewrite Hname. reflexivity.
      * reflexivity.
Qed.

Lemma build_schema_lookup schema (db : DB) n :
  build_schema schema db !! n
  = match db !! n with
    | Some t => Some t
    | None => option_map (fun cols => mkTable cols []) (dict_get n schema)
    end.
Proof.
  unfold build_schema. rewrite build_fold_lookup.
  destruct (db !! n) eqn:Hn; [reflexivity|].
  rewrite (table_names_absent db n Hn). reflexivity.
Qed.

(** X12: [build_schema] creates the tables of the schema that the
    store lacks, each empty and with the columns of its template, and
    nothing else: a table the store has keeps its rows and columns, a
    name that is neither in the store nor in the schema names no table
    afterwards, and building a second time changes nothing. *)
Theorem build_schema_creates_missing_tables schema (db : DB) :
  (forall n,
     build_schema schema db !! n
     = match db !! n with
       | Some t => Some t
       | None => option_map (fun cols => mkTable cols []) (dict_get n schema)
       end) /\
  build_schema schema (build_schema schema db) = build_schema schema db.
Proof.
  split; [apply build_schema_lookup|].
  apply map_eq. intros n. rewrite (build_schema_lookup schema (build_schema schema db) n).
  destruct (build_schema schema db !! n) as [t|] eqn:Hn; [reflexivity|].
  rewrite build_schema_lookup in Hn.
  destruct (db !! n); [discriminate|]. exact Hn.
Qed.

Lemma override_blank_row columns : override [] (blank_row columns) = blank_row columns.
Proof.
  unfold override.
  assert (H : forall r : row, (forall k x, In (k, x) r -> x = VNone) ->
                              map (fun kv => (fst kv,
                                              path_to_str (get_case_insensitive [] (fst kv)
                                                                                (snd kv)))) r
                              = r).
  { induction r as [|[k x] rest IH]; simpl; intros Hnull; [reflexivity|].
    rewrite (Hnull k x (or_introl eq_refl)). simpl. f_equal. apply IH.
    intros k' x' Hin. apply (Hnull k' x'). right. exact Hin. }
  apply H. intros k x. apply blank_row_null.
Qed.

Lemma find_persisted_nothing_asked db table_name id_column name_column :
  find_persisted db table_name id_column [] VNone name_column = Ok None.
Proof.
  unfold find_persisted. simpl. destruct (name_given name_column); reflexivity.
Qed.

(** X13: once [build_schema] has created a table, [fill_config] over
    it with no configuration and no identifier returns the blank
    record: the columns of the template, every one null. *)
Theorem fill_config_after_build_schema schema (db : DB) table_name columns
        id_column name_column :
  db !! table_name = None ->
  dict_get table_name schema = Some columns ->
  fill_config (build_schema schema db) table_name id_column None VNone name_column
  = Ok (blank_row columns).
Proof.
  intros Hdb Hschema. unfold fill_config.
  rewrite find_persisted_nothing_asked. simpl. unfold get_columns, db_get.
  rewrite build_schema_lookup, Hdb, Hschema. simpl.
  rewrite override_blank_row. reflexivity.
Qed.

Lemma fill_config_after_build_schema_witness :
  fill_config (build_schema [("Resources", ["ResourceID"; "Name"; "Path"; "Parent"])]
                            (∅ : DB))
              "Resources" "ResourceID" None VNone None
  = Ok [("ResourceID", VNone); ("Name", VNone); ("Path", VNone); ("Parent", VNone)].
Proof.
  apply (fill_config_after_build_schema
           [("Resources", ["ResourceID"; "Name"; "Path"; "Parent"])] ∅ "Resources"
           ["ResourceID"; "Name"; "Path"; "Parent"] "ResourceID" None).
  - reflexivity.
  - reflexivity.
Defined.

(** ** The schema prefix of table names *)

Lemma split_dot_cons s : exists part parts, split_dot s = part :: parts.
Proof.
  destruct s as [|c rest]; simpl; [eauto|].
  destruct (Ascii.eqb c "."%char); [eauto|].
  destruct (split_dot rest); eauto.
Qed.

Lemma join_cons sep x y rest :
  join sep (x :: y :: rest) = x +:+ sep +:+ join sep (y :: rest).
Proof. reflexivity. Qed.

Lemma join_split_dot s : join "." (split_dot s) = s.
Proof.
  induction s as [|c rest IH]; [reflexivity|]. simpl.
  destruct (split_dot_cons rest) as [part [parts Hrest]]. rewrite Hrest in *.
  destruct (Ascii.eqb c "."%char) eqn:Hc.
  - apply Ascii.eqb_eq in Hc. subst c. rewrite join_cons, IH. reflexivity.
  - destruct parts as [|y parts'].
    + simpl in *. rewrite IH. reflexivity.
    + rewrite join_cons. rewrite join_cons in IH.
      transitivity (String c (part +:+ "." +:+ join "." (y :: parts'))); [reflexivity|].
      f_equal. exact IH.
Qed.

Lemma split_dot_prefix prefix rest :
  has_dot prefix = false ->
  split_dot (prefix +:+ "." +:+ rest) = prefix :: split_dot rest.
Proof.
  induction prefix as [|c p IH]; simpl; intros Hdot; [reflexivity|].
  apply orb_false_iff in Hdot as [Hc Hp]. rewrite Hc.
  change (String.app p (String "." rest)) with (p +:+ "." +:+ rest).
  rewrite (IH Hp). reflexivity.
Qed.

(** X14: the names [table_names] lists are the names the tables were
    written under: taking the schema prefix off a name that
    [prepend_schema] built gives the name back, dots in the name
    included, provided the schema itself holds no dot. *)
Theorem listed_name_of_prepended schema table_name :
  (forall prefix, schema = Some prefix -> has_dot prefix = false) ->
  listed_name schema (prepend_schema schema table_name) = table_name.
Proof.
  intros Hdot. unfold listed_name, prepend_schema.
  destruct (name_given schema) as [prefix|] eqn:Hgiven; [|reflexivity].
  assert (Hschema : schema = Some prefix).
  { unfold name_given in Hgiven. destruct schema as [p|]; [|discriminate].
    destruct (String.eqb p EmptyString); [discriminate|]. exact Hgiven. }
  rewrite (split_dot_prefix prefix table_name (Hdot prefix Hschema)). simpl.
  apply join_split_dot.
Qed.

Lemma listed_name_of_prepended_witness :
  listed_name (Some "clotho") (prepend_schema (Some "clotho") "Tool.Params")
  = "Tool.Params".
Proof.
  apply (listed_name_of_prepended (Some "clotho") "Tool.Params").
  intros prefix H. inversion H. reflexivity.
Defined.

(** ** Computations that only log *)

Lemma state_eta s :
  mkState (st_db s) (st_heap s) (st_shed s) (st_log s ++ [])%list
          (st_calls s) (st_uuids s) (st_ticks s) = s.
Proof. destruct s. simpl. rewrite List.app_nil_r. reflexivity. Qed.

Lemma only_logs_ret {A} (a : A) : only_logs (ret a).
Proof. intros s. exists []. symmetry. apply state_eta. Qed.

Lemma only_logs_raise {A} e : only_logs (@raise A e).
Proof. intros s. exists []. symmetry. apply state_eta. Qed.

Lemma only_logs_bind {A B} (m : M A) (k : A -> M B) :
  only_logs m -> (forall a, only_logs (k a)) -> only_logs (bind m k).
Proof.
  intros Hm Hk s. unfold bind. destruct (Hm s) as [records Hs].
  destruct (m s) as [[a|e] s1]; simpl in *.
  - destruct (Hk a s1) as [more Hs1]. exists (records ++ more)%list.
    rewrite Hs1, Hs. simpl. rewrite List.app_assoc. reflexivity.
  - exists records. exact Hs.
Qed.

Lemma only_logs_log lvl msg : only_logs (log lvl msg).
Proof. intros s. exists [(lvl, msg)]. reflexivity. Qed.

Lemma only_logs_lift_result {A} (r : result A) : only_logs (lift_result r).
Proof.
  intros s. unfold lift_result. destruct r as [a|e]; simpl.
  - exists []. symmetry. apply state_eta.
  - destruct (logged e) as [m|].
    + exists [(ERROR, m)]. reflexivity.
    + exists []. symmetry. apply state_eta.
Qed.

Lemma only_logs_raise_error {A} msg error_class : only_logs (@raise_error A msg error_class).
Proof. apply only_logs_lift_result. Qed.

Lemma only_logs_getitem k d : only_logs (getitem k d).
Proof.
  unfold getitem. destruct (dict_get k d); [apply only_logs_ret|apply only_logs_raise].
Qed.

Lemma only_logs_m_get table_name q : only_logs (m_get table_name q).
Proof. intros s. exists []. symmetry. apply state_eta. Qed.

Lemma only_logs_m_get_row table_name key v : only_logs (m_get_row table_name key v).
Proof. intros s. apply (only_logs_lift_result (get_row (st_db s) table_name key v)). Qed.

Lemma only_logs_m_get_row_insensitive table_name key v :
  only_logs (m_get_row_insensitive table_name key v).
Proof.
  intros s. apply (only_logs_lift_result (get_row_insensitive (st_db s) table_name key v)).
Qed.

Lemma only_logs_m_fill_config table_name id_column config id name_column :
  only_logs (m_fill_config table_name id_column config id name_column).
Proof.
  intros s.
  apply (only_logs_lift_result
           (fill_config (st_db s) table_name id_column config id name_column)).
Qed.

Lemma only_logs_column_of df attr : only_logs (column_of df attr).
Proof.
  unfold column_of. destruct df as [df|]; [|apply only_logs_raise].
  destruct (mem_string attr (t_columns df)); [apply only_logs_ret|apply only_logs_raise].
Qed.

Lemma only_logs_mapM {A B} (f : A -> M B) l :
  (forall x, only_logs (f x)) -> only_logs (mapM f l).
Proof.
  intros Hf. induction l as [|x rest IH]; simpl; [apply only_logs_ret|].
  apply only_logs_bind; [apply Hf|]. intros y.
  apply only_logs_bind; [apply IH|]. intros ys. apply only_logs_ret.
Qed.

Ltac only_logs_step :=
  lazymatch goal with
  | |- only_logs (ret _) => apply only_logs_ret
  | |- only_logs (raise _) => apply only_logs_raise
  | |- only_logs (log _ _) => apply only_logs_log
  | |- only_logs (raise_error _ _) => apply only_logs_raise_error
  | |- only_logs (getitem _ _) => apply only_logs_getitem
  | |- only_logs (m_get _ _) => apply only_logs_m_get
  | |- only_logs (m_get_row _ _ _) => apply only_logs_m_get_row
  | |- only_logs (m_get_row_insensitive _ _ _) => apply only_logs_m_get_row_insensitive
  | |- only_logs (m_fill_config _ _ _ _ _) => apply only_logs_m_fill_config
  | |- only_logs (column_of _ _) => apply only_logs_column_of
  | |- only_logs (bind _ _) => apply only_logs_bind; [|intros ?]
  | |- only_logs (mapM _ _) => apply only_logs_mapM; intros ?
  | |- only_logs (if ?b then _ else _) => destruct b
  | |- only_logs (match ?x with _ => _ end) => destruct x
  | |- only_logs (let _ := _ in _) => cbv zeta
  end.

Ltac only_logs_all := repeat only_logs_step.

Lemma only_logs_init_parent r : only_logs (init_parent r).
Proof. unfold init_parent. only_logs_all. Qed.

Lemma only_logs_Resource_new config id shed : only_logs (Resource_new config id shed).
Proof.
  unfold Resource_new, Resource_configure.
  only_logs_all; apply only_logs_init_parent.
Qed.

Lemma only_logs_configure_by_name config cfg tool_id :
  only_logs (configure_by_name config cfg tool_id).
Proof. unfold configure_by_name. only_logs_all. Qed.

Lemma only_logs_ToolParam_new config id shed : only_logs (ToolParam_new config id shed).
Proof.
  unfold ToolParam_new. only_logs_all; apply only_logs_configure_by_name.
Qed.

Lemma only_logs_init_predecessors self_id : only_logs (init_predecessors self_id).
Proof. unfold init_predecessors. only_logs_all. Qed.

Lemma only_logs_init_outputs self_id : only_logs (init_outputs self_id).
Proof. unfold init_outputs. only_logs_all. Qed.

Lemma only_logs_init_params self_id shed : only_logs (init_params self_id shed).
Proof.
  unfold init_params. only_logs_all; apply only_logs_ToolParam_new.
Qed.

Lemma only_logs_Tool_new id shed : only_logs (Tool_new id shed).
Proof.
  unfold Tool_new.
  apply only_logs_bind; [apply only_logs_m_fill_config|]. intros cfg.
  apply only_logs_bind; [apply only_logs_init_predecessors|]. intros preds.
  apply only_logs_bind; [apply only_logs_init_outputs|]. intros outs.
  apply only_logs_bind; [apply only_logs_init_params|]. intros ps.
  apply only_logs_ret.
Qed.

(** X15: building a [Resource], a [ToolParam] or a [Tool] out of the
    store reads the store and may write to the log; it leaves the
    tables, the cached resources and everything else as they were,
    whether it returns the object or raises. *)
Theorem construction_only_logs :
  (forall config id shed, only_logs (Resource_new config id shed)) /\
  (forall config id shed, only_logs (ToolParam_new config id shed)) /\
  (forall id shed, only_logs (Tool_new id shed)).
Proof.
  split; [exact only_logs_Resource_new|].
  split; [exact only_logs_ToolParam_new|exact only_logs_Tool_new].
Qed.

(** ** Computations that read the store *)

Lemma only_logs_reads_store {A} (m : M A) : only_logs m -> reads_store m.
Proof.
  intros Hm s. destruct (Hm s) as [records ->]. simpl. repeat split.
Qed.

Lemma reads_store_bind {A B} (m : M A) (k : A -> M B) :
  reads_store m -> (forall a, reads_store (k a)) -> reads_store (bind m k).
Proof.
  intros Hm Hk s. unfold bind. destruct (Hm s) as [Hdb [Hcalls [Huuids Hticks]]].
  destruct (m s) as [[a|e] s1]; simpl in *.
  - destruct (Hk a s1) as [Hdb1 [Hcalls1 [Huuids1 Hticks1]]].
    repeat split; congruence.
  - repeat split; assumption.
Qed.

Lemma reads_store_deref l : reads_store (deref l).
Proof.
  intros s. unfold deref. destruct (st_heap s !! l); simpl; repeat split.
Qed.

Lemma reads_store_cache name r : reads_store (cache name r).
Proof. intros s. unfold cache. simpl. repeat split. Qed.

Lemma reads_store_shed_get name : reads_store (shed_get name).
Proof.
  intros s. unfold shed_get. destruct (vdict_get name (st_shed s)).
  - simpl. repeat split.
  - apply (reads_store_bind (Resource_new (Some [("Name", name)]) VNone true)
                            (fun resource => cache name resource)).
    + apply only_logs_reads_store. apply only_logs_Resource_new.
    + intros r. apply reads_store_cache.
Qed.

Lemma reads_store_get_parent r parent_row : reads_store (get_parent r parent_row).
Proof.
  unfold get_parent. destruct (r_shed r).
  - apply reads_store_bind; [apply only_logs_reads_store, only_logs_getitem|].
    intros name. apply reads_store_bind; [apply reads_store_shed_get|].
    intros l. apply reads_store_deref.
  - apply reads_store_bind; [apply only_logs_reads_store, only_logs_getitem|].
    intros id. apply only_logs_reads_store. apply only_logs_Resource_new.
Qed.

Lemma only_logs_py_add a b : only_logs (py_add a b).
Proof. unfold py_add. only_logs_all. Qed.

Lemma reads_store_Resource_path fuel : forall r, reads_store (Resource_path fuel r).
Proof.
  induction fuel as [|fuel IH]; intros r; simpl.
  - apply only_logs_reads_store. apply only_logs_raise.
  - destruct (row_given (r_parent_row r)) as [parent_row|];
      [|apply only_logs_reads_store, only_logs_ret].
    apply reads_store_bind; [apply reads_store_get_parent|]. intros parent.
    apply reads_store_bind; [apply IH|]. intros parent_path.
    destruct (is_none parent_path); [apply only_logs_reads_store, only_logs_ret|].
    destruct (is_none _); [apply only_logs_reads_store, only_logs_ret|].
    apply reads_store_bind; [apply IH|]. intros again.
    apply only_logs_reads_store.
    apply only_logs_bind; [apply only_logs_py_add|]. intros prefix.
    apply only_logs_py_add.
Qed.

Lemma reads_store_get_resource p : reads_store (get_resource p).
Proof.
  unfold get_resource. destruct (negb _); [apply only_logs_reads_store, only_logs_ret|].
  destruct (p_shed p).
  - apply reads_store_bind; [apply reads_store_shed_get|]. intros l.
    apply only_logs_reads_store, only_logs_ret.
  - apply only_logs_reads_store.
    apply only_logs_bind; [apply only_logs_Resource_new|]. intros r. apply only_logs_ret.
Qed.

Lemma reads_store_value_get fuel p : reads_store (value_get fuel p).
Proof.
  unfold value_get. apply reads_store_bind; [apply reads_store_get_resource|].
  intros [[l|r]|].
  - apply reads_store_bind; [apply reads_store_deref|]. intros r.
    apply reads_store_Resource_path.
  - apply reads_store_Resource_path.
  - apply only_logs_reads_store, only_logs_ret.
Qed.

(** A resource built without a shed has none. *)
Lemma init_parent_shed r s r' s' :
  init_parent r s = (Ok r', s') -> r_shed r' = r_shed r.
Proof.
  unfold init_parent. destruct (negb _).
  - intros H. inversion H. reflexivity.
  - intros H. apply bind_inv in H as [found [s1 [_ H]]].
    apply bind_inv in H as [found' [s2 [_ H]]].
    destruct (row_given found') as [pr|].
    + apply bind_inv in H as [parent_id [s3 [_ H]]]. inversion H. reflexivity.
    + apply bind_inv in H as [[] [s3 [_ H]]]. inversion H. reflexivity.
Qed.

Lemma Resource_new_shed config id shed s r s' :
  Resource_new config id shed s = (Ok r, s') -> r_shed r = shed.
Proof.
  unfold Resource_new, Resource_configure. intros H.
  apply bind_inv in H as [filled [s1 [_ H]]].
  destruct (py_truthy _).
  - apply init_parent_shed in H. exact H.
  - apply bind_inv in H as [by_name [s2 [_ H]]].
    apply init_parent_shed in H. exact H.
Qed.

Lemma only_logs_bind_with {A B} (P : A -> Prop) (m : M A) (k : A -> M B) :
  only_logs m ->
  (forall s a s', m s = (Ok a, s') -> P a) ->
  (forall a, P a -> only_logs (k a)) ->
  only_logs (bind m k).
Proof.
  intros Hm HP Hk s. unfold bind. destruct (Hm s) as [records Hs].
  destruct (m s) as [[a|e] s1] eqn:Hms; simpl in *.
  - destruct (Hk a (HP s a s1 Hms) s1) as [more Hs1]. exists (records ++ more)%list.
    rewrite Hs1, Hs. simpl. rewrite List.app_assoc. reflexivity.
  - exists records. exact Hs.
Qed.

Lemma only_logs_Resource_path fuel : forall r,
  r_shed r = false -> only_logs (Resource_path fuel r).
Proof.
  induction fuel as [|fuel IH]; intros r Hshed; simpl; [apply only_logs_raise|].
  destruct (row_given (r_parent_row r)) as [parent_row|]; [|apply only_logs_ret].
  apply (only_logs_bind_with (fun parent => r_shed parent = false)).
  - unfold get_parent. rewrite Hshed.
    apply only_logs_bind; [apply only_logs_getitem|]. intros id.
    apply only_logs_Resource_new.
  - intros s parent s' H. unfold get_parent in H. rewrite Hshed in H.
    apply bind_inv in H as [id [s1 [_ H]]].
    apply (Resource_new_shed _ _ _ _ _ _ H).
  - intros parent Hparent.
    apply only_logs_bind; [apply IH; exact Hparent|]. intros parent_path.
    destruct (is_none parent_path); [apply only_logs_ret|].
    destruct (is_none _); [apply only_logs_ret|].
    apply only_logs_bind; [apply IH; exact Hparent|]. intros again.
    apply only_logs_bind; [apply only_logs_py_add|]. intros prefix.
    apply only_logs_py_add.
Qed.

(** X16: reading the [path] of a resource, or the [value] of a
    parameter, never writes to the tables, calls no target and issues
    no identifier, however long the chain of parents; what it may do is
    cache the parents in the shed and log.  For a resource that has no
    shed it does nothing but log. *)
Theorem path_reads_the_store :
  (forall fuel r, reads_store (Resource_path fuel r)) /\
  (forall fuel p, reads_store (value_get fuel p)) /\
  (forall fuel r, r_shed r = false -> only_logs (Resource_path fuel r)).
Proof.
  split; [intros fuel r; apply reads_store_Resource_path|].
  split; [intros fuel p; apply reads_store_value_get|].
  intros fuel r. apply only_logs_Resource_path.
Qed.

Lemma path_reads_the_store_witness :
  only_logs (Resource_path 5 (mkResource [("Path", VStr "asdf")] None false)).
Proof.
  apply (proj2 (proj2 path_reads_the_store) 5%nat
               (mkResource [("Path", VStr "asdf")] None false)).
  reflexivity.
Defined.

(** ** Further properties of parameters *)

Lemma dget_remove_ne k k' d : k <> k' -> dget k (dict_remove k' d) = dget k d.
Proof.
  intros Hne. unfold dget. induction d as [|[k0 v0] rest IH]; simpl; [reflexivity|].
  destruct (String.eqb k0 k') eqn:E'.
  - apply String.eqb_eq in E'. subst k0.
    destruct (String.eqb k' k) eqn:E; [|reflexivity].
    apply String.eqb_eq in E. congruence.
  - simpl. destruct (String.eqb k0 k); [reflexivity|exact IH].
Qed.

Lemma getitem_inv k d v s s1 : getitem k d s = (Ok v, s1) -> v = dget k d /\ s1 = s.
Proof.
  unfold getitem, dget. destruct (dict_get k d); intros H; inversion H. auto.
Qed.

(** X17: a parameter that [ToolParam] builds always has [IsInput] set:
    a parameter is an input unless it says otherwise.  When the record
    that [fill_config] resolves has an identifier, or no tool, the
    parameter is that record: its name is the [Name] of the record,
    which leaves the configuration; its [IsInput] is that of the
    record, or [True] where the record has null; its other fields are
    those of the record; and nothing but the parameter was built. *)
Theorem ToolParam_new_is_input_set config id shed s p s' :
  ToolParam_new config id shed s = (Ok p, s') ->
  exists cfg,
    fill_config (st_db s) "ToolParams" "ParamID" config id None = Ok cfg /\
    is_none (is_input p) = false /\
    p_shed p = shed /\
    (py_truthy (dget "ParamID" cfg) = true \/ py_truthy (dget "ToolID" cfg) = false ->
     s' = s /\
     p_name p = dget "Name" cfg /\
     is_input p = (if is_none (dget "IsInput" cfg) then VBool true else dget "IsInput" cfg) /\
     forall k, k <> "Name" -> k <> "IsInput" -> dget k (p_config p) = dget k cfg).
Proof.
  unfold ToolParam_new. intros H.
  apply bind_inv in H as [cfg [s1 [Hfill H]]].
  unfold m_fill_config, lift_result in Hfill.
  destruct (fill_config (st_db s) "ToolParams" "ParamID" config id None) as [cfg0|e] eqn:Hf;
    [|destruct (logged e); discriminate].
  inversion Hfill; subst cfg0 s1. clear Hfill.
  apply bind_inv in H as [pid [s2 [Hpid H]]].
  apply getitem_inv in Hpid as [-> ->].
  apply bind_inv in H as [cfg' [s3 [Hcfg' H]]].
  apply bind_inv in H as [name [s4 [Hname H]]].
  apply getitem_inv in Hname as [-> ->].
  inversion H; subst p s'; clear H. unfold is_input. simpl.
  exists cfg. split; [reflexivity|]. split; [|split; [reflexivity|]].
  - destruct (is_none (dget "IsInput" (dict_remove "Name" cfg'))) eqn:Hnone.
    + rewrite dget_set_eq. reflexivity.
    + exact Hnone.
  - intros Hcase.
    assert (Hsame : cfg' = cfg /\ s3 = s).
    { destruct Hcase as [Hp|Ht].
      - rewrite Hp in Hcfg'. inversion Hcfg'. auto.
      - destruct (py_truthy (dget "ParamID" cfg)); [inversion Hcfg'; auto|].
        apply bind_inv in Hcfg' as [tid [s5 [Htid Hcfg']]].
        apply getitem_inv in Htid as [-> ->].
        rewrite Ht in Hcfg'. inversion Hcfg'. auto. }
    destruct Hsame as [-> ->].
    split; [reflexivity|]. split; [reflexivity|].
    assert (Hin : dget "IsInput" (dict_remove "Name" cfg) = dget "IsInput" cfg)
      by (apply dget_remove_ne; discriminate).
    rewrite Hin. split.
    + destruct (is_none (dget "IsInput" cfg)); [apply dget_set_eq|exact Hin].
    + intros k Hk1 Hk2.
      destruct (is_none (dget "IsInput" cfg)).
      * rewrite dget_set_ne by exact Hk2. apply dget_remove_ne. exact Hk1.
      * apply dget_remove_ne. exact Hk1.
Qed.

Lemma ToolParam_new_is_input_set_witness :
  exists p s',
    ToolParam_new (Some [("Name", VStr "overwrite"); ("Value", VStr "true")]) VNone false
                  (store_state empty_store) = (Ok p, s') /\
    is_input p = VBool true /\
    p_name p = VStr "overwrite" /\
    dget "Value" (p_config p) = VStr "true".
Proof.
  assert (H : exists p s',
             ToolParam_new (Some [("Name", VStr "overwrite"); ("Value", VStr "true")])
                           VNone false (store_state empty_store) = (Ok p, s')).
  { eexists. eexists. vm_compute. reflexivity. }
  destruct H as [p [s' H]]. exists p, s'. split; [exact H|].
  destruct (ToolParam_new_is_input_set _ _ _ _ _ _ H) as [cfg [Hcfg [_ [_ Hrest]]]].
  vm_compute in Hcfg. inversion Hcfg; subst cfg. clear Hcfg.
  destruct Hrest as [_ [Hname [Hinput Hother]]]; [right; reflexivity|].
  split; [exact Hinput|]. split; [exact Hname|].
  apply (Hother "Value"); discriminate.
Defined.

Lemma shed_get_bound name s l s1 :
  shed_get name s = (Ok l, s1) -> vdict_get name (st_shed s1) = Some l.
Proof.
  unfold shed_get. destruct (vdict_get name (st_shed s)) as [l0|] eqn:Hs.
  - intros H. inversion H; subst. exact Hs.
  - intros H. apply bind_inv in H as [r [s0 [_ H]]].
    unfold cache in H. inversion H; subst. simpl. apply vdict_get_set_eq.
Qed.

(** X18: what [value] reads after [value] was set.  A parameter that
    is not a resource reads the value back.  A resource parameter with
    a shed writes the value into the [Path] of the resource the shed
    holds under its name, where every other holder of the name finds
    it.  A resource parameter without a shed builds a resource for the
    occasion and drops it: setting its value changes neither the
    parameter nor anything else but the log. *)
Theorem value_set_then_get :
  (forall fuel p val s,
     py_truthy (dget "IsResource" (p_config p)) = false ->
     exists p',
       value_set p val s = (Ok p', s) /\
       value_get fuel p' s = (Ok val, s) /\
       p_name p' = p_name p) /\
  (forall p val s p' s1,
     py_truthy (dget "IsResource" (p_config p)) = true ->
     p_shed p = true ->
     value_set p val s = (Ok p', s1) ->
     p' = p /\
     exists l r,
       shed_get (dget "Value" (p_config p)) s1 = (Ok l, s1) /\
       st_heap s1 !! l = Some r /\
       dget "Path" (r_config r) = val) /\
  (forall p val,
     py_truthy (dget "IsResource" (p_config p)) = true ->
     p_shed p = false ->
     only_logs (value_set p val) /\
     forall s p' s1, value_set p val s = (Ok p', s1) -> p' = p).
Proof.
  split; [|split].
  - intros fuel p val s Hres.
    exists (mkToolParam (dict_set "Value" val (p_config p)) (p_name p) (p_shed p)).
    split; [|split; [|reflexivity]].
    + unfold value_set, get_resource. rewrite Hres. reflexivity.
    + rewrite value_get_literal.
      * simpl. rewrite dget_set_eq. reflexivity.
      * simpl. rewrite dget_set_ne by discriminate. exact Hres.
  - intros p val s p' s1 Hres Hshed H.
    unfold value_set, get_resource in H. rewrite Hres, Hshed in H. simpl in H.
    apply bind_inv in H as [resource [s0 [Hget H]]].
    apply bind_inv in Hget as [l [s0' [Hshed_get Hret]]].
    inversion Hret; subst resource s0'; clear Hret.
    apply bind_inv in H as [[] [s2 [Hset H]]].
    inversion H; subst p' s2; clear H.
    split; [reflexivity|].
    unfold set_path in Hset.
    destruct (st_heap s0 !! l) as [r0|] eqn:Hl; [|discriminate].
    inversion Hset; subst s1; clear Hset.
    exists l, (with_path r0 val). split; [|split].
    + apply shed_get_hit. simpl. apply (shed_get_bound _ _ _ _ Hshed_get).
    + simpl. apply list_lookup_insert_eq. apply (lookup_lt_Some _ _ _ Hl).
    + simpl. apply dget_set_eq.
  - intros p val Hres Hshed. split.
    + unfold value_set, get_resource. rewrite Hres, Hshed. simpl.
      apply (only_logs_bind_with (fun resource => exists r, resource = Some (Fresh r))).
      * apply only_logs_bind; [apply only_logs_Resource_new|].
        intros r. apply only_logs_ret.
      * intros s resource s1 H. apply bind_inv in H as [r [s0 [_ H]]].
        inversion H. eauto.
      * intros resource [r ->]. apply only_logs_ret.
    + intros s p' s1 H. unfold value_set, get_resource in H.
      rewrite Hres, Hshed in H. simpl in H.
      apply bind_inv in H as [resource [s0 [Hget H]]].
      apply bind_inv in Hget as [r [s0' [_ Hret]]].
      inversion Hret; subst. inversion H. reflexivity.
Qed.

Lemma value_set_then_get_witness :
  exists p',
    value_set (mkToolParam [("Value", VStr "old")] (VStr "depth") false) (VInt 3)
              (store_state empty_store)
    = (Ok p', store_state empty_store) /\
    value_get 3 p' (store_state empty_store) = (Ok (VInt 3), store_state empty_store) /\
    p_name p' = VStr "depth".
Proof.
  apply (proj1 value_set_then_get 3%nat
               (mkToolParam [("Value", VStr "old")] (VStr "depth") false) (VInt 3)
               (store_state empty_store)).
  reflexivity.
Defined.

(** ** Further properties of tools *)

(** X19: a tool that has no [Path] cannot be run: [run] raises
    [ClothoToolError], having logged the message, before it builds
    or runs any predecessor and before it writes anything. *)
Theorem run_without_path env fuel self kwargs s :
  is_none (tool_path self) = true ->
  exists msg,
    run env (S fuel) self kwargs s = (Raise (ClothoToolError msg), add_log ERROR msg s).
Proof.
  intros Hpath. simpl. unfold prepare. rewrite Hpath.
  eexists. reflexivity.
Qed.

Lemma run_without_path_witness :
  exists msg,
    run example_host 3 (mkTool [("ToolID", VStr "t9"); ("Name", VStr "Plot")] [] [] []
                               None false)
        [] (store_state empty_store)
    = (Raise (ClothoToolError msg), add_log ERROR msg (store_state empty_store)).
Proof.
  apply (run_without_path example_host 2
           (mkTool [("ToolID", VStr "t9"); ("Name", VStr "Plot")] [] [] [] None false)).
  reflexivity.
Defined.

Lemma collect_distinct names : forall acc,
  distinct_keys acc ->
  distinct_keys (fold_left (fun acc db_name =>
                              if py_in db_name acc then acc else (acc ++ [db_name])%list)
                           names acc).
Proof.
  induction names as [|n rest IH]; intros acc Hacc; simpl; [exact Hacc|].
  apply IH. destruct (py_in n acc) eqn:Hin; [exact Hacc|].
  apply distinct_app_one; [exact Hacc|].
  rewrite existsb_sym. exact Hin.
Qed.

(** X20: the output names of a tool built from the store are distinct:
    a name that several rows of [ToolOutputs] give the tool is taken
    once. *)
Theorem Tool_new_outputs_distinct id shed s t s' :
  Tool_new id shed s = (Ok t, s') -> distinct_keys (outputs t).
Proof.
  unfold Tool_new. intros H.
  apply bind_inv in H as [cfg [s1 [_ H]]].
  apply bind_inv in H as [preds [s2 [_ H]]].
  apply bind_inv in H as [outs [s3 [Houts H]]].
  apply bind_inv in H as [ps [s4 [_ H]]].
  inversion H; subst; clear H. simpl.
  unfold init_outputs in Houts.
  apply bind_inv in Houts as [output_rows [s5 [_ Houts]]].
  destruct output_rows as [df|]; [|discriminate].
  destruct (negb _); [discriminate|].
  apply bind_inv in Houts as [names [s6 [_ Houts]]].
  inversion Houts. apply collect_distinct. exact I.
Qed.

Lemma Tool_new_outputs_distinct_witness :
  exists t s',
    Tool_new (VStr "p1") false (store_state outputs_store) = (Ok t, s') /\
    outputs t = [VStr "rows"; VStr "count"] /\
    distinct_keys (outputs t).
Proof.
  assert (H : exists t s',
             Tool_new (VStr "p1") false (store_state outputs_store) = (Ok t, s') /\
             outputs t = [VStr "rows"; VStr "count"]).
  { eexists. eexists. split; vm_compute; reflexivity. }
  destruct H as [t [s' [H Houts]]]. exists t, s'.
  split; [exact H|]. split; [exact Houts|].
  apply (Tool_new_outputs_distinct _ _ _ _ _ H).
Defined.

Lemma mapM_first_raise {A B} (f : A -> M B) before x after s e s' :
  (forall a, In a before -> exists b, f a s = (Ok b, s)) ->
  f x s = (Raise e, s') ->
  mapM f (before ++ x :: after)%list s = (Raise e, s').
Proof.
  induction before as [|a rest IH]; simpl; intros Hbefore Hx.
  - unfold bind. rewrite Hx. reflexivity.
  - destruct (Hbefore a (or_introl eq_refl)) as [b Hb].
    rewrite (bind_ok _ _ _ _ _ Hb).
    unfold bind at 1. rewrite IH; [reflexivity| |exact Hx].
    intros a' Ha'. apply Hbefore. right. exact Ha'.
Qed.

(** X21: a tool cannot be built while the store records for it a
    predecessor that is not among the tools: the first such identifier
    makes the constructor raise [ClothoToolError], the message logged
    and the store as it was. *)
Theorem Tool_new_dangling_predecessor id shed s cfg t before pred_id after :
  fill_config (st_db s) "Tools" "ToolID" None id (Some "Name") = Ok cfg ->
  py_truthy (dget "ToolID" cfg) = true ->
  db_get (st_db s) "ToolPredecessors" (by_tool_id (dget "ToolID" cfg)) = Some t ->
  mem_string "PredecessorID" (t_columns t) = true ->
  map (dget "PredecessorID") (t_rows t) = (before ++ pred_id :: after)%list ->
  (forall p, In p before ->
             py_truthy p = false \/
             exists tool_row, get_row (st_db s) "Tools" "ToolID" p = Ok (Some tool_row)) ->
  py_truthy pred_id = true ->
  get_row (st_db s) "Tools" "ToolID" pred_id = Ok None ->
  exists msg,
    Tool_new id shed s = (Raise (ClothoToolError msg), add_log ERROR msg s).
Proof.
  intros Hfill Hid Hrows Hcol Hpreds Hbefore Htrue Hgone.
  unfold Tool_new.
  assert (Hfill' : m_fill_config "Tools" "ToolID" None id (Some "Name") s = (Ok cfg, s)).
  { unfold m_fill_config. rewrite Hfill. reflexivity. }
  rewrite (bind_ok _ _ _ _ _ Hfill').
  eexists. apply bind_raise.
  unfold init_predecessors. rewrite Hid. change (negb true) with false. cbv iota.
  assert (Hget : m_get "ToolPredecessors" (by_tool_id (dget "ToolID" cfg)) s = (Ok (Some t), s)).
  { unfold m_get. rewrite Hrows. reflexivity. }
  rewrite (bind_ok _ _ _ _ _ Hget).
  assert (Hcolumn : column_of (Some t) "PredecessorID" s
                    = (Ok (before ++ pred_id :: after)%list, s)).
  { unfold column_of. rewrite Hcol, Hpreds. reflexivity. }
  rewrite (bind_ok _ _ _ _ _ Hcolumn).
  apply bind_raise. apply mapM_first_raise.
  - intros p Hp. destruct (Hbefore p Hp) as [Hfalse|[tool_row Hrow]].
    + rewrite Hfalse. simpl. eauto.
    + destruct (py_truthy p); simpl; [|eauto].
      unfold bind, m_get_row. rewrite Hrow. simpl. eauto.
  - rewrite Htrue. simpl. unfold bind, m_get_row. rewrite Hgone. simpl. reflexivity.
Qed.

Lemma Tool_new_dangling_predecessor_witness :
  exists msg,
    Tool_new (VStr "p1") false (store_state dangling_store)
    = (Raise (ClothoToolError msg), add_log ERROR msg (store_state dangling_store)).
Proof.
  apply (Tool_new_dangling_predecessor (VStr "p1") false (store_state dangling_store)
           [("ToolID", VStr "p1"); ("Name", VStr "Get Data"); ("Path", VStr "jobs.broken")]
           (mkTable ["RelationshipID"; "ToolID"; "PredecessorID"]
              [[("RelationshipID", VStr "rel1"); ("ToolID", VStr "p1");
                ("PredecessorID", VStr "gone")]])
           [] (VStr "gone") []).
  - vm_compute. reflexivity.
  - reflexivity.
  - vm_compute. reflexivity.
  - reflexivity.
  - reflexivity.
  - intros p [].
  - reflexivity.
  - vm_compute. reflexivity.
Defined.

(** ** Deleting a tool *)

Lemma m_delete_row_ok table_name key v s t :
  st_db s !! table_name = Some t ->
  mem_string key (t_columns t) = true ->
  literal_value v = true ->
  m_delete_row table_name key v s
  = (Ok tt,
     set_db (<[table_name := mkTable (t_columns t) (kept_rows key v (t_rows t))]> (st_db s))
            s).
Proof.
  intros Ht Hcol Hv.
  destruct (literal_value_inv v Hv) as [lit [Hq [Hsql _]]].
  unfold m_delete_row, db_delete_row. rewrite Ht, Hq, Hcol.
  unfold kept_rows.
  rewrite (List.filter_ext (fun r => negb (matches_exact key v r))
                           (fun r => negb (sql_eqb (dget key r) lit))).
  - reflexivity.
  - intros r. unfold matches_exact. rewrite Hsql. reflexivity.
Qed.

(** X22: [Tool.delete] takes the rows that carry the identifier of the
    tool out of the four tables that describe a tool, and touches
    nothing else: the rows of other tools, in their order, the other
    tables, the cached resources and the log are as they were.  Rows
    that name the tool as the predecessor of another tool are among
    those kept.  A tool that has no identifier is not in the store:
    the deletion logs that and does nothing. *)
Theorem Tool_delete_removes_its_rows t s :
  (py_truthy (tool_id t) = false ->
   Tool_delete t s = (Ok tt, add_log INFO (not_in_database t) s)) /\
  (py_truthy (tool_id t) = true ->
   literal_value (tool_id t) = true ->
   (forall table_name, In table_name tool_tables ->
                       table_with_column (st_db s) table_name "ToolID") ->
   exists s',
     Tool_delete t s = (Ok tt, s') /\
     (forall table_name,
        In table_name tool_tables ->
        rows_of (st_db s') table_name
        = kept_rows "ToolID" (tool_id t) (rows_of (st_db s) table_name)) /\
     (forall other, ~ In other tool_tables -> st_db s' !! other = st_db s !! other) /\
     st_heap s' = st_heap s /\ st_shed s' = st_shed s /\ st_log s' = st_log s).
Proof.
  split.
  - intros Hid. unfold Tool_delete. rewrite Hid. reflexivity.
  - intros Hid Hlit Htables. unfold Tool_delete. rewrite Hid.
    change (negb true) with false. cbv iota.
    destruct (Htables "Tools") as [t1 [H1 C1]]; [simpl; auto|].
    destruct (Htables "ToolParams") as [t2 [H2 C2]]; [simpl; auto|].
    destruct (Htables "ToolOutputs") as [t3 [H3 C3]]; [simpl; auto|].
    destruct (Htables "ToolPredecessors") as [t4 [H4 C4]]; [simpl; auto 6|].
    pose proof (m_delete_row_ok "Tools" "ToolID" (tool_id t) s t1 H1 C1 Hlit) as E1.
    match type of E1 with _ = (_, ?x) => set (s1 := x) in * end.
    assert (H2' : st_db s1 !! "ToolParams" = Some t2).
    { subst s1. simpl. rewrite lookup_insert_ne by discriminate. exact H2. }
    pose proof (m_delete_row_ok "ToolParams" "ToolID" (tool_id t) s1 t2 H2' C2 Hlit) as E2.
    match type of E2 with _ = (_, ?x) => set (s2 := x) in * end.
    assert (H3' : st_db s2 !! "ToolOutputs" = Some t3).
    { subst s2 s1. simpl. rewrite !lookup_insert_ne by discriminate. exact H3. }
    pose proof (m_delete_row_ok "ToolOutputs" "ToolID" (tool_id t) s2 t3 H3' C3 Hlit) as E3.
    match type of E3 with _ = (_, ?x) => set (s3 := x) in * end.
    assert (H4' : st_db s3 !! "ToolPredecessors" = Some t4).
    { subst s3 s2 s1. simpl. rewrite !lookup_insert_ne by discriminate. exact H4. }
    pose proof (m_delete_row_ok "ToolPredecessors" "ToolID" (tool_id t) s3 t4 H4' C4 Hlit)
      as E4.
    rewrite (bind_ok _ _ _ _ _ E1), (bind_ok _ _ _ _ _ E2), (bind_ok _ _ _ _ _ E3), E4.
    subst s3 s2 s1.
    eexists. split; [reflexivity|]. simpl.
    split; [|split; [|repeat split]].
    + intros table_name Hin. unfold rows_of.
      destruct Hin as [<-|[<-|[<-|[<-|[]]]]].
      * rewrite !lookup_insert_ne by discriminate. rewrite lookup_insert_eq, H1. reflexivity.
      * rewrite !lookup_insert_ne by discriminate. rewrite lookup_insert_eq, H2. reflexivity.
      * rewrite !lookup_insert_ne by discriminate. rewrite lookup_insert_eq, H3. reflexivity.
      * rewrite lookup_insert_eq, H4. reflexivity.
    + intros other Hother.
      rewrite !lookup_insert_ne; [reflexivity| | | |];
        intros <-; apply Hother; simpl; auto 6.
Qed.

Lemma Tool_delete_removes_its_rows_witness :
  exists s',
    Tool_delete (mkTool [("ToolID", VStr "p1"); ("Name", VStr "Get Data")] [] [] []
                        None false)
                (store_state dangling_store) = (Ok tt, s') /\
    rows_of (st_db s') "Tools" = [] /\
    rows_of (st_db s') "ToolPredecessors" = [].
Proof.
  destruct (proj2 (Tool_delete_removes_its_rows
                     (mkTool [("ToolID", VStr "p1"); ("Name", VStr "Get Data")] [] [] []
                             None false)
                     (store_state dangling_store)) eq_refl eq_refl)
    as [s' [Hdel [Hrows _]]].
  - intros table_name [<-|[<-|[<-|[<-|[]]]]]; eexists; split; vm_compute; reflexivity.
  - exists s'. split; [exact Hdel|]. split.
    + rewrite (Hrows "Tools"); [reflexivity|simpl; auto].
    + rewrite (Hrows "ToolPredecessors"); [reflexivity|simpl; auto 6].
Defined.

(** ** The path of the target *)

Lemma rsplit_dot_none s : has_dot s = false -> rsplit_dot s = None.
Proof.
  induction s as [|c rest IH]; simpl; [reflexivity|].
  intros H. apply orb_false_iff in H as [Hc Hrest].
  rewrite (IH Hrest), Hc. reflexivity.
Qed.

Lemma rsplit_dot_cons c rest :
  rsplit_dot (String c rest)
  = match rsplit_dot rest with
    | Some (a, b) => Some (String c a, b)
    | None => if Ascii.eqb c "."%char then Some (EmptyString, rest) else None
    end.
Proof. reflexivity. Qed.

Lemma rsplit_dot_last mod_path func_name :
  has_dot func_name = false ->
  rsplit_dot (mod_path +:+ "." +:+ func_name) = Some (mod_path, func_name).
Proof.
  intros Hdot. induction mod_path as [|c rest IH].
  - change (EmptyString +:+ "." +:+ func_name) with (String "."%char func_name).
    rewrite rsplit_dot_cons, (rsplit_dot_none func_name Hdot). reflexivity.
  - change (String c rest +:+ "." +:+ func_name)
      with (String c (rest +:+ "." +:+ func_name)).
    rewrite rsplit_dot_cons, IH. reflexivity.
Qed.

(** X23: [run] splits the [Path] of the tool at its last dot: what is
    before it is the module it imports, what is after it the function
    it takes from the module.  A path that holds no dot raises
    [ValueError]. *)
Theorem target_path_splits_at_last_dot env :
  (forall path s,
     has_dot path = false ->
     exists msg, resolve_target env (VStr path) s = (Raise (ValueError msg), s)) /\
  (forall mod_path func_name s,
     has_dot func_name = false ->
     resolve_target env (VStr (mod_path +:+ "." +:+ func_name)) s
     = match import_function env mod_path func_name with
       | Some func => (Ok func, s)
       | None => (Raise (ImportError (mod_path +:+ "." +:+ func_name)), s)
       end).
Proof.
  split.
  - intros path s Hdot. unfold resolve_target. rewrite (rsplit_dot_none path Hdot).
    eexists. reflexivity.
  - intros mod_path func_name s Hdot. unfold resolve_target.
    rewrite (rsplit_dot_last mod_path func_name Hdot).
    destruct (import_function env mod_path func_name); reflexivity.
Qed.

Lemma target_path_splits_at_last_dot_witness :
  resolve_target (mkHost clotho_schema
                         (fun mod_path func_name =>
                            if String.eqb mod_path "pkg.jobs" && String.eqb func_name "one"
                            then Some (fun _ => Returns (VInt 5)) else None)
                         (fun n => Z.of_nat n) (fun _ => "t") (fun _ => "d"))
                 (VStr "pkg.jobs.one") (store_state empty_store)
  = (Ok (fun _ => Returns (VInt 5)), store_state empty_store).
Proof.
  apply (proj2 (target_path_splits_at_last_dot
                  (mkHost clotho_schema
                         (fun mod_path func_name =>
                            if String.eqb mod_path "pkg.jobs" && String.eqb func_name "one"
                            then Some (fun _ => Returns (VInt 5)) else None)
                         (fun n => Z.of_nat n) (fun _ => "t") (fun _ => "d")))
               "pkg.jobs" "one" (store_state empty_store)).
  reflexivity.
Defined.

(** ** Keyword arguments that name no parameter *)

Lemma mapM_snd_keys {K A B} (g : A -> M B) (l : list (K * A)) :
  forall s ps s',
    mapM (fun np => bind (g (snd np)) (fun p => ret (fst np, p))) l s = (Ok ps, s') ->
    map fst ps = map fst l.
Proof.
  induction l as [|[k a] rest IH]; simpl; intros s ps s' H.
  - inversion H. reflexivity.
  - apply bind_inv in H as [[k' b] [s1 [Hx H]]].
    apply bind_inv in H as [ys [s2 [Hrest H]]].
    inversion H; subst; clear H.
    apply bind_inv in Hx as [p [s3 [_ Hx]]]. inversion Hx; subst.
    simpl. f_equal. apply (IH _ _ _ Hrest).
Qed.

Section Arguments.
Variable env : host.

Lemma Tool_commit_param_names t s t' s' :
  Tool_commit env t s = (Ok t', s') -> map fst (params t') = map fst (params t).
Proof.
  unfold Tool_commit. intros H.
  apply bind_inv in H as [cfg [s1 [_ H]]].
  apply bind_inv in H as [[] [s2 [_ H]]].
  apply bind_inv in H as [ps [s3 [Hps H]]].
  apply bind_inv in H as [pred_rows [s4 [_ H]]].
  apply bind_inv in H as [db_preds [s5 [_ H]]].
  apply bind_inv in H as [[] [s6 [_ H]]].
  apply bind_inv in H as [output_rows [s7 [_ H]]].
  apply bind_inv in H as [[] [s8 [_ H]]].
  inversion H; subst; simpl.
  apply (mapM_snd_keys (fun p => ToolParam_commit env p (dget "ToolID" cfg)) _ _ _ _ Hps).
Qed.

(** X24: a keyword argument whose name is that of no parameter of
    the tool reaches the target as the caller gave it, and [run] adds
    no argument under such a name. *)
Theorem other_arguments_reach_the_target run_rec fuel self kwargs s self' activity_id
        func kw s0 name :
  prepare env run_rec fuel self kwargs s = (Ok (Some (self', activity_id, func, kw)), s0) ->
  existsb (py_eqb name) (map fst (params self)) = false ->
  vdict_get name kw = vdict_get name kwargs.
Proof.
  unfold prepare. intros H Hname.
  apply bind_inv in H as [[] [s1 [_ H]]].
  apply bind_inv in H as [preds [s2 [_ H]]].
  destruct preds as [[pred_outputs default_pred_name]|]; [|inversion H].
  apply bind_inv in H as [committed [s3 [Hcommit H]]].
  apply bind_inv in H as [aid [s4 [_ H]]].
  apply bind_inv in H as [[ps kw'] [s5 [Hupd H]]].
  apply bind_inv in H as [f [s6 [_ H]]].
  inversion H; subst; clear H. simpl.
  assert (Hkeys : map fst (params committed) = map fst (params self)).
  { destruct (negb (py_truthy (tool_id self))).
    - apply (Tool_commit_param_names _ _ _ _ Hcommit).
    - inversion Hcommit. reflexivity. }
  apply (update_inputs_other_key env fuel committed activity_id pred_outputs
           default_pred_name (params committed) name
           ltac:(rewrite Hkeys; exact Hname) _ _ _ _ _ Hupd).
Qed.
End Arguments.

Lemma other_arguments_reach_the_target_witness :
  exists self' activity_id func kw s0,
    prepare example_host (run example_host 2) 2 flag_tool
            [(VStr "depth", VInt 7)] (store_state empty_store)
    = (Ok (Some (self', activity_id, func, kw)), s0) /\
    vdict_get (VStr "depth") kw = Some (VInt 7).
Proof.
  assert (H : exists self' activity_id func kw s0,
             prepare example_host (run example_host 2) 2 flag_tool
                     [(VStr "depth", VInt 7)] (store_state empty_store)
             = (Ok (Some (self', activity_id, func, kw)), s0)).
  { do 5 eexists. vm_compute. reflexivity. }
  destruct H as [self' [activity_id [func [kw [s0 H]]]]].
  exists self', activity_id, func, kw, s0. split; [exact H|].
  apply (other_arguments_reach_the_target example_host _ _ _ _ _ _ _ _ _ _
           (VStr "depth") H).
  reflexivity.
Defined.

(** ** A run that succeeds *)

Lemma keeps_reads_store {A} t (m : M A) : reads_store m -> keeps_table t m.
Proof. intros Hm s. destruct (Hm s) as [-> _]. reflexivity. Qed.

Lemma keeps_set_path t l new_path : keeps_table t (set_path l new_path).
Proof. intros s. unfold set_path. destruct (st_heap s !! l); reflexivity. Qed.

Lemma keeps_value_set t p val : keeps_table t (value_set p val).
Proof.
  unfold value_set. apply keeps_bind.
  - apply keeps_reads_store. apply reads_store_get_resource.
  - intros [[l|r]|]; try apply keeps_ret.
    apply keeps_bind; [apply keeps_set_path|]. intros _. apply keeps_ret.
Qed.

Section Success.
Variable env : host.

Lemma keeps_record_io t p activity_id val tool_id :
  t <> "ToolParams" -> t <> "ActivityIO" ->
  keeps_table t (record_io env p activity_id val tool_id).
Proof.
  intros Hp Hio. unfold record_io. cbv zeta.
  apply keeps_bind.
  - destruct (is_none _); [apply keeps_lift_result|apply keeps_ret].
  - intros _. apply keeps_bind.
    + destruct (negb _); [apply keeps_ToolParam_commit; exact Hp|apply keeps_ret].
    + intros p'. apply keeps_bind; [apply keeps_uuid1|]. intros ioid.
      apply keeps_bind; [apply keeps_m_set_row; exact Hio|]. intros _. apply keeps_ret.
Qed.

Lemma keeps_update_outputs t fuel self output_dict activity_id kwargs :
  t <> "ToolParams" -> t <> "ActivityIO" ->
  keeps_table t (update_outputs env fuel self output_dict activity_id kwargs).
Proof.
  intros Hp Hio. unfold update_outputs. apply keeps_mapM. intros [name param].
  apply keeps_bind; [|intros p; apply keeps_ret].
  unfold update_output. simpl.
  destruct (py_truthy (is_input param)); [apply keeps_ret|].
  apply keeps_bind.
  - destruct (vdict_get name output_dict); [apply keeps_value_set|apply keeps_ret].
  - intros p. apply keeps_bind.
    + apply keeps_reads_store. apply reads_store_value_get.
    + intros own. apply keeps_record_io; assumption.
Qed.

Lemma keeps_write_batches t batch_ids activity_id :
  t <> "BatchActivity" -> keeps_table t (write_batches env batch_ids activity_id).
Proof.
  intros Hne. unfold write_batches.
  assert (H : forall l, keeps_table t
                (forM (fun batch_id =>
                         bind uuid1 (fun rid =>
                           m_set_row env "BatchActivity"
                             [("RelationshipID", rid); ("BatchID", batch_id);
                              ("ActivityID", activity_id)] "RelationshipID")) l)).
  { intros l. apply keeps_forM. intros b.
    apply keeps_bind; [apply keeps_uuid1|]. intros rid.
    apply keeps_m_set_row. exact Hne. }
  destruct batch_ids; try apply keeps_ret; apply H.
Qed.
End Success.

Lemma filter_map_if {A} (f : A -> bool) (g : A -> A) l :
  (forall x, f (g x) = f x) ->
  List.filter f (map (fun x => if f x then g x else x) l) = map g (List.filter f l).
Proof.
  intros Hfg. induction l as [|x rest IH]; simpl; [reflexivity|].
  destruct (f x) eqn:Hx.
  - rewrite Hfg, Hx. simpl. rewrite IH. reflexivity.
  - rewrite Hx. exact IH.
Qed.

Lemma update_pairs_literal vals pairs k v :
  update_pairs vals = Some pairs ->
  In (k, v) vals -> is_none v = false ->
  exists lit, quoted_literal v = Some lit.
Proof.
  revert pairs. induction vals as [|[col v0] rest IH]; simpl; intros pairs Hp Hin Hnn;
    [destruct Hin|].
  destruct (update_pairs rest) as [ps|]; [|discriminate].
  destruct Hin as [Heq|Hin].
  - inversion Heq; subst. rewrite Hnn in Hp.
    destruct (quoted_literal v); [eauto|discriminate].
  - apply (IH ps eq_refl Hin Hnn).
Qed.

Lemma quoted_literal_str s lit : quoted_literal (VStr s) = Some lit -> lit = VStr s.
Proof. simpl. destruct (has_quote s); intros H; inversion H. reflexivity. Qed.

Section Recorded.
Variable env : host.

Lemma write_batches_ticks batch_ids activity_id s u s' :
  write_batches env batch_ids activity_id s = (u, s') -> st_ticks s' = st_ticks s.
Proof.
  unfold write_batches.
  assert (H : forall l s u s',
             forM (fun batch_id =>
                     bind uuid1 (fun rid =>
                       m_set_row env "BatchActivity"
                         [("RelationshipID", rid); ("BatchID", batch_id);
                          ("ActivityID", activity_id)] "RelationshipID")) l s = (u, s') ->
             st_ticks s' = st_ticks s).
  { induction l as [|b rest IH]; simpl; intros s0 u0 s0' H.
    - inversion H. reflexivity.
    - unfold bind at 1 in H. unfold bind at 1 in H. unfold uuid1 at 1 in H.
      unfold m_set_row at 1 in H. simpl in H.
      destruct (set_row _ _ _ _ _) as [db'|e].
      + apply IH in H. exact H.
      + inversion H. reflexivity. }
  destruct batch_ids; try (intros E; inversion E; reflexivity); apply H.
Qed.
End Recorded.

Section SuccessfulRun.
Variable env : host.

Lemma end_activity_inv self activity_id succeeded message s s' :
  end_activity env self activity_id succeeded message s = (Ok tt, s') ->
  exists started cleaned db',
    start_time self = Some started /\
    db_update (st_db s) "Activity" "ActivityID" activity_id
              [("EndTime", VStr (strftime env (clock env (st_ticks s))));
               ("Duration",
                VStr (timedelta_str env (clock env (st_ticks s) - started)));
               ("Succeeded", VBool succeeded);
               ("Message", cleaned)] = Ok db' /\
    st_db s' = db'.
Proof.
  unfold end_activity. intros H.
  apply bind_inv in H as [cleaned [s1 [Hclean H]]].
  assert (Hs1 : s1 = s).
  { unfold clean_message in Hclean. destruct message; inversion Hclean; reflexivity. }
  subst s1.
  apply bind_inv in H as [end_time [s2 [Hnow H]]].
  unfold get_now in Hnow. inversion Hnow; subst end_time s2; clear Hnow.
  destruct (start_time self) as [started|]; [|discriminate].
  unfold m_update in H. simpl in H.
  destruct (db_update _ _ _ _ _) as [db'|e] eqn:Hupd; [|discriminate].
  inversion H; subst s'. exists started, cleaned, db'. repeat split. exact Hupd.
Qed.

(** X25: when [run] returns an output mapping, the store has one row
    for the activity, and the row says that it succeeded: it names
    the tool and its path and has the start time, the end time taken
    at the next reading of the clock, the duration between the two,
    and [Succeeded] set. *)
Theorem successful_run_is_recorded fuel self kwargs s self' output_dict s' :
  run env (S fuel) self kwargs s = (Ok (self', Some output_dict), s') ->
  exists activity_id n,
    success_recorded env activity_id self (clock env n) (clock env (S n)) (st_db s').
Proof.
  intros H. simpl in H.
  apply bind_inv in H as [prepared [s0 [Hprep H]]].
  destruct prepared as [[[[self0 aid] func] kw]|]; [|inversion H].
  unfold run_target in H.
  apply bind_inv in H as [self1 [s1 [Hstart H]]].
  apply bind_inv in H as [returned [s2 [Hinv H]]].
  destruct returned as [v|e].
  2:{ apply bind_inv in H as [[] [s3 [_ H]]]. inversion H. }
  cbv zeta in H. apply bind_inv in H as [ps [s3 [Hrec H]]].
  inversion H; subst self' output_dict s3; clear H.
  unfold record_success in Hrec. cbv zeta in Hrec.
  apply bind_inv in Hrec as [[] [s4 [Hwb Hrec]]].
  apply bind_inv in Hrec as [[] [s5 [Hend Hupd]]].
  destruct (prepare_inv env _ _ _ _ _ _ _ _ _ _ Hprep) as [[n0 ->] [_ [Hname Hpath]]].
  pose proof (start_activity_inv env _ _ _ _ _ Hstart) as Hself1.
  destruct (start_activity_state env _ _ _ _ _ Hstart) as [db1 [Hset Hs1]].
  destruct (set_row_written _ _ _ _ _ (VStr (uuid_str n0)) _ Hset eq_refl eq_refl)
    as [t [Hdb1 [Hcols Hrows]]].
  destruct (invoke_frame _ _ _ _ _ _ Hinv) as [Hdb2 [Hticks2 _]].
  assert (Hdb4 : st_db s4 !! "Activity" = st_db s2 !! "Activity").
  { match type of Hwb with
    | write_batches _ ?b _ _ = _ =>
        pose proof (keeps_write_batches env "Activity" b (VStr (uuid_str n0))
                      ltac:(discriminate) s2) as K
    end.
    rewrite Hwb in K. exact K. }
  pose proof (write_batches_ticks env _ _ _ _ _ Hwb) as Hticks4.
  destruct (end_activity_inv _ _ _ _ _ _ Hend) as [started [cleaned [db5 [Hst [Hu Hdb5]]]]].
  pose proof (keeps_update_outputs env "Activity" fuel self1
                (zip_outputs (outputs self1) v) (VStr (uuid_str n0)) kw
                ltac:(discriminate) ltac:(discriminate) s5) as Hdb3.
  rewrite Hupd in Hdb3. simpl in Hdb3.
  destruct (db_update_inv _ _ _ _ _ _ Hu) as [t' [pairs [lit [Ht' [Hp [Hq Hdb5']]]]]].
  assert (Ht : st_db s4 !! "Activity" = Some t).
  { rewrite Hdb4, Hdb2, Hs1. simpl. rewrite Hdb1. apply lookup_insert_eq. }
  rewrite Ht in Ht'. inversion Ht'; subst t'; clear Ht'.
  assert (Hstarted : started = clock env (st_ticks s0)).
  { rewrite Hself1 in Hst. simpl in Hst. inversion Hst. reflexivity. }
  assert (Hended : st_ticks s4 = S (st_ticks s0)).
  { rewrite Hticks4, Hticks2, Hs1. reflexivity. }
  rewrite Hended in *. subst started.
  set (vals := [("EndTime", VStr (strftime env (clock env (S (st_ticks s0)))));
                ("Duration",
                 VStr (timedelta_str env (clock env (S (st_ticks s0))
                                          - clock env (st_ticks s0))));
                ("Succeeded", VBool true);
                ("Message", cleaned)]) in *.
  set (r0 := [("ActivityID", VStr (uuid_str n0));
              ("ToolID", tool_id self0);
              ("ToolName", tool_name self0);
              ("ToolPath", tool_path self0);
              ("StartTime", VStr (strftime env (clock env (st_ticks s0))))]) in *.
  assert (Hkeys : List.NoDup (dict_keys pairs)).
  { apply (update_pairs_keys vals pairs Hp).
    repeat constructor; simpl; intuition discriminate. }
  assert (Hother : forall k,
             ~ In k ["EndTime"; "Duration"; "Succeeded"; "Message"] ->
             forall x, dget k (apply_pairs pairs x) = dget k x).
  { intros k Hk x. apply dget_apply_pairs_other.
    apply (update_pairs_untouched vals pairs k Hp).
    intros v0 Hin. exfalso. apply Hk. simpl in Hin.
    destruct Hin as [E|[E|[E|[E|[]]]]]; inversion E; simpl; auto. }
  assert (Hset_to : forall k v0 lit0,
             In (k, v0) vals -> quoted_literal v0 = Some lit0 ->
             forall x, dget k (apply_pairs pairs x) = lit0).
  { intros k v0 lit0 Hin Hl x. apply dget_apply_pairs_set; [exact Hkeys|].
    apply (update_pairs_has vals pairs k v0 lit0 Hp Hin Hl). }
  assert (Hstr : forall k text,
             In (k, VStr text) vals ->
             forall x, dget k (apply_pairs pairs x) = VStr text).
  { intros k text Hin x.
    destruct (update_pairs_literal vals pairs k (VStr text) Hp Hin eq_refl) as [l Hl].
    rewrite (Hset_to k (VStr text) l Hin Hl x). apply quoted_literal_str. exact Hl. }
  exists (VStr (uuid_str n0)), (st_ticks s0).
  exists (apply_pairs pairs (pad (t_columns t) r0)).
  assert (Hpad : forall k, In k (dict_keys r0) ->
                           dget k (pad (t_columns t) r0) = dget k r0).
  { intros k Hk. apply dget_pad. apply Hcols. apply In_row_columns_key. exact Hk. }
  split; [|split; [|split; [|split; [|split; [|split]]]]].
  - unfold rows_with_id, rows_of. rewrite Hdb3, Hdb5, Hdb5', lookup_insert_eq. simpl.
    rewrite (List.filter_ext
               (fun r => cell_eq (dget "ActivityID" r) (VStr (uuid_str n0)))
               (fun r => sql_eqb (dget "ActivityID" r) lit)).
    + rewrite (filter_map_if (fun r => sql_eqb (dget "ActivityID" r) lit)
                             (apply_pairs pairs)).
      * rewrite (List.filter_ext
                   (fun r => sql_eqb (dget "ActivityID" r) lit)
                   (fun r => cell_eq (dget "ActivityID" r) (VStr (uuid_str n0)))).
        -- rewrite Hrows. reflexivity.
        -- intros x. apply sql_eqb_literal. apply quoted_sql_literal. exact Hq.
      * intros x. rewrite Hother; [reflexivity|].
        simpl. intuition discriminate.
    + intros x. symmetry. apply sql_eqb_literal. apply quoted_sql_literal. exact Hq.
  - rewrite Hother by (simpl; intuition discriminate).
    rewrite Hpad by (simpl; auto). exact Hname.
  - rewrite Hother by (simpl; intuition discriminate).
    rewrite Hpad by (simpl; auto 6). exact Hpath.
  - rewrite Hother by (simpl; intuition discriminate).
    rewrite Hpad by (simpl; auto 6). reflexivity.
  - apply Hstr. simpl. auto.
  - apply Hstr. simpl. auto.
  - apply (Hset_to "Succeeded" (VBool true) (VInt 1)); [simpl; auto|reflexivity].
Qed.
End SuccessfulRun.

Lemma successful_run_is_recorded_witness :
  exists self' output_dict s' activity_id n,
    run example_host 3 flag_tool [] (store_state empty_store)
    = (Ok (self', Some output_dict), s') /\
    success_recorded example_host activity_id flag_tool
                     (clock example_host n) (clock example_host (S n)) (st_db s').
Proof.
  assert (H : exists self' output_dict s',
             run example_host 3 flag_tool [] (store_state empty_store)
             = (Ok (self', Some output_dict), s')).
  { do 3 eexists. vm_compute. reflexivity. }
  destruct H as [self' [output_dict [s' H]]].
  destruct (successful_run_is_recorded example_host 2 flag_tool [] (store_state empty_store)
              self' output_dict s' H) as [activity_id [n Hrec]].
  exists self', output_dict, s', activity_id, n. split; [exact H|exact Hrec].
Defined.

(** ** Writing a row and resolving it *)

Lemma numeric_dtype_with_text cells s :
  In (VStr s) cells -> numeric_dtype cells = false.
Proof.
  intros Hin. unfold numeric_dtype. apply andb_false_iff. right.
  apply not_true_is_false. intros Hall. rewrite forallb_forall in Hall.
  specialize (Hall (VStr s) Hin). discriminate.
Qed.

Lemma matches_insensitive_self key s r :
  dget key r = VStr s -> matches_insensitive key (VStr s) r = true.
Proof.
  intros H. unfold matches_insensitive. rewrite H. simpl. apply String.eqb_refl.
Qed.

(** X26: a row written by [set_row] under an identifier that is a
    string is the row [fill_config] resolves for that identifier:
    every field of the row written is in the resolved record with its
    value, provided no other row of the table carries an identifier
    that differs from it by case only. *)
Theorem set_row_then_fill_config template db table_name r id_col id db' name_column :
  set_row template db table_name r id_col = Ok db' ->
  dict_get id_col r = Some (VStr id) ->
  (forall old, In old (rows_of db table_name) ->
               matches_insensitive id_col (VStr id) old = true ->
               cell_eq (dget id_col old) (VStr id) = true) ->
  exists resolved,
    fill_config db' table_name id_col None (VStr id) name_column = Ok resolved /\
    forall k, In k (dict_keys r) -> dget k resolved = path_to_str (dget k r).
Proof.
  intros Hset Hid Hunique.
  destruct (set_row_inv _ _ _ _ _ _ _ Hset Hid) as [t' [-> [Hrows Hcols]]].
  destruct (set_row_written _ _ _ _ _ _ _ Hset Hid eq_refl) as [t'' [Heq [Hcols' _]]].
  assert (Ht : t'' = t').
  { assert (H : (<[table_name := t'']> db : DB) !! table_name
                = (<[table_name := t']> db : DB) !! table_name) by (rewrite Heq; reflexivity).
    rewrite !lookup_insert_eq in H. inversion H. reflexivity. }
  subst t''. clear Heq.
  assert (Hkey : In id_col (t_columns t')).
  { apply Hcols'. apply In_row_columns_key. eapply dict_get_In_keys. exact Hid. }
  assert (Hnew : dget id_col (pad (t_columns t') r) = VStr id).
  { rewrite dget_pad by exact Hkey. unfold dget. rewrite Hid. reflexivity. }
  assert (Hfound : get_row_insensitive (<[table_name := t']> db) table_name id_col (VStr id)
                   = Ok (Some (pad (t_columns t') r))).
  { unfold get_row_insensitive, db_get. rewrite lookup_insert_eq.
    rewrite (proj2 (mem_string_In id_col (t_columns t')) Hkey). simpl.
    rewrite (numeric_dtype_with_text _ id).
    2:{ rewrite Hrows, List.map_app. apply in_or_app. right. simpl. left. exact Hnew. }
    rewrite Hrows, List.filter_app, filter_none.
    - simpl. rewrite (matches_insensitive_self _ _ _ Hnew). reflexivity.
    - intros x Hx. apply in_map_iff in Hx as [old [<- Hold]].
      apply filter_In in Hold as [Hold Hne].
      apply not_true_is_false. intros Hm.
      assert (Hm' : matches_insensitive id_col (VStr id) old = true).
      { unfold matches_insensitive in *. rewrite dget_pad in Hm by exact Hkey. exact Hm. }
      pose proof (Hunique old Hold Hm') as Heq. unfold cell_eq in Heq.
      rewrite Hne in Heq. discriminate. }
  exists (override [] (pad (t_columns t') r)). split.
  - assert (Hfp : find_persisted (<[table_name := t']> db) table_name id_col []
                                 (VStr id) name_column
                  = Ok (Some (pad (t_columns t') r))).
    { unfold find_persisted. cbn [get_case_insensitive find_insensitive is_none].
      rewrite Hfound. reflexivity. }
    unfold fill_config. rewrite Hfp. reflexivity.
  - intros k Hk. rewrite dget_override.
    assert (Hin : In k (t_columns t')).
    { apply Hcols'. apply In_row_columns_key. exact Hk. }
    assert (Hget : dict_get k (pad (t_columns t') r) = Some (dget k r)).
    { clear - Hin. unfold pad. induction (t_columns t') as [|c rest IH]; [destruct Hin|].
      simpl. destruct (String.eqb c k) eqn:Hc.
      - apply String.eqb_eq in Hc. subst c. reflexivity.
      - destruct Hin as [->|Hin]; [rewrite String.eqb_refl in Hc; discriminate|].
        apply IH. exact Hin. }
    rewrite Hget. reflexivity.
Qed.

Lemma set_row_then_fill_config_witness :
  exists db' resolved,
    set_row (clotho_schema "Resources") drive_store "Resources"
            [("ResourceID", VStr "bogus9"); ("Name", VStr "Scratch"); ("Path", VStr "tmp")]
            "ResourceID" = Ok db' /\
    fill_config db' "Resources" "ResourceID" None (VStr "bogus9") None = Ok resolved /\
    dget "Name" resolved = VStr "Scratch".
Proof.
  assert (Hset : exists db',
             set_row (clotho_schema "Resources") drive_store "Resources"
                     [("ResourceID", VStr "bogus9"); ("Name", VStr "Scratch");
                      ("Path", VStr "tmp")]
                     "ResourceID" = Ok db').
  { eexists. vm_compute. reflexivity. }
  destruct Hset as [db' Hset].
  assert (Hunique : forall old,
             In old (rows_of drive_store "Resources") ->
             matches_insensitive "ResourceID" (VStr "bogus9") old = true ->
             cell_eq (dget "ResourceID" old) (VStr "bogus9") = true).
  { assert (Hrows : rows_of drive_store "Resources"
                    = [[("ResourceID", VStr "bogus1"); ("Name", VStr "X Drive");
                        ("Path", VStr "X:"); ("Parent", VNone)]])
      by (vm_compute; reflexivity).
    rewrite Hrows. intros old [<-|[]] Hm. vm_compute in Hm. discriminate. }
  destruct (set_row_then_fill_config _ _ _ _ _ "bogus9" db' None Hset eq_refl Hunique)
    as [resolved [Hfill Hfields]].
  exists db', resolved. split; [exact Hset|]. split; [exact Hfill|].
  rewrite (Hfields "Name"); [reflexivity|simpl; auto].
Defined.

(** ** Feeders that did not run *)

(** X27: an input parameter that is bound to a feeder needs the
    feeder: when no predecessor of the tool ran under the name of the
    feeder, or when the outputs of that predecessor have nothing under
    the name of the feeder parameter, the turn of [update_inputs] for
    the parameter raises [ClothoToolError], the message logged and
    nothing written. *)
Theorem feeder_must_have_run env fuel self activity_id pred_outputs default_pred_name
        name param kwargs s :
  py_truthy (is_input param) = true ->
  py_truthy (py_or (feeder_tool_name param) default_pred_name) = true ->
  py_truthy (feeder_param_name param) = true ->
  (vdict_get (py_or (feeder_tool_name param) default_pred_name) pred_outputs = None ->
   exists msg,
     update_input env fuel self activity_id pred_outputs default_pred_name name param
                  kwargs s
     = (Raise (ClothoToolError msg), add_log ERROR msg s)) /\
  (forall feeder_params,
     vdict_get (py_or (feeder_tool_name param) default_pred_name) pred_outputs
     = Some feeder_params ->
     vdict_get (feeder_param_name param) feeder_params = None ->
     exists msg,
       update_input env fuel self activity_id pred_outputs default_pred_name name param
                    kwargs s
       = (Raise (ClothoToolError msg), add_log ERROR msg s)).
Proof.
  intros Hinput Hfeeder Hparam. split.
  - intros Hnone. unfold update_input. rewrite Hinput. cbv zeta.
    rewrite Hfeeder, Hparam, Hnone. eexists. reflexivity.
  - intros feeder_params Hsome Hnone. unfold update_input. rewrite Hinput. cbv zeta.
    rewrite Hfeeder, Hparam, Hsome, Hnone. eexists. reflexivity.
Qed.

Lemma feeder_must_have_run_witness :
  exists msg,
    update_input example_host 3 crunch_tool (VStr "a1") [] VNone (VStr "rows")
                 (mkToolParam [("FeederToolName", VStr "Get Data");
                               ("FeederParamName", VStr "rows");
                               ("IsInput", VBool true)]
                              (VStr "rows") false)
                 [] (store_state empty_store)
    = (Raise (ClothoToolError msg), add_log ERROR msg (store_state empty_store)).
Proof.
  apply (proj1 (feeder_must_have_run example_host 3 crunch_tool (VStr "a1") [] VNone
                  (VStr "rows")
                  (mkToolParam [("FeederToolName", VStr "Get Data");
                                ("FeederParamName", VStr "rows");
                                ("IsInput", VBool true)]
                               (VStr "rows") false)
                  [] (store_state empty_store) eq_refl eq_refl eq_refl)).
  reflexivity.
Defined.
